(** * ChargePilot-AI: column mapping, feature building, model selection
      and the range / charging arithmetic of the prediction service

    A shallow embedding of the Python sources under [ml-model/]:

    - [src/clean_real_data.py]  ([RealDataCleaner.auto_detect_columns],
                                 [clean_consumption_data],
                                 [clean_stations_data])
    - [src/preprocessor.py]     ([EVDataPreprocessor.prepare_features])
    - [train_advanced.py]       (target column, engineered features,
                                 ensemble weights and promotion rule)
    - [api/app.py]              ([prepare_features], [predict_consumption],
                                 [predict_range], [recommend_charge],
                                 [predict], [recommend_charging])
    - [src/predictor.py]        ([EVRangePredictor.__init__], [predict])

    Conventions of the embedding.

    - Python [float]s are modelled by exact rationals [Q]; binary64
      rounding error, infinities and NaN are not represented.  A float
      division whose divisor is zero is explicit: [checked_div] returns
      [None] there.  The documented charge scenario is evaluated in
      binary64 as well ([Binary64]).
    - Python [str] is [string] (a sequence of bytes); [str.lower] is the
      ASCII lower-casing.
    - A [dict] keyed by strings is a [gmap string _]; a pandas frame of
      derived features is an ordered association list of named columns,
      because column order and duplicate labels matter there.
    - Trained regressors, the fitted [StandardScaler] and [r2_score] are
      external library objects: their results enter as parameters.
      What they raise where the sources call them (a scaler that was
      never fitted, a keyword a regressor does not take, a NumPy bool
      handed to [jsonify]) is part of the embedding. *)

From Stdlib Require Import Ascii QArith Qround Qabs Qminmax PrimFloat.
From stdpp Require Import gmap strings list sorting pretty.

(* ===================================================================== *)
(** * Python primitives used by the sources                               *)
(* ===================================================================== *)

Module Py.

(** [c.lower()] on one ASCII byte. *)
Definition ascii_lower (c : ascii) : ascii :=
  let n := Ascii.nat_of_ascii c in
  if (65 <=? n)%nat && (n <=? 90)%nat then Ascii.ascii_of_nat (n + 32) else c.

(** [s.lower()]. *)
Fixpoint lower (s : string) : string :=
  match s with
  | EmptyString => EmptyString
  | String c s' => String (ascii_lower c) (lower s')
  end.

(** [x < y] and [x > y] on numbers, as booleans. *)
Definition ltb (x y : Q) : bool := if Qlt_le_dec x y then true else false.
Definition gtb (x y : Q) : bool := ltb y x.
Definition geb (x y : Q) : bool := negb (ltb x y).

(** [min(a, b)]: the first of the smallest arguments. *)
Definition min (a b : Q) : Q := if ltb b a then b else a.

(** [max(a, b)]: the first of the largest arguments. *)
Definition max (a b : Q) : Q := if gtb b a then b else a.

(** [a / b] on floats.  [None] stands for a zero divisor, where the
    outcome ([ZeroDivisionError], or an IEEE infinity / NaN for numpy
    scalars) lies outside the rational model. *)
Definition checked_div (a b : Q) : option Q :=
  if Qeq_bool b 0 then None else Some (a / b)%Q.

(** Round an exact rational to the nearest integer, ties to even. *)
Definition round_half_even (x : Q) : Z :=
  let f := Qfloor x in
  let d := (x - inject_Z f)%Q in
  if ltb d (1 # 2) then f
  else if ltb (1 # 2) d then (f + 1)%Z
  else if Z.even f then f else (f + 1)%Z.

(** [round(x, ndigits)] for [ndigits >= 0]. *)
Definition round (x : Q) (ndigits : nat) : Q :=
  let scale := (10 ^ Z.of_nat ndigits)%Z in
  Qmake (round_half_even (x * inject_Z scale)) (Z.to_pos scale).

End Py.

(* ===================================================================== *)
(** * The fragment of [re] used by the column patterns                    *)
(* ===================================================================== *)

(** Every pattern of [auto_detect_columns] is built from literal
    characters, [.], a starred single character ([.*]), and the anchors
    [^] and [$].  [compile] accepts exactly that fragment and rejects any
    other metacharacter; [search] is [re.search] without flags. *)
Module Re.

Inductive atom : Type :=
| Lit (c : ascii)
| Dot.

Inductive item : Type :=
| One (a : atom)
| Star (a : atom)
| Bol
| Eol.

Definition regex : Type := list item.

Definition newline : ascii := Ascii.ascii_of_nat 10.

Definition is_meta (c : ascii) : bool :=
  existsb (Ascii.eqb c)
    ["*"; "+"; "?"; "{"; "}"; "["; "]"; "\"; "|"; "("; ")"]%char.

Definition atom_of (c : ascii) : atom :=
  if Ascii.eqb c "." then Dot else Lit c.

Fixpoint compile (p : string) : option regex :=
  match p with
  | EmptyString => Some []
  | String c p' =>
      if is_meta c then None
      else if Ascii.eqb c "^" then cons Bol <$> compile p'
      else if Ascii.eqb c "$" then cons Eol <$> compile p'
      else match p' with
           | String "*" p'' => cons (Star (atom_of c)) <$> compile p''
           | _ => cons (One (atom_of c)) <$> compile p'
           end
  end.

Definition atom_matches (a : atom) (c : ascii) : bool :=
  match a with
  | Lit d => Ascii.eqb c d
  | Dot => negb (Ascii.eqb c newline)
  end.

(** [$] holds at the end of the string and just before a final newline. *)
Definition at_end (s : string) : bool :=
  match s with
  | EmptyString => true
  | String c EmptyString => Ascii.eqb c newline
  | _ => false
  end.

(** [match_here re b s]: [re] matches a prefix of [s]; [b] tells whether
    [s] starts at position 0 of the subject. *)
Fixpoint match_here (re : regex) : bool -> string -> bool :=
  match re with
  | [] => fun _ _ => true
  | One a :: re' => fun _ s =>
      match s with
      | String c s' => atom_matches a c && match_here re' false s'
      | EmptyString => false
      end
  | Star a :: re' =>
      fix star (b : bool) (s : string) : bool :=
        match_here re' b s ||
        match s with
        | String c s' => atom_matches a c && star false s'
        | EmptyString => false
        end
  | Bol :: re' => fun b s => b && match_here re' b s
  | Eol :: re' => fun b s => at_end s && match_here re' b s
  end.

Fixpoint search_from (re : regex) (b : bool) (s : string) : bool :=
  match_here re b s ||
  match s with
  | String _ s' => search_from re false s'
  | EmptyString => false
  end.

(** [bool(re.search(pattern, s))].  A pattern outside the fragment has
    no compiled form; none of the source's patterns is (see
    [consumption_patterns_compile], [stations_patterns_compile]). *)
Definition search (pattern s : string) : bool :=
  match compile pattern with
  | Some re => search_from re true s
  | None => false
  end.

End Re.

(* ===================================================================== *)
(** * [clean_real_data.py]: the Column Mapper                             *)
(* ===================================================================== *)

Module ColumnMapper.

(** The [patterns] dict of the ['consumption'] branch, in insertion
    order. *)
Definition consumption_patterns : list (string * list string) :=
  [ ("Battery_Capacity_kWh",
      ["battery.*capacity"; "capacity.*kwh"; "battery.*kwh";
       "bat.*cap"; "kwh"; "capacity"]);
    ("Current_SoC_%",
      ["soc"; "state.*charge"; "battery.*level"; "charge.*level";
       "battery.*percent"; "soc.*%"; "current.*soc"]);
    ("Avg_Speed_kmh",
      ["speed"; "avg.*speed"; "average.*speed"; "velocity";
       "km.*h"; "kmph"; "speed.*kmh"]);
    ("Temperature_C",
      ["temp"; "temperature"; "ambient.*temp"; "temp.*c"; "celsius"]);
    ("Terrain",
      ["terrain"; "road.*type"; "route.*type"; "driving.*condition"]);
    ("AC_Usage",
      ["ac"; "air.*condition"; "hvac"; "ac.*usage"; "climate"]);
    ("Driving_Style",
      ["driving.*style"; "drive.*mode"; "style"; "mode";
       "driving.*behavior"]);
    ("Range_km",
      ["range"; "distance"; "range.*km"; "actual.*range";
       "achieved.*range"; "km.*range"]) ].

(** The [patterns] dict of the [else] (stations) branch. *)
Definition stations_patterns : list (string * list string) :=
  [ ("Station_Name", ["name"; "station.*name"; "title"; "location.*name"]);
    ("Latitude", ["lat"; "latitude"; "^lat$"]);
    ("Longitude", ["lon"; "lng"; "longitude"; "^lon$"; "^lng$"]);
    ("City", ["city"; "town"; "location"; "area"]);
    ("State", ["state"; "province"; "region"]) ].

Definition patterns (dataset_type : string) : list (string * list string) :=
  if String.eqb dataset_type "consumption"
  then consumption_patterns
  else stations_patterns.

(** The innermost loop: [for pattern in pattern_list: if re.search(...):
    mapping[std_name] = col; break]. *)
Fixpoint try_patterns (std_name col col_lower : string)
    (pattern_list : list string) (mapping : gmap string string)
    : gmap string string :=
  match pattern_list with
  | [] => mapping
  | pattern :: rest =>
      if Re.search pattern col_lower
      then <[std_name := col]> mapping
      else try_patterns std_name col col_lower rest mapping
  end.

(** The middle loop: [for col in columns: ...; if std_name in mapping:
    break]. *)
Fixpoint scan_columns (std_name : string) (pattern_list : list string)
    (columns : list string) (mapping : gmap string string)
    : gmap string string :=
  match columns with
  | [] => mapping
  | col :: rest =>
      let col_lower := Py.lower col in
      let mapping' :=
        try_patterns std_name col col_lower pattern_list mapping in
      if decide (is_Some (mapping' !! std_name))
      then mapping'
      else scan_columns std_name pattern_list rest mapping'
  end.

(** [RealDataCleaner.auto_detect_columns(df, dataset_type)], as a
    function of [df.columns.tolist()]. *)
Definition auto_detect_columns (columns : list string)
    (dataset_type : string) : gmap string string :=
  fold_left
    (fun mapping '(std_name, pattern_list) =>
       scan_columns std_name pattern_list columns mapping)
    (patterns dataset_type) ∅.

(** The mapping rule in the words of the specification: the patterns of
    a field are tried in order, and the first pattern that matches any
    lower-cased column name fixes the mapping (to the first column that
    pattern matches). *)
Fixpoint spec_first_pattern_wins (pattern_list : list string)
    (columns : list string) : option string :=
  match pattern_list with
  | [] => None
  | pattern :: rest =>
      match find (fun col => Re.search pattern (Py.lower col)) columns with
      | Some col => Some col
      | None => spec_first_pattern_wins rest columns
      end
  end.

(** What the loops compute: the first column, in column order, whose
    lower-cased name is matched by any pattern of the field. *)
Definition first_matching_column (pattern_list : list string)
    (columns : list string) : option string :=
  find (fun col =>
          existsb (fun pattern => Re.search pattern (Py.lower col))
                  pattern_list)
       columns.

(** [patterns.get(std_name)] on the ordered table. *)
Fixpoint table_lookup (std_name : string)
    (table : list (string * list string)) : option (list string) :=
  match table with
  | [] => None
  | (k, v) :: rest =>
      if String.eqb k std_name then Some v else table_lookup std_name rest
  end.

End ColumnMapper.

(* ===================================================================== *)
(** * [preprocessor.py]: the Feature Builder                              *)
(* ===================================================================== *)

Module Preprocessor.

Local Open Scope Q_scope.

(** One record of the canonical schema.  [Current_SoC_pct] is the column
    ['Current_SoC_%']. *)
Record Row : Type := mkRow {
  Battery_Capacity_kWh : Q;
  Current_SoC_pct : Q;
  Avg_Speed_kmh : Q;
  Temperature_C : Q;
  Terrain : string;
  AC_Usage : string;
  Driving_Style : string;
  Range_km : Q
}.

(** A pandas frame over the canonical schema: [columns] is
    [df.columns]; a field of a row is read only when its column is
    listed there. *)
Record DataFrame : Type := mkDataFrame {
  columns : list string;
  rows : list Row
}.

(** The derived [features] frame: named columns, in order. *)
Definition Frame : Type := list (string * list Q).

(** [name in df.columns] *)
Definition has_column (name : string) (cols : list string) : bool :=
  bool_decide (name ∈ cols).

(** [features.columns.tolist()] *)
Definition names (features : Frame) : list string := features.*1.

(** [features[name]] for a single label. *)
Fixpoint get_col (name : string) (features : Frame) : option (list Q) :=
  match features with
  | [] => None
  | (n, c) :: rest => if decide (n = name) then Some c else get_col name rest
  end.

(** [features[name] = c]: overwrite the column of that label, or append
    a new last column. *)
Fixpoint set_col (name : string) (c : list Q) (features : Frame) : Frame :=
  match features with
  | [] => [(name, c)]
  | (n, c0) :: rest =>
      if decide (n = name) then (n, c) :: rest
      else (n, c0) :: set_col name c rest
  end.

(** [len(features.index)]: a frame created by [pd.DataFrame()] has an
    empty index until a first column is assigned to it. *)
Definition nrows (features : Frame) : nat :=
  match features with
  | [] => 0%nat
  | (_, c) :: _ => length c
  end.

(** The sorted distinct values of a categorical column. *)
Definition categories (data : list string) : list string :=
  merge_sort String.le (remove_dups data).

(** [pd.get_dummies(data, prefix=prefix)]: one indicator column per
    category, named [prefix_value], in sorted order of the values. *)
Definition get_dummies (data : list string) (prefix : string) : Frame :=
  (fun v => (prefix +:+ "_" +:+ v,
             (fun x => if decide (x = v) then 1 else 0) <$> data))
    <$> categories data.

(** [astype(str).str.lower().isin(['on', 'yes', '1', 'true']).astype(int)]
    on one value. *)
Definition ac_on (v : string) : Q :=
  if bool_decide (Py.lower v ∈ ["on"; "yes"; "1"; "true"]) then 1 else 0.

(** "Numerical Features", lines 30-49. *)
Definition numerical_features (df : DataFrame) (features : Frame) : Frame :=
  let cols := columns df in
  let rs := rows df in
  let features :=
    if has_column "Battery_Capacity_kWh" cols
    then set_col "battery_capacity_kwh" (Battery_Capacity_kWh <$> rs) features
    else features in
  let features :=
    if has_column "Current_SoC_%" cols
    then set_col "current_soc_normalized"
           ((fun r => Current_SoC_pct r / 100) <$> rs)
           (set_col "current_soc_pct" (Current_SoC_pct <$> rs) features)
    else features in
  let features :=
    if has_column "Avg_Speed_kmh" cols
    then set_col "avg_speed_kmh" (Avg_Speed_kmh <$> rs) features
    else features in
  let features :=
    if has_column "Temperature_C" cols
    then set_col "temperature_c" (Temperature_C <$> rs) features
    else features in
  if has_column "Battery_Capacity_kWh" cols && has_column "Current_SoC_%" cols
  then set_col "available_energy_kwh"
         ((fun r => Battery_Capacity_kWh r * Current_SoC_pct r / 100) <$> rs)
         features
  else features.

(** "Categorical Features (One-Hot Encoding)", lines 51-65;
    [pd.concat([features, dummies], axis=1)] appends the columns. *)
Definition categorical_features (df : DataFrame) (features : Frame) : Frame :=
  let cols := columns df in
  let rs := rows df in
  let features :=
    if has_column "Terrain" cols
    then features ++ get_dummies (Terrain <$> rs) "terrain"
    else features in
  let features :=
    if has_column "AC_Usage" cols
    then set_col "ac_on" ((fun r => ac_on (AC_Usage r)) <$> rs) features
    else features in
  if has_column "Driving_Style" cols
  then features ++ get_dummies (Driving_Style <$> rs) "driving"
  else features.

(** "Interaction Features", lines 67-86. *)
Definition interaction_features (features : Frame) : Frame :=
  let features :=
    match get_col "avg_speed_kmh" features,
          get_col "terrain_Highway" features with
    | Some speed, Some highway =>
        set_col "speed_terrain_highway" (zip_with Qmult speed highway) features
    | _, _ => features
    end in
  let features :=
    match get_col "temperature_c" features, get_col "ac_on" features with
    | Some temp, Some ac =>
        set_col "temp_ac_interaction" (zip_with Qmult temp ac) features
    | _, _ => features
    end in
  let features :=
    match get_col "avg_speed_kmh" features with
    | Some speed =>
        set_col "speed_deviation_from_optimal"
          ((fun x => Qabs (x - 60)) <$> speed) features
    | None => features
    end in
  match get_col "temperature_c" features with
  | Some temp =>
      set_col "temp_deviation_from_optimal"
        ((fun x => Qabs (x - (45 # 2))) <$> temp) features
  | None => features
  end.

(** Lines 28-86: everything [prepare_features] derives from [df] before
    it consults [self.feature_names]. *)
Definition build_features (df : DataFrame) : Frame :=
  interaction_features (categorical_features df (numerical_features df [])).

(** The preprocessor object.  Its [scaler] is a fitted [StandardScaler]
    of scikit-learn; it rescales each column of the frame that
    [prepare_features] returns and neither renames, reorders nor drops
    columns, so it is left out of the state. *)
Record EVDataPreprocessor : Type := mkPreprocessor {
  feature_names : list string
}.

(** [self.target_name], assigned once in [__init__]. *)
Definition target_name : string := "Range_km".

(** [EVDataPreprocessor()] *)
Definition init : EVDataPreprocessor := {| feature_names := [] |}.

(** Lines 92-95: [for col in self.feature_names: if col not in
    features.columns: features[col] = 0]. *)
Definition fill_missing (expected : list string) (features : Frame) : Frame :=
  fold_left
    (fun features col =>
       if has_column col (names features) then features
       else set_col col (replicate (nrows features) 0) features)
    expected features.

(** [features[labels]] for a list of labels: [None] is pandas'
    [KeyError] for a label that is not a column; a label carried by
    several columns selects them all. *)
Definition select (labels : list string) (features : Frame) : option Frame :=
  if forallb (fun l => has_column l (names features)) labels
  then Some (flat_map (fun l => filter (fun c => c.1 = l) features) labels)
  else None.

(** [EVDataPreprocessor.prepare_features(df, fit)], state-passing: the
    result carries the preprocessor after the call, the feature frame
    and the target column [y] ([None] when the frame has no target). *)
Definition prepare_features (self : EVDataPreprocessor) (df : DataFrame)
    (fit : bool) : option (EVDataPreprocessor * Frame * option (list Q)) :=
  let y :=
    if has_column target_name (columns df)
    then Some (Range_km <$> rows df) else None in
  let features := build_features df in
  let self :=
    if fit then {| feature_names := names features |} else self in
  let features := fill_missing (feature_names self) features in
  features ← select (feature_names self) features;
  Some (self, features, y).

(** [fit_transform(df)] and [transform(df)] up to the scaler: the frame
    that [prepare_features] hands to [self.scaler].  ([fit_transform]
    goes on to read [y.values], which needs the target column.) *)
Definition fit_transform (self : EVDataPreprocessor) (df : DataFrame)
    : option (EVDataPreprocessor * Frame * option (list Q)) :=
  prepare_features self df true.

Definition transform (self : EVDataPreprocessor) (df : DataFrame)
    : option (EVDataPreprocessor * Frame) :=
  '(self, X, _) ← prepare_features self df false;
  Some (self, X).

(** The preprocessor object after [fit_transform(df)] was called on it:
    [prepare_features] assigns [self.feature_names] before anything in
    [fit_transform] can fail. *)
Definition fitted_by (self : EVDataPreprocessor) (df : DataFrame)
    : EVDataPreprocessor :=
  match prepare_features self df true with
  | Some (self, _, _) => self
  | None => self
  end.

(** Successive [transform] calls on one preprocessor object, one per
    data frame, collecting the frames. *)
Fixpoint transform_each (self : EVDataPreprocessor) (dfs : list DataFrame)
    : option (EVDataPreprocessor * list Frame) :=
  match dfs with
  | [] => Some (self, [])
  | df :: rest =>
      '(self, X) ← transform self df;
      '(self, Xs) ← transform_each self rest;
      Some (self, X :: Xs)
  end.

(** The two one-hot encoded fields. *)
Inductive categorical : Type := TerrainField | DrivingStyleField.

Definition field_column (fld : categorical) : string :=
  match fld with
  | TerrainField => "Terrain"
  | DrivingStyleField => "Driving_Style"
  end.

Definition field_prefix (fld : categorical) : string :=
  match fld with
  | TerrainField => "terrain"
  | DrivingStyleField => "driving"
  end.

Definition field_value (fld : categorical) (r : Row) : string :=
  match fld with
  | TerrainField => Terrain r
  | DrivingStyleField => Driving_Style r
  end.

(** The label of the indicator column of value [v]. *)
Definition indicator_name (fld : categorical) (v : string) : string :=
  field_prefix fld +:+ "_" +:+ v.

(** [v] occurs in the column of [fld] in [df]. *)
Definition observed (fld : categorical) (df : DataFrame) (v : string) : bool :=
  has_column (field_column fld) (columns df) &&
  bool_decide (v ∈ field_value fld <$> rows df).

End Preprocessor.

(* ===================================================================== *)
(** * [train_advanced.py]: ensemble weights and the promotion rule        *)
(* ===================================================================== *)

Module Training.

Local Open Scope Q_scope.

(** A row of [results_df], restricted to the columns the selection
    reads. *)
Record Result : Type := mkResult {
  Model : string;
  Test_R2 : Q;
  Accuracy_pct : Q
}.

(** The [result] dict of the training loop (line 307):
    ['Accuracy (%)': test_r2 * 100]. *)
Definition result (name : string) (test_r2 : Q) : Result :=
  {| Model := name; Test_R2 := test_r2; Accuracy_pct := test_r2 * 100 |}.

(** [weights.sum()] *)
Definition sum (l : list Q) : Q := foldr Qplus 0 l.

(** Lines 368-369 on [results_df] sorted by test R², best first:
    [weights = results_df.head(3)['Test R²'].values;
     weights = weights / weights.sum()].
    [None] for a zero sum, where numpy yields NaN or infinities. *)
Definition ensemble_weights (results_df : list Result) : option (list Q) :=
  let weights := Test_R2 <$> take 3 results_df in
  let total := sum weights in
  if Qeq_bool total 0 then None
  else Some ((fun w => w / total) <$> weights).

(** The variables [best_model_name], [best_score], [best_accuracy]. *)
Record Best : Type := mkBest {
  best_model_name : string;
  best_score : Q;
  best_accuracy : Q
}.

(** Section 9, [results_df.iloc[0]]; [None] is the [IndexError] of an
    empty frame. *)
Definition select_best (results_df : list Result) : option Best :=
  match results_df with
  | r :: _ =>
      Some {| best_model_name := Model r;
              best_score := Test_R2 r;
              best_accuracy := Accuracy_pct r |}
  | [] => None
  end.

(** What section 10 leaves behind: the selection, and the ensemble
    (members, weights, test R²) when one was created. *)
Record Outcome : Type := mkOutcome {
  selected : Best;
  ensemble : option (list string * list Q * Q)
}.

Section Ensemble.

(** The test R² of the weighted ensemble of the named models
    ([r2_score(y_test, ensemble_pred_test)]): a function of the
    trained models, which are fixed, and of the weights. *)
Variable ensemble_r2 : list string -> list Q -> Q.

(** Section 10, lines 358-404. *)
Definition ensemble_stage (results_df : list Result) (best : Best)
    : option Outcome :=
  if Py.ltb (best_accuracy best) 98 then
    let top_models := Model <$> take 3 results_df in
    weights ← ensemble_weights results_df;
    let ensemble_test_r2 := ensemble_r2 top_models weights in
    let best :=
      if Py.gtb ensemble_test_r2 (best_score best)
      then {| best_model_name := "Ensemble";
              best_score := ensemble_test_r2;
              best_accuracy := ensemble_test_r2 * 100 |}
      else best in
    Some {| selected := best;
            ensemble := Some (top_models, weights, ensemble_test_r2) |}
  else Some {| selected := best; ensemble := None |}.

(** Sections 9 and 10 in sequence. *)
Definition select_model (results_df : list Result) : option Outcome :=
  best ← select_best results_df;
  ensemble_stage results_df best.

End Ensemble.

End Training.

(* ===================================================================== *)
(** * [api/app.py]: range and charging arithmetic of the endpoints        *)
(* ===================================================================== *)

(** The handlers read numbers from the request and one number from the
    loaded model, [predicted_consumption =
    predict_consumption(scaler.transform(prepare_features(data)))]; that
    number is an argument here.  A handler returns [None] exactly when a
    float division meets a zero divisor. *)
Module Api.

Local Open Scope Q_scope.

Definition SAFETY_BUFFER : Q := 15 # 100.

(** [jsonify(body), 200] or [jsonify({"success": False, "error": ...}),
    400]. *)
Inductive Response (A : Type) : Type :=
| Http200 (body : A)
| Http400 (error : string).
Arguments Http200 {A} body.
Arguments Http400 {A} error.

(** [float(data.get(key, default))] on an optional numeric field. *)
Definition get (field : option Q) (default : Q) : Q :=
  match field with Some v => v | None => default end.

(** ** [/api/predict-range] *)

Record RangeRequest : Type := mkRangeRequest {
  battery_percentage : option Q;
  range_battery_capacity_kwh : option Q;
  avg_speed_kmh : option Q;
  temperature_celsius : option Q
}.

Record RangeBody : Type := mkRangeBody {
  range_success : bool;
  predicted_range_km : Q;
  max_range_km : Q;
  consumption_kwh_per_100km : Q;
  available_energy_kwh : Q;
  safety_buffer_percent : Q;
  range_model_accuracy : Q
}.

(** Lines 119-145; [accuracy] is [metadata['accuracy']]. *)
Definition predict_range (accuracy : Q) (data : RangeRequest)
    (predicted_consumption : Q) : option (Response RangeBody) :=
  let battery_pct := get (battery_percentage data) 100 in
  let battery_capacity := get (range_battery_capacity_kwh data) 50 in
  let available_energy_kwh := (battery_pct / 100) * battery_capacity in
  predicted_range_km ←
    Py.checked_div available_energy_kwh predicted_consumption;
  let safe_range_km := predicted_range_km * (1 - SAFETY_BUFFER) in
  Some (Http200
    {| range_success := true;
       predicted_range_km := Py.round safe_range_km 2;
       max_range_km := Py.round predicted_range_km 2;
       consumption_kwh_per_100km := Py.round (predicted_consumption * 100) 2;
       available_energy_kwh := Py.round available_energy_kwh 2;
       safety_buffer_percent := SAFETY_BUFFER * 100;
       range_model_accuracy := accuracy |}).

(** The body of [predict_range_internal], which serves [/predict]. *)
Record InternalRangeBody : Type := mkInternalRangeBody {
  internal_success : bool;
  predicted_range : Q;
  internal_max_range_km : Q;
  battery_percent : Q;
  method : string;
  condition_temperature : Q;
  condition_speed : Q
}.

(** Lines 230-261. *)
Definition predict_range_internal (data : RangeRequest)
    (predicted_consumption : Q) : option (Response InternalRangeBody) :=
  let battery_pct := get (battery_percentage data) 100 in
  let battery_capacity := get (range_battery_capacity_kwh data) 50 in
  let available_energy_kwh := (battery_pct / 100) * battery_capacity in
  predicted_range_km ←
    Py.checked_div available_energy_kwh predicted_consumption;
  let safe_range_km := predicted_range_km * (1 - SAFETY_BUFFER) in
  Some (Http200
    {| internal_success := true;
       predicted_range := Py.round safe_range_km 2;
       internal_max_range_km := Py.round predicted_range_km 2;
       battery_percent := battery_pct;
       method := "trained_model";
       condition_temperature := get (temperature_celsius data) 25;
       condition_speed := get (avg_speed_kmh data) 60 |}).

(** ** [/api/recommend-charge] and [/recommend-charging] *)

Record ChargeRequest : Type := mkChargeRequest {
  distance_to_destination_km : option Q;
  battery_capacity_kwh : option Q;
  current_battery_pct : option Q
}.

(** The local variables of the two charge handlers, before rounding.
    The predicted consumption is a NumPy float, and so is all that is
    computed from it; [min(x, 100)] returns its second argument, the
    Python int [100], only when [100 < x].  [required_is_int] records
    that. *)
Record ChargeCalc : Type := mkChargeCalc {
  energy_needed_kwh : Q;
  required_battery_pct : Q;
  required_is_int : bool;
  charge_needed_pct : Q;
  energy_to_add : Q;
  charging_time_minutes : Q;
  estimated_cost : Q
}.

(** Lines 166-177 of [recommend_charge]. *)
Definition recommend_charge_calc (distance_needed battery_capacity
    current_pct predicted_consumption : Q) : option ChargeCalc :=
  energy_needed_kwh ←
    Py.checked_div (distance_needed * predicted_consumption)
                   (1 - SAFETY_BUFFER);
  fraction ← Py.checked_div energy_needed_kwh battery_capacity;
  let required_battery_pct := Py.min (fraction * 100) 100 in
  let charge_needed_pct := Py.max 0 (required_battery_pct - current_pct) in
  let charger_power_kw := 50 in
  let energy_to_add := (charge_needed_pct / 100) * battery_capacity in
  hours ← Py.checked_div energy_to_add charger_power_kw;
  let charging_time_minutes := hours * 60 in
  let estimated_cost := energy_to_add * 20 in
  Some {| energy_needed_kwh := energy_needed_kwh;
          required_battery_pct := required_battery_pct;
          required_is_int := Py.ltb 100 (fraction * 100);
          charge_needed_pct := charge_needed_pct;
          energy_to_add := energy_to_add;
          charging_time_minutes := charging_time_minutes;
          estimated_cost := estimated_cost |}.

Record ChargeBody : Type := mkChargeBody {
  charge_success : bool;
  is_reachable : bool;
  body_current_battery_pct : Q;
  body_required_battery_pct : Q;
  body_charge_needed_pct : Q;
  estimated_charging_time_minutes : Q;
  body_energy_needed_kwh : Q;
  estimated_cost_inr : Q;
  charge_model_accuracy : Q
}.

(** [str(e)] of the [TypeError] that [jsonify] raises on a NumPy
    bool. *)
Definition bool_not_serializable : string :=
  "Object of type bool is not JSON serializable".

(** Lines 152-192; [accuracy] is [metadata['accuracy']] and
    [predicted_consumption] the NumPy float that [predict_consumption]
    returned.  ["is_reachable": current_pct >= required_battery_pct]
    compares a Python float with [required_battery_pct]: the result is
    a Python bool when that is the int [100], and a NumPy bool
    otherwise, which [jsonify] cannot serialise; the [TypeError] it
    raises is caught at line 191 and answered with 400. *)
Definition recommend_charge (accuracy : Q) (data : ChargeRequest)
    (predicted_consumption : Q) : option (Response ChargeBody) :=
  let distance_needed := get (distance_to_destination_km data) 0 in
  let battery_capacity := get (battery_capacity_kwh data) 50 in
  let current_pct := get (current_battery_pct data) 100 in
  c ← recommend_charge_calc distance_needed battery_capacity current_pct
        predicted_consumption;
  if required_is_int c
  then Some (Http200
    {| charge_success := true;
       is_reachable := Py.geb current_pct (required_battery_pct c);
       body_current_battery_pct := current_pct;
       body_required_battery_pct := Py.round (required_battery_pct c) 1;
       body_charge_needed_pct := Py.round (charge_needed_pct c) 1;
       estimated_charging_time_minutes :=
         Py.round (charging_time_minutes c) 1;
       body_energy_needed_kwh := Py.round (energy_needed_kwh c) 2;
       estimated_cost_inr := Py.round (estimated_cost c) 2;
       charge_model_accuracy := accuracy |})
  else Some (Http400 bool_not_serializable).

(** The request of the backward-compatible [/recommend-charging]. *)
Record LegacyChargeRequest : Type := mkLegacyChargeRequest {
  distance_remaining : option Q;
  battery_capacity : option Q;
  current_soc : option Q;
  charger_power : option Q
}.

(** Lines 293-310 of [recommend_charging]. *)
Definition recommend_charging_calc (distance_needed battery_capacity
    current_pct charger_power predicted_consumption : Q)
    : option ChargeCalc :=
  energy_needed_kwh ←
    Py.checked_div (distance_needed * predicted_consumption)
                   (1 - SAFETY_BUFFER);
  fraction ← Py.checked_div energy_needed_kwh battery_capacity;
  let required_battery_pct := Py.min (fraction * 100) 100 in
  let charge_needed_pct := Py.max 0 (required_battery_pct - current_pct) in
  let energy_to_add := (charge_needed_pct / 100) * battery_capacity in
  let avg_charging_speed :=
    if Py.gtb required_battery_pct 80
    then charger_power * (6 # 10)
    else charger_power * (85 # 100) in
  hours ← Py.checked_div energy_to_add avg_charging_speed;
  let charging_time_minutes := hours * 60 in
  let estimated_cost := energy_to_add * 15 in
  Some {| energy_needed_kwh := energy_needed_kwh;
          required_battery_pct := required_battery_pct;
          required_is_int := Py.ltb 100 (fraction * 100);
          charge_needed_pct := charge_needed_pct;
          energy_to_add := energy_to_add;
          charging_time_minutes := charging_time_minutes;
          estimated_cost := estimated_cost |}.

Record LegacyChargeBody : Type := mkLegacyChargeBody {
  legacy_success : bool;
  body_current_soc : Q;
  recommended_target_soc : Q;
  kwh_to_charge : Q;
  estimated_time_minutes : Q;
  legacy_estimated_cost : Q;
  body_distance_remaining : Q;
  safety_buffer_included : bool
}.

(** Lines 266-321. *)
Definition recommend_charging (data : LegacyChargeRequest)
    (predicted_consumption : Q) : option (Response LegacyChargeBody) :=
  let distance_needed := get (distance_remaining data) 0 in
  let battery_capacity := get (battery_capacity data) 50 in
  let current_pct := get (current_soc data) 100 in
  let charger_power := get (charger_power data) 50 in
  c ← recommend_charging_calc distance_needed battery_capacity current_pct
        charger_power predicted_consumption;
  Some (Http200
    {| legacy_success := true;
       body_current_soc := current_pct;
       recommended_target_soc := Py.round (required_battery_pct c) 1;
       kwh_to_charge := Py.round (energy_to_add c) 2;
       estimated_time_minutes := Py.round (charging_time_minutes c) 0;
       legacy_estimated_cost := Py.round (estimated_cost c) 0;
       body_distance_remaining := distance_needed;
       safety_buffer_included := true |}).

(** The effective charger power of the specification's charging-time
    sentence: 60% of the rated power above an 80% target, 85%
    otherwise. *)
Definition spec_effective_power (rated required_pct : Q) : Q :=
  if Py.gtb required_pct 80 then rated * (6 # 10) else rated * (85 # 100).

End Api.

(* ===================================================================== *)
(** * The charge arithmetic in binary64                                   *)
(* ===================================================================== *)

(** Lines 167-169 and 181 of [recommend_charge] once more, on IEEE
    binary64 numbers with round-to-nearest-even, the arithmetic of Python
    floats.  It is used to check that the rational model and the floats
    agree on the documented scenario. *)
Module Binary64.

Local Open Scope float_scope.

Definition SAFETY_BUFFER : float := 0x1.3333333333333p-3.

(** [min(a, b)] and [max(a, b)] of Python, on floats. *)
Definition min (a b : float) : float := if b <? a then b else a.
Definition max (a b : float) : float := if a <? b then b else a.

Record ChargeFloats : Type := mkChargeFloats {
  energy_needed_kwh : float;
  required_battery_pct : float;
  charge_needed_pct : float;
  is_reachable : bool
}.

Definition recommend_charge (distance_needed battery_capacity current_pct
    predicted_consumption : float) : ChargeFloats :=
  let energy_needed_kwh :=
    (distance_needed * predicted_consumption) / (1 - SAFETY_BUFFER) in
  let required_battery_pct :=
    min ((energy_needed_kwh / battery_capacity) * 100) 100 in
  let charge_needed_pct := max 0 (required_battery_pct - current_pct) in
  {| energy_needed_kwh := energy_needed_kwh;
     required_battery_pct := required_battery_pct;
     charge_needed_pct := charge_needed_pct;
     is_reachable := required_battery_pct <=? current_pct |}.

(** [lo / scale < x < hi / scale], the bounds being given as integers
    over a power of ten. *)
Definition strictly_between (lo hi scale x : float) : bool :=
  (lo / scale <? x) && (x <? hi / scale).

End Binary64.

(* ===================================================================== *)
(** * [predictor.py]: [EVRangePredictor.predict]                          *)
(* ===================================================================== *)

Module Predictor.

Local Open Scope Q_scope.

Record Conditions : Type := mkConditions {
  cond_temperature_c : Q;
  cond_terrain : string;
  cond_avg_speed_kmh : Q;
  cond_ac_usage : string;
  cond_driving_style : string
}.

Record Prediction : Type := mkPrediction {
  predicted_range_km : Q;
  safe_range_km : Q;
  confidence : string;
  battery_capacity_kwh : Q;
  current_soc : Q;
  available_energy_kwh : Q;
  soc_consumption_per_km : Q;
  conditions : Conditions
}.

(** The single-row frame built at lines 123-132. *)
Definition input_data (battery_capacity_kwh current_soc avg_speed_kmh
    temperature_c : Q) (terrain ac_usage driving_style : string)
    : Preprocessor.DataFrame :=
  Preprocessor.mkDataFrame
    ["Battery_Capacity_kWh"; "Current_SoC_%"; "Avg_Speed_kmh";
     "Temperature_C"; "Terrain"; "AC_Usage"; "Driving_Style"; "Range_km"]
    [Preprocessor.mkRow battery_capacity_kwh current_soc avg_speed_kmh
       temperature_c terrain ac_usage driving_style 0].

(** Lines 149-155. *)
Definition confidence_band (predicted_range : Q) : string :=
  if Py.gtb predicted_range 150 then "high"
  else if Py.gtb predicted_range 50 then "medium"
  else "low".

(** Line 159: [current_soc / predicted_range if predicted_range > 0
    else 0]. *)
Definition soc_per_km (current_soc predicted_range : Q) : option Q :=
  if Py.gtb predicted_range 0
  then Py.checked_div current_soc predicted_range
  else Some 0.

(** The object that [__init__] builds, as far as [predict] reads it:
    the loaded preprocessor (its feature names, and whether the scaler
    saved with them had been fitted, by the [fit_transform] that
    recorded them) and the type of the loaded model, ['neural'] for a
    Keras model and ['random_forest'] or ['gradient_boost'] for a
    scikit-learn regressor. *)
Record EVRangePredictor : Type := mkPredictor {
  preprocessor : Preprocessor.EVDataPreprocessor;
  scaler_fitted : bool;
  model_type : string
}.

(** The exceptions a call of [predict] can end with. *)
Inductive Raised : Type :=
| KeyError
| NotFittedError
| ValueError
| TypeError
| ZeroDivisionError.

Inductive Outcome : Type :=
| Returns (result : Prediction)
| Raises (e : Raised).

Section Model.

(** The loaded Keras model behind the fitted scaler:
    [float(self.model.predict(scaler.transform(X), verbose=0)
    .flatten()[0])] as a function of the feature frame [X]. *)
Variable model_predict : Preprocessor.Frame -> Q.

(** [EVRangePredictor.predict]; the keyword defaults (60, 25,
    ['Mixed'], ['Off'], ['Moderate']) are supplied by the caller.
    Line 135 ends in [self.scaler.transform(X)], which raises
    [NotFittedError] on a scaler that was never fitted and [ValueError]
    on a frame without columns; line 138 passes [verbose=0], which only
    a Keras model accepts: the [predict] of a scikit-learn regressor
    raises [TypeError] on it. *)
Definition predict (self : EVRangePredictor)
    (battery_capacity_kwh current_soc avg_speed_kmh temperature_c : Q)
    (terrain ac_usage driving_style : string) : Outcome :=
  match Preprocessor.transform (preprocessor self)
          (input_data battery_capacity_kwh current_soc avg_speed_kmh
             temperature_c terrain ac_usage driving_style) with
  | None => Raises KeyError
  | Some (_, X) =>
      if negb (scaler_fitted self) then Raises NotFittedError
      else if bool_decide (Preprocessor.names X = []) then Raises ValueError
      else if negb (String.eqb (model_type self) "neural")
      then Raises TypeError
      else
        let predicted_range := model_predict X in
        let safe_range := predicted_range * (85 # 100) in
        let confidence := confidence_band predicted_range in
        let available_energy := battery_capacity_kwh * (current_soc / 100) in
        match soc_per_km current_soc predicted_range with
        | None => Raises ZeroDivisionError
        | Some soc_per_km =>
            Returns
              {| predicted_range_km := Py.round predicted_range 2;
                 safe_range_km := Py.round safe_range 2;
                 confidence := confidence;
                 battery_capacity_kwh := battery_capacity_kwh;
                 current_soc := current_soc;
                 available_energy_kwh := Py.round available_energy 2;
                 soc_consumption_per_km := Py.round soc_per_km 3;
                 conditions :=
                   {| cond_temperature_c := temperature_c;
                      cond_terrain := terrain;
                      cond_avg_speed_kmh := avg_speed_kmh;
                      cond_ac_usage := ac_usage;
                      cond_driving_style := driving_style |} |}
        end
  end.

End Model.

End Predictor.

(* ===================================================================== *)
(** * Views of the frames used to state the properties                    *)
(* ===================================================================== *)

Section FrameViews.

Import Preprocessor.

(** All columns of a frame have [k] cells. *)
Definition height (k : nat) (f : Frame) : Prop :=
  Forall (fun col => length col.2 = k) f.

(** The labels assigned from the numerical columns. *)
Definition numeric_names : list string :=
  ["battery_capacity_kwh"; "current_soc_pct"; "current_soc_normalized";
   "avg_speed_kmh"; "temperature_c"; "available_energy_kwh"].

(** The labels of the interaction features. *)
Definition interaction_names : list string :=
  ["speed_terrain_highway"; "temp_ac_interaction";
   "speed_deviation_from_optimal"; "temp_deviation_from_optimal"].

(** The labels that [prepare_features] assigns by name. *)
Definition fixed_names : list string :=
  numeric_names ++ ["ac_on"] ++ interaction_names.

(** The indicator columns of a data frame. *)
Definition indicator_columns (df : DataFrame) : Frame :=
  (if has_column "Terrain" (columns df)
   then get_dummies (Terrain <$> rows df) "terrain" else []) ++
  (if has_column "Driving_Style" (columns df)
   then get_dummies (Driving_Style <$> rows df) "driving" else []).

(** The interaction stage, step by step.

    Each of its four steps assigns one fixed label when the columns it
    reads are present. *)

Definition step1 (src name : string) (op : list Q -> list Q) (f : Frame)
    : Frame :=
  match get_col src f with
  | Some a => set_col name (op a) f
  | None => f
  end.

Definition step2 (src1 src2 name : string)
    (op : list Q -> list Q -> list Q) (f : Frame) : Frame :=
  match get_col src1 f, get_col src2 f with
  | Some a, Some b => set_col name (op a b) f
  | _, _ => f
  end.

(** One round of the loop of [fill_missing]. *)
Definition fill_step (f : Frame) (col : string) : Frame :=
  if has_column col (names f) then f
  else set_col col (replicate (nrows f) 0%Q) f.

(** The column [prepare_features] returns under an expected label: the
    built column when the frame has one, zeros otherwise. *)
Definition reconciled (df : DataFrame) (n : string) : list Q :=
  match get_col n (build_features df) with
  | Some c => c
  | None => replicate (nrows (build_features df)) 0%Q
  end.

(** The target column [y] that [prepare_features] returns. *)
Definition target (df : DataFrame) : option (list Q) :=
  if has_column target_name (columns df)
  then Some (Range_km <$> rows df) else None.

(** What one [transform] call owes to the labels recorded at fit time:
    the same labels in the same order; a built column is passed on
    unchanged; a recorded label the frame does not produce is filled
    with zeros; nothing else is kept. *)
Definition reproduces (recorded : list string) (df : DataFrame) (F : Frame)
    : Prop :=
  names F = recorded ∧
  (forall n c, n ∈ recorded -> get_col n (build_features df) = Some c ->
               get_col n F = Some c) ∧
  (forall n, n ∈ recorded -> n ∉ names (build_features df) ->
             get_col n F = Some (replicate (nrows (build_features df)) 0%Q)) ∧
  (forall n, n ∉ recorded -> get_col n F = None).

(** A small fitting frame, and a frame whose second row has a terrain
    the fitting frame never shows. *)
Definition fit_frame : DataFrame :=
  {| columns := ["Battery_Capacity_kWh"; "Current_SoC_%"; "Avg_Speed_kmh";
                 "Temperature_C"; "Terrain"; "AC_Usage"; "Driving_Style";
                 "Range_km"];
     rows := [mkRow 50 80 60 25 "Highway" "On" "Eco" 200;
              mkRow 40 60 35 38 "City" "Off" "Moderate" 120] |}.

Definition swamp_row : Row := mkRow 40 60 35 38 "Swamp" "Off" "Moderate" 0.

(** A predictor loaded from what a fit on [fit_frame] saved, next to a
    Keras model. *)
Definition fitted_predictor : Predictor.EVRangePredictor :=
  Predictor.mkPredictor (fitted_by init fit_frame) true "neural".

Definition swamp_frame : DataFrame :=
  {| columns := columns fit_frame;
     rows := [mkRow 50 80 60 25 "City" "On" "Eco" 0; swamp_row] |}.

End FrameViews.

Section ApiViews.

Import Api.
Local Open Scope Q_scope.

(** The energy in the battery, as [predict_range] computes it. *)
Definition request_energy (data : RangeRequest) : Q :=
  (get (battery_percentage data) 100 / 100) *
  get (range_battery_capacity_kwh data) 50.

End ApiViews.

(* ===================================================================== *)
(** * The feature frame, row by row                                       *)
(* ===================================================================== *)

(** What [prepare_features] computes for one record, label by label:
    the arithmetic of lines 30-86 on a single row.  It is the reference
    against which the column-wise result of [transform] is compared. *)
Section RowView.

Import Preprocessor.
Local Open Scope Q_scope.

(** [s] without its prefix [p], when it has that prefix. *)
Fixpoint strip_prefix (p s : string) : option string :=
  match p with
  | EmptyString => Some s
  | String a p' =>
      match s with
      | String b s' => if Ascii.eqb a b then strip_prefix p' s' else None
      | EmptyString => None
      end
  end.

(** Lookup in an ordered table of labelled numbers. *)
Fixpoint assoc (n : string) (table : list (string * Q)) : option Q :=
  match table with
  | [] => None
  | (k, v) :: rest => if decide (k = n) then Some v else assoc n rest
  end.

(** [1] or [0]. *)
Definition indicator (b : bool) : Q := if b then 1 else 0.

(** The features of one row that carry a fixed label; a feature whose
    source columns are missing from [cols] counts as 0. *)
Definition fixed_cells (cols : list string) (r : Row) : list (string * Q) :=
  let B := has_column "Battery_Capacity_kWh" cols in
  let S := has_column "Current_SoC_%" cols in
  let V := has_column "Avg_Speed_kmh" cols in
  let T := has_column "Temperature_C" cols in
  let A := has_column "AC_Usage" cols in
  let K := has_column "Terrain" cols in
  [ ("battery_capacity_kwh", if B then Battery_Capacity_kWh r else 0);
    ("current_soc_pct", if S then Current_SoC_pct r else 0);
    ("current_soc_normalized", if S then Current_SoC_pct r / 100 else 0);
    ("avg_speed_kmh", if V then Avg_Speed_kmh r else 0);
    ("temperature_c", if T then Temperature_C r else 0);
    ("available_energy_kwh",
       if B && S then Battery_Capacity_kWh r * Current_SoC_pct r / 100
       else 0);
    ("ac_on", if A then ac_on (AC_Usage r) else 0);
    ("speed_terrain_highway",
       if V && K
       then Avg_Speed_kmh r * indicator (bool_decide (Terrain r = "Highway"))
       else 0);
    ("temp_ac_interaction",
       if T && A then Temperature_C r * ac_on (AC_Usage r) else 0);
    ("speed_deviation_from_optimal",
       if V then Qabs (Avg_Speed_kmh r - 60) else 0);
    ("temp_deviation_from_optimal",
       if T then Qabs (Temperature_C r - (45 # 2)) else 0) ].

(** The feature of row [r] under the label [n]. *)
Definition cell (cols : list string) (r : Row) (n : string) : Q :=
  match assoc n (fixed_cells cols r) with
  | Some q => q
  | None =>
      match strip_prefix "terrain_" n with
      | Some w =>
          indicator (has_column "Terrain" cols && bool_decide (Terrain r = w))
      | None =>
          match strip_prefix "driving_" n with
          | Some w =>
              indicator (has_column "Driving_Style" cols &&
                         bool_decide (Driving_Style r = w))
          | None => 0
          end
      end
  end.

(** The column [c] holds, row by row, the feature [n] of the rows. *)
Definition rowwise (cols : list string) (rs : list Row) (n : string)
    (c : list Q) : Prop :=
  Forall2 (fun x r => x == cell cols r n) c rs.

(** Some column of the frame produces a feature. *)
Definition has_feature_column (cols : list string) : bool :=
  existsb (fun name => has_column name cols)
    ["Battery_Capacity_kWh"; "Current_SoC_%"; "Avg_Speed_kmh";
     "Temperature_C"; "Terrain"; "AC_Usage"; "Driving_Style"].

End RowView.

(* ===================================================================== *)
(** * [api/app.py]: the request features and the loaded model             *)
(* ===================================================================== *)

Module ApiModel.

Local Open Scope Q_scope.

(** [needle in hay] on strings. *)
Fixpoint contains (needle hay : string) : bool :=
  String.prefix needle hay ||
  match hay with
  | String _ rest => contains needle rest
  | EmptyString => false
  end.

(** The fields of the JSON body that [prepare_features] reads.  A missing
    key is [None]; [ac_usage] holds the truth value of the field. *)
Record FeatureRequest : Type := mkFeatureRequest {
  battery_capacity_kwh : option Q;
  avg_speed_kmh : option Q;
  temperature_celsius : option Q;
  ac_usage : option bool;
  terrain : option string;
  driving_mode : option string
}.

(** [terrain_map] and [mode_map], lines 58 and 61. *)
Definition terrain_map : gmap string Q :=
  {[ "flat" := 0; "mixed" := 1; "hilly" := 2 ]}.

Definition mode_map : gmap string Q :=
  {[ "eco" := 0; "normal" := 1; "sport" := 2 ]}.

(** The value appended for one feature name, lines 70-91. *)
Definition feature_value (data : FeatureRequest) (feat : string) : Q :=
  let battery_capacity := Api.get (battery_capacity_kwh data) 50 in
  let avg_speed := Api.get (avg_speed_kmh data) 60 in
  let temperature := Api.get (temperature_celsius data) 25 in
  let ac_usage := if default false (ac_usage data) then 1 else 0 in
  let terrain :=
    default 0 (terrain_map !! default "flat" (terrain data)) in
  let driving_mode :=
    default 1 (mode_map !! default "normal" (driving_mode data)) in
  let f := Py.lower feat in
  if contains "speed" f then
    if contains "squared" f then avg_speed ^ 2 else avg_speed
  else if contains "temp" f then
    if contains "deviation" f then Qabs (temperature - 25) else temperature
  else if contains "battery" f || contains "capacity" f then battery_capacity
  else if contains "ac" f then ac_usage
  else if contains "terrain" f then terrain
  else if contains "mode" f || contains "driving" f then driving_mode
  else 0.

(** [prepare_features(data)], lines 47-93, for the feature names of
    [feature_info]. *)
Definition prepare_features (feature_names : list string)
    (data : FeatureRequest) : list Q :=
  feature_value data <$> feature_names.

(** The model loaded at start-up: one regressor, or the ensemble bundle
    that [train_advanced.py] saves ([models], [weights],
    [trained_models]).  A regressor is its prediction for one scaled
    feature row. *)
Inductive LoadedModel : Type :=
| Single (model : list Q -> Q)
| Ensemble (models : list string) (weights : list Q)
           (trained_models : gmap string (list Q -> Q)).

(** [sum(predictions)]: Python adds from the left, starting at 0. *)
Definition py_sum (l : list Q) : Q := fold_left Qplus l 0.

(** What [predict_consumption] can raise. *)
Inductive Raised : Type :=
| KeyError (key : string)
| UnboundLocalError (name : string).

(** The loop of lines 100-103: [predictions] in order, or the
    [KeyError] of the first member name without a trained model. *)
Fixpoint ensemble_loop (trained_models : gmap string (list Q -> Q))
    (features_scaled : list Q) (members : list (string * Q))
    : Raised + list Q :=
  match members with
  | [] => inr []
  | (model_name, weight) :: rest =>
      match trained_models !! model_name with
      | None => inl (KeyError model_name)
      | Some model =>
          match ensemble_loop trained_models features_scaled rest with
          | inl e => inl e
          | inr predictions =>
              inr (weight * model features_scaled :: predictions)
          end
      end
  end.

(** [predict_consumption(features_scaled)], lines 95-106.  The
    assignment [model = ...] at line 101 makes [model] a local name of
    the whole function, so the [else] branch at line 106 reads a local
    that was never assigned and raises [UnboundLocalError]; the global
    [model] loaded at start-up is out of reach. *)
Definition predict_consumption (loaded : LoadedModel)
    (features_scaled : list Q) : Raised + Q :=
  match loaded with
  | Single _ => inl (UnboundLocalError "model")
  | Ensemble models weights trained_models =>
      match ensemble_loop trained_models features_scaled
              (zip models weights) with
      | inl e => inl e
      | inr predictions => inr (py_sum predictions)
      end
  end.

(** The body of the backward-compatible [/predict]. *)
Record LegacyPredictRequest : Type := mkLegacyPredictRequest {
  battery_percent : option Q;
  battery_capacity : option Q;
  speed : option Q;
  temperature : option Q
}.

(** No character of [n] is an underscore. *)
Fixpoint plain (n : string) : bool :=
  match n with
  | EmptyString => true
  | String c n' => negb (Ascii.eqb c "_") && plain n'
  end.

Section Service.

(** The process-wide state: the loaded model, the fitted scaler (a
    function on feature rows) and the feature names of [feature_info];
    [str] is [str(e)] of a raised exception, whose wording depends on
    the interpreter. *)
Variable loaded : LoadedModel.
Variable scaler_transform : list Q -> list Q.
Variable feature_names : list string.
Variable str : Raised -> string.

(** [predict_consumption(scaler.transform(prepare_features(data)))]. *)
Definition consumption (data : FeatureRequest) : Raised + Q :=
  predict_consumption loaded
    (scaler_transform (prepare_features feature_names data)).

(** [mapped_data] of [/predict], lines 214-222. *)
Definition mapped_features (data : LegacyPredictRequest) : FeatureRequest :=
  {| battery_capacity_kwh := Some (Api.get (battery_capacity data) 50);
     avg_speed_kmh := Some (Api.get (speed data) 60);
     temperature_celsius := Some (Api.get (temperature data) 25);
     ac_usage := Some (Py.gtb (Api.get (temperature data) 25) 30);
     terrain := Some "flat";
     driving_mode := Some "normal" |}.

Definition mapped_range (data : LegacyPredictRequest) : Api.RangeRequest :=
  {| Api.battery_percentage := Some (Api.get (battery_percent data) 100);
     Api.range_battery_capacity_kwh :=
       Some (Api.get (battery_capacity data) 50);
     Api.avg_speed_kmh := Some (Api.get (speed data) 60);
     Api.temperature_celsius := Some (Api.get (temperature data) 25) |}.

(** [/predict]: lines 207-228 followed by [predict_range_internal],
    whose [except] answers 400 to whatever [predict_consumption]
    raises. *)
Definition predict (data : LegacyPredictRequest)
    : option (Api.Response Api.InternalRangeBody) :=
  match consumption (mapped_features data) with
  | inl e => Some (Api.Http400 (str e))
  | inr predicted_consumption =>
      Api.predict_range_internal (mapped_range data) predicted_consumption
  end.

(** [/api/predict-range] with the model in the loop. *)
Definition predict_range (accuracy : Q) (features : FeatureRequest)
    (range : Api.RangeRequest) : option (Api.Response Api.RangeBody) :=
  match consumption features with
  | inl e => Some (Api.Http400 (str e))
  | inr predicted_consumption =>
      Api.predict_range accuracy range predicted_consumption
  end.

End Service.

End ApiModel.

(* ===================================================================== *)
(** * [predictor.py]: loading the model                                   *)
(* ===================================================================== *)

Module Loader.

(** [path.endswith('/')] *)
Fixpoint ends_with_sep (path : string) : bool :=
  match path with
  | EmptyString => false
  | String c EmptyString => Ascii.eqb c "/"
  | String _ rest => ends_with_sep rest
  end.

(** [os.path.join(model_dir, name)] on POSIX paths. *)
Definition join (model_dir name : string) : string :=
  if String.prefix "/" name then name
  else if String.eqb model_dir "" || ends_with_sep model_dir
  then model_dir +:+ name
  else model_dir +:+ "/" +:+ name.

Inductive InitError : Type :=
| PreprocessorNotFound (path : string)
| PreprocessorLoadFailed (path : string)
| NoCompatibleModel (model_dir : string).

(** What [__init__] leaves in [self.model_type], and the file it loaded
    [self.model] from. *)
Record Loaded : Type := mkLoaded {
  model_type : string;
  model_path : string
}.

Section FileSystem.

(** [os.path.exists], and whether loading a path returns instead of
    raising. *)
Variable path_exists : string -> bool.
Variable loads : string -> bool.

(** One guarded attempt: [if not model_loaded: if os.path.exists(path):
    try: ... model_loaded = True except: ...]. *)
Definition attempt (path type : string) (model : option Loaded)
    : option Loaded :=
  match model with
  | Some m => Some m
  | None =>
      if path_exists path
      then (if loads path then Some (mkLoaded type path) else None)
      else None
  end.

(** The [for model_type in ['random_forest', 'gradient_boost']] loop,
    with its [break]. *)
Fixpoint sklearn_loop (model_dir : string) (types : list string)
    : option Loaded :=
  match types with
  | [] => None
  | type :: rest =>
      let model_path :=
        join model_dir ("range_predictor_" +:+ type +:+ ".pkl") in
      if path_exists model_path
      then (if loads model_path then Some (mkLoaded type model_path)
            else sklearn_loop model_dir rest)
      else sklearn_loop model_dir rest
  end.

(** [EVRangePredictor.__init__(model_dir)], lines 17-94. *)
Definition init (model_dir : string) : InitError + Loaded :=
  let preprocessor_path := join model_dir "preprocessor.pkl" in
  if negb (path_exists preprocessor_path)
  then inl (PreprocessorNotFound preprocessor_path)
  else if negb (loads preprocessor_path)
  then inl (PreprocessorLoadFailed preprocessor_path)
  else
    let model := None in
    let model :=
      attempt (join model_dir "range_predictor_neural.keras") "neural" model in
    let model :=
      attempt (join model_dir "range_predictor_savedmodel") "neural" model in
    let model :=
      attempt (join model_dir "range_predictor_neural.h5") "neural" model in
    let model :=
      match model with
      | Some m => Some m
      | None => sklearn_loop model_dir ["random_forest"; "gradient_boost"]
      end in
    match model with
    | Some m => inr m
    | None => inl (NoCompatibleModel model_dir)
    end.

(** The model files in the order [__init__] tries them. *)
Definition candidates (model_dir : string) : list (string * string) :=
  [ (join model_dir "range_predictor_neural.keras", "neural");
    (join model_dir "range_predictor_savedmodel", "neural");
    (join model_dir "range_predictor_neural.h5", "neural");
    (join model_dir "range_predictor_random_forest.pkl", "random_forest");
    (join model_dir "range_predictor_gradient_boost.pkl", "gradient_boost") ].

Definition usable (candidate : string * string) : bool :=
  path_exists candidate.1 && loads candidate.1.

End FileSystem.

End Loader.

(* ===================================================================== *)
(** * [train_advanced.py]: target and feature columns                     *)
(* ===================================================================== *)

Module TrainingPrep.

(** [possible_target_names], lines 93-96. *)
Definition possible_target_names : list string :=
  ["consumption"; "energy_consumption"; "kwh_per_km"; "efficiency";
   "Energy_Consumption"; "Consumption"; "kWh/km"; "energy"; "kwh"].

(** The inner loop of lines 98-105 on one column: does any candidate
    name occur in it, case-insensitively? *)
Definition names_target (col : string) : bool :=
  existsb (fun possible_name =>
             ApiModel.contains (Py.lower possible_name) (Py.lower col))
          possible_target_names.

(** Lines 98-105: the loop over [df_clean.columns] with its two
    [break]s.  [if target_col:] is false for the empty string, so an
    empty column name does not stop the loop. *)
Fixpoint scan_target (columns : list string) (target_col : option string)
    : option string :=
  match columns with
  | [] => target_col
  | col :: rest =>
      let target_col := if names_target col then Some col else target_col in
      match target_col with
      | Some t => if String.eqb t "" then scan_target rest target_col
                  else target_col
      | None => scan_target rest target_col
      end
  end.

(** Lines 98-113.  [None] is the [IndexError] of [numeric_cols[-1]] on an
    empty list. *)
Definition target_column (columns numeric_cols : list string)
    : option string :=
  match scan_target columns None with
  | Some t => Some t
  | None => last numeric_cols
  end.

(** Line 141: the label [f'{col}_squared'] of the squared companion of
    a speed column. *)
Definition squared_name (col : string) : string := col +:+ "_squared".

(** Lines 144-151: the columns that get a deviation companion, and the
    label [f'{col}_deviation']. *)
Definition is_temp_col (col : string) : bool :=
  ApiModel.contains "temp" (Py.lower col) ||
  ApiModel.contains "temperature" (Py.lower col).

Definition deviation_name (col : string) : string := col +:+ "_deviation".

End TrainingPrep.

(* ===================================================================== *)
(** * [clean_real_data.py]: what the cleaners do with the mapping         *)
(* ===================================================================== *)

Module Cleaner.

Import ColumnMapper.

(** [mapping.items()]: a dict lists its keys in insertion order, and
    [auto_detect_columns] inserts at most one key in each round of its
    outer loop, which runs over [patterns] in order. *)
Definition items (columns : list string) (dataset_type : string)
    : list (string * string) :=
  omap (fun '(std_name, _) =>
          match auto_detect_columns columns dataset_type !! std_name with
          | Some actual_name => Some (std_name, actual_name)
          | None => None
          end)
       (patterns dataset_type).

(** [df_clean.columns] after the "Map columns" loop (lines 116-121 and
    202-207), for a frame with distinct column labels. *)
Definition clean_columns (columns : list string) (dataset_type : string)
    : list string :=
  (filter (fun item => item.2 ∈ columns) (items columns dataset_type)).*1.

(** How a cleaner leaves its first part: it returns its argument
    unchanged, it returns [None], or it goes on with [df_clean]. *)
Inductive Outcome : Type :=
| ReturnsInput
| ReturnsNone
| Continues (df_clean_columns : list string).

(** [clean_consumption_data], lines 104-127. *)
Definition consumption_guard (columns : list string) : Outcome :=
  let mapping := auto_detect_columns columns "consumption" in
  if decide (mapping = ∅) then ReturnsInput
  else
    let df_clean_columns := clean_columns columns "consumption" in
    if decide ("Range_km" ∈ df_clean_columns)
    then Continues df_clean_columns
    else ReturnsNone.

(** [clean_stations_data], lines 190-215. *)
Definition stations_guard (columns : list string) : Outcome :=
  let mapping := auto_detect_columns columns "stations" in
  if decide (mapping = ∅) then ReturnsInput
  else
    let df_clean_columns := clean_columns columns "stations" in
    let essential := ["Station_Name"; "Latitude"; "Longitude"] in
    let missing_essential :=
      filter (fun col => col ∉ df_clean_columns) essential in
    match missing_essential with
    | [] => Continues df_clean_columns
    | _ :: _ => ReturnsNone
    end.

(** A station record of [df_clean], once the essential columns are
    there; [City] and [State] are [None] when their column is not
    mapped. *)
Record StationRow : Type := mkStationRow {
  Station_Name : string;
  Latitude : Q;
  Longitude : Q;
  City : option string;
  State : option string
}.

(** A cleaned station: the record and the added fields. *)
Record Station : Type := mkStation {
  record : StationRow;
  health_score : Z;
  is_verified : bool;
  source : string;
  Station_ID : string
}.

(** Equal in the [subset] columns of [drop_duplicates]. *)
Definition same_place (a b : StationRow) : bool :=
  Qeq_bool (Latitude a) (Latitude b) && Qeq_bool (Longitude a) (Longitude b).

(** [drop_duplicates(subset=['Latitude', 'Longitude'])]: a row is kept
    unless an earlier row has the same coordinates. *)
Fixpoint drop_duplicates (seen rows : list StationRow) : list StationRow :=
  match rows with
  | [] => []
  | r :: rest =>
      if existsb (same_place r) seen then drop_duplicates seen rest
      else r :: drop_duplicates (r :: seen) rest
  end.

(** [series.between(left, right)], both ends included. *)
Definition between (x left right : Q) : bool :=
  Py.geb x left && Py.geb right x.

Definition valid_coordinates (r : StationRow) : bool :=
  between (Latitude r) (-90) 90 && between (Longitude r) (-180) 180.

Fixpoint zeros (n : nat) : string :=
  match n with
  | O => EmptyString
  | S n' => String "0" (zeros n')
  end.

(** [s.zfill(width)] for a string without sign. *)
Definition zfill (width : nat) (s : string) : string :=
  zeros (width - String.length s) +:+ s.

(** ['ST' + str(i).zfill(6)] *)
Definition station_id (i : nat) : string := "ST" +:+ zfill 6 (pretty i).

(** [clean_stations_data], lines 217-234, on the rows of [df_clean]. *)
Definition clean_station_rows (rows : list StationRow) : list Station :=
  imap (fun i r =>
          {| record := r; health_score := 100; is_verified := false;
             source := "dataset"; Station_ID := station_id i |})
       (List.filter valid_coordinates (drop_duplicates [] rows)).

End Cleaner.

Section PatternViews.

(** A pattern made of literal characters only. *)
Fixpoint literal (p : string) : bool :=
  match p with
  | EmptyString => true
  | String c p' =>
      negb (Re.is_meta c) && negb (Ascii.eqb c ".") &&
      negb (Ascii.eqb c "^") && negb (Ascii.eqb c "$") && literal p'
  end.

(** The compiled form of a literal pattern. *)
Fixpoint lits (p : string) : Re.regex :=
  match p with
  | EmptyString => []
  | String c p' => Re.One (Re.Lit c) :: lits p'
  end.

End PatternViews.

(* ===================================================================== *)
(** * Properties                                                          *)
(* ===================================================================== *)

(** ** Numbers *)

Section PyFacts.

Local Open Scope Q_scope.

Lemma ltb_true (x y : Q) : Py.ltb x y = true <-> x < y.
Proof.
  unfold Py.ltb. destruct (Qlt_le_dec x y) as [H|H]; split; intros; try done.
  exfalso. by apply (Qlt_not_le x y).
Qed.

Lemma ltb_false (x y : Q) : Py.ltb x y = false <-> y <= x.
Proof.
  unfold Py.ltb. destruct (Qlt_le_dec x y) as [H|H]; split; intros; try done.
  exfalso. by apply (Qlt_not_le x y).
Qed.

Lemma gtb_true (x y : Q) : Py.gtb x y = true <-> y < x.
Proof. apply ltb_true. Qed.

Lemma gtb_false (x y : Q) : Py.gtb x y = false <-> x <= y.
Proof. apply ltb_false. Qed.

Lemma checked_div_nonzero (a b : Q) :
  ~ b == 0 -> Py.checked_div a b = Some (a / b).
Proof.
  intros Hb. unfold Py.checked_div.
  destruct (Qeq_bool b 0) eqn:E; [|done].
  apply Qeq_bool_iff in E. contradiction.
Qed.

Lemma checked_div_is_Some (a b : Q) :
  is_Some (Py.checked_div a b) <-> ~ b == 0.
Proof.
  unfold Py.checked_div. destruct (Qeq_bool b 0) eqn:E; split.
  - intros [? ?]; discriminate.
  - intros H. apply Qeq_bool_iff in E. contradiction.
  - intros _ H. apply Qeq_bool_iff in H. congruence.
  - intros _. eauto.
Qed.

Lemma Qinv_neg (c : Q) : c < 0 -> / c <= 0.
Proof.
  intros Hc. apply Qnot_lt_le. intros Hinv.
  apply Qinv_lt_0_compat in Hinv. rewrite Qinv_involutive in Hinv.
  by apply (Qlt_not_le _ _ Hinv), Qlt_le_weak.
Qed.

Lemma Qdiv_nonneg_neg (a c : Q) : 0 <= a -> c < 0 -> a / c <= 0.
Proof.
  intros Ha Hc. unfold Qdiv.
  assert (H : / c * a <= 0 * a)
    by (apply Qmult_le_compat_r; [by apply Qinv_neg | done]).
  rewrite Qmult_0_l in H. by rewrite Qmult_comm.
Qed.

(** Rounding never turns a non-positive number into a positive one. *)
Lemma round_half_even_nonpos (x : Q) :
  x <= 0 -> (Py.round_half_even x <= 0)%Z.
Proof.
  intros Hx. unfold Py.round_half_even.
  assert (Hf : (Qfloor x <= 0)%Z).
  { change 0%Z with (Qfloor 0). by apply Qfloor_resp_le. }
  destruct (Py.ltb (x - inject_Z (Qfloor x)) (1 # 2)) eqn:E1; [done|].
  apply ltb_false in E1.
  assert (Hlt : (Qfloor x < 0)%Z).
  { destruct (Z.eq_dec (Qfloor x) 0%Z) as [E0|E0]; [|lia].
    rewrite E0 in E1. exfalso.
    assert (1 # 2 <= x) by (revert E1; unfold Qle, Qminus, Qplus; simpl; lia).
    assert (H2 : 1 # 2 <= 0) by (eapply Qle_trans; eauto).
    revert H2. unfold Qle; simpl; lia. }
  destruct (Py.ltb (1 # 2) (x - inject_Z (Qfloor x))); [lia|].
  destruct (Z.even (Qfloor x)); lia.
Qed.

Lemma round_nonpos (x : Q) (ndigits : nat) :
  x <= 0 -> Py.round x ndigits <= 0.
Proof.
  intros Hx. unfold Py.round.
  assert (Hs : (0 < 10 ^ Z.of_nat ndigits)%Z) by (apply Z.pow_pos_nonneg; lia).
  assert (Hr : (Py.round_half_even (x * inject_Z (10 ^ Z.of_nat ndigits)) <= 0)%Z).
  { apply round_half_even_nonpos.
    assert (H : x * inject_Z (10 ^ Z.of_nat ndigits)
                <= 0 * inject_Z (10 ^ Z.of_nat ndigits)).
    { apply Qmult_le_compat_r; [done|]. unfold Qle; simpl; lia. }
    by rewrite Qmult_0_l in H. }
  unfold Qle; simpl. lia.
Qed.

End PyFacts.

(** ** Rounding *)

Section RoundFacts.

Local Open Scope Q_scope.

Lemma round_half_even_floor (x : Q) :
  (Qfloor x <= Py.round_half_even x <= Qfloor x + 1)%Z.
Proof.
  unfold Py.round_half_even.
  destruct (Py.ltb _ (1 # 2)); [lia|].
  destruct (Py.ltb (1 # 2) _); [lia|].
  destruct (Z.even (Qfloor x)); lia.
Qed.

Lemma round_half_even_mono (x y : Q) :
  x <= y -> (Py.round_half_even x <= Py.round_half_even y)%Z.
Proof.
  intros Hxy.
  pose proof (Qfloor_resp_le _ _ Hxy) as Hf.
  pose proof (round_half_even_floor x) as Hx.
  pose proof (round_half_even_floor y) as Hy.
  destruct (Z.eq_dec (Qfloor x) (Qfloor y)) as [E|E]; [|lia].
  assert (Hd : x - inject_Z (Qfloor x) <= y - inject_Z (Qfloor y)).
  { rewrite E. unfold Qminus. apply Qplus_le_compat; [done | apply Qle_refl]. }
  revert Hx Hy. unfold Py.round_half_even. rewrite <- E in *.
  destruct (Py.ltb (x - inject_Z (Qfloor x)) (1 # 2)) eqn:X1; [intros; lia|].
  apply ltb_false in X1.
  assert (Y1 : Py.ltb (y - inject_Z (Qfloor x)) (1 # 2) = false).
  { apply ltb_false. eapply Qle_trans; eauto. }
  rewrite Y1.
  destruct (Py.ltb (1 # 2) (x - inject_Z (Qfloor x))) eqn:X2.
  - apply ltb_true in X2.
    assert (Y2 : Py.ltb (1 # 2) (y - inject_Z (Qfloor x)) = true).
    { apply ltb_true. eapply Qlt_le_trans; eauto. }
    rewrite Y2. intros; lia.
  - destruct (Py.ltb (1 # 2) (y - inject_Z (Qfloor x)));
      destruct (Z.even (Qfloor x)); intros; lia.
Qed.

Lemma scale_pos (ndigits : nat) : (0 < 10 ^ Z.of_nat ndigits)%Z.
Proof. apply Z.pow_pos_nonneg; lia. Qed.

(** Rounding is monotone. *)
Lemma round_mono (x y : Q) (ndigits : nat) :
  x <= y -> Py.round x ndigits <= Py.round y ndigits.
Proof.
  intros Hxy. unfold Py.round.
  pose proof (scale_pos ndigits) as Hs.
  assert (H : (Py.round_half_even (x * inject_Z (10 ^ Z.of_nat ndigits))
               <= Py.round_half_even (y * inject_Z (10 ^ Z.of_nat ndigits)))%Z).
  { apply round_half_even_mono. apply Qmult_le_compat_r; [done|].
    unfold Qle; simpl; lia. }
  unfold Qle. simpl. nia.
Qed.

Lemma round_half_even_Z (k : Z) : Py.round_half_even (inject_Z k) = k.
Proof.
  unfold Py.round_half_even. rewrite Qfloor_Z.
  assert (H : Py.ltb (inject_Z k - inject_Z k) (1 # 2) = true).
  { apply ltb_true. unfold Qlt, Qminus, Qplus; simpl. lia. }
  by rewrite H.
Qed.

(** A whole number is its own rounding. *)
Lemma round_Z (k : Z) (ndigits : nat) :
  Py.round (inject_Z k) ndigits == inject_Z k.
Proof.
  unfold Py.round. pose proof (scale_pos ndigits) as Hs.
  assert (E : inject_Z k * inject_Z (10 ^ Z.of_nat ndigits)
              = inject_Z (k * 10 ^ Z.of_nat ndigits)) by reflexivity.
  assert (E' : Py.round_half_even
                 (inject_Z k * inject_Z (10 ^ Z.of_nat ndigits))
               = (k * 10 ^ Z.of_nat ndigits)%Z)
    by (rewrite E; apply round_half_even_Z).
  rewrite E'. unfold Qeq. simpl. rewrite Z2Pos.id by done. lia.
Qed.

Lemma round_nonneg (x : Q) (ndigits : nat) :
  0 <= x -> 0 <= Py.round x ndigits.
Proof.
  intros H. rewrite <- (round_Z 0 ndigits). by apply round_mono.
Qed.

End RoundFacts.

(** ** Frames: labels, lookup and assignment *)

Section FrameFacts.

Import Preprocessor.

Implicit Types (features f g : Frame) (n m : string) (c : list Q).

Lemma has_column_true n (cols : list string) :
  has_column n cols = true <-> n ∈ cols.
Proof. unfold has_column. by rewrite bool_decide_eq_true. Qed.

Lemma has_column_false n (cols : list string) :
  has_column n cols = false <-> n ∉ cols.
Proof. unfold has_column. by rewrite bool_decide_eq_false. Qed.

Lemma get_col_None n f : get_col n f = None <-> n ∉ names f.
Proof.
  unfold names. induction f as [|[k c] f IH]; simpl.
  - split; [intros _; apply not_elem_of_nil | done].
  - rewrite not_elem_of_cons. case_decide; subst.
    + split; [done | intros [? _]; done].
    + rewrite IH. split; [intros ?; split; [by intros -> | done] | by intros [_ ?]].
Qed.

Lemma get_col_is_Some n f : is_Some (get_col n f) <-> n ∈ names f.
Proof.
  destruct (get_col n f) eqn:E.
  - split; [intros _ | eauto].
    destruct (decide (n ∈ names f)) as [|Hn]; [done|].
    apply get_col_None in Hn. congruence.
  - apply get_col_None in E. split; [intros [? ?]; done | done].
Qed.

Lemma get_col_app n f g :
  get_col n (f ++ g) =
  match get_col n f with Some c => Some c | None => get_col n g end.
Proof.
  induction f as [|[k c] f IH]; simpl; [done|]. by case_decide.
Qed.

Lemma get_col_set_col_eq n c f : get_col n (set_col n c f) = Some c.
Proof.
  induction f as [|[k c0] f IH]; simpl.
  - by rewrite decide_True.
  - case_decide; simpl; [by rewrite decide_True | by rewrite decide_False].
Qed.

Lemma get_col_set_col_ne n m c f :
  n ≠ m -> get_col m (set_col n c f) = get_col m f.
Proof.
  intros Hne. induction f as [|[k c0] f IH]; simpl.
  - by rewrite decide_False.
  - destruct (decide (k = n)) as [->|Hk]; simpl.
    + by rewrite !decide_False.
    + by rewrite IH.
Qed.

Lemma names_set_col_old n c f :
  n ∈ names f -> names (set_col n c f) = names f.
Proof.
  unfold names. induction f as [|[k c0] f IH]; simpl.
  - intros H. by apply elem_of_nil in H.
  - intros H. case_decide; simpl; [done|].
    apply elem_of_cons in H as [->|H]; [done|]. f_equal. by apply IH.
Qed.

Lemma set_col_new n c f :
  n ∉ names f -> set_col n c f = f ++ [(n, c)].
Proof.
  unfold names. induction f as [|[k c0] f IH]; simpl; [done|].
  intros H. apply not_elem_of_cons in H as [Hk H].
  rewrite decide_False by done. simpl. f_equal. by apply IH.
Qed.

Lemma elem_of_names_set_col m n c f :
  m ∈ names (set_col n c f) <-> m = n ∨ m ∈ names f.
Proof.
  destruct (decide (n ∈ names f)) as [Hn|Hn].
  - rewrite names_set_col_old by done. split; [auto | intros [->|]; done].
  - rewrite set_col_new by done. unfold names.
    rewrite fmap_app, elem_of_app. simpl. rewrite list_elem_of_singleton.
    tauto.
Qed.

Lemma NoDup_names_set_col n c f :
  NoDup (names f) -> NoDup (names (set_col n c f)).
Proof.
  intros Hnd. destruct (decide (n ∈ names f)) as [Hn|Hn].
  - by rewrite names_set_col_old.
  - rewrite set_col_new by done. unfold names. rewrite fmap_app. simpl.
    apply NoDup_app. split_and!; [done | | apply NoDup_singleton].
    intros x Hx Hx'. apply list_elem_of_singleton in Hx'. by subst.
Qed.

Lemma set_col_nonempty n c f : set_col n c f ≠ [].
Proof. destruct f as [|[k c0] f]; simpl; [done|]. by case_decide. Qed.

Lemma height_set_col k n c f :
  length c = k -> height k f -> height k (set_col n c f).
Proof.
  intros Hc. unfold height. induction f as [|[m c0] f IH]; simpl.
  - intros _. by constructor.
  - intros H. apply Forall_cons in H as [H1 H2].
    case_decide; constructor; auto.
Qed.

Lemma height_get_col k n c f :
  height k f -> get_col n f = Some c -> length c = k.
Proof.
  unfold height. induction f as [|[m c0] f IH]; simpl; [done|].
  intros H. apply Forall_cons in H as [H1 H2].
  case_decide; [intros [= <-]; done | auto].
Qed.

Lemma height_nrows k f : height k f -> f ≠ [] -> nrows f = k.
Proof.
  destruct f as [|[m c0] f]; [done|]. intros H _.
  by apply Forall_cons in H as [H1 _].
Qed.

End FrameFacts.

(** ** One-hot encoding *)

Section DummyFacts.

Import Preprocessor.

Lemma string_app_inj (p a b : string) : p +:+ a = p +:+ b -> a = b.
Proof. induction p as [|ch p IH]; simpl; [done|]. intros [= H]. auto. Qed.

Lemma elem_of_categories (x : string) (data : list string) :
  x ∈ categories data <-> x ∈ data.
Proof.
  unfold categories. rewrite merge_sort_Permutation.
  apply elem_of_remove_dups.
Qed.

Lemma NoDup_categories (data : list string) : NoDup (categories data).
Proof.
  unfold categories. rewrite merge_sort_Permutation.
  apply NoDup_remove_dups.
Qed.

Lemma names_get_dummies (data : list string) (prefix : string) :
  names (get_dummies data prefix) =
  (fun v => prefix +:+ "_" +:+ v) <$> categories data.
Proof. unfold names, get_dummies. by rewrite <- list_fmap_compose. Qed.

Lemma elem_of_names_get_dummies (n : string) (data : list string)
    (prefix : string) :
  n ∈ names (get_dummies data prefix) <->
  exists v, n = prefix +:+ "_" +:+ v ∧ v ∈ data.
Proof.
  rewrite names_get_dummies, list_elem_of_fmap.
  by setoid_rewrite elem_of_categories.
Qed.

Lemma NoDup_names_get_dummies (data : list string) (prefix : string) :
  NoDup (names (get_dummies data prefix)).
Proof.
  rewrite names_get_dummies. apply NoDup_fmap_2; [|apply NoDup_categories].
  intros v w H. apply string_app_inj in H. by apply string_app_inj in H.
Qed.

Lemma height_get_dummies (data : list string) (prefix : string) :
  height (length data) (get_dummies data prefix).
Proof.
  unfold height, get_dummies. apply Forall_fmap, Forall_forall.
  intros v _. simpl. by rewrite length_fmap.
Qed.

(** The column of a category is its indicator. *)
Lemma get_col_get_dummies (w : string) (data : list string)
    (prefix : string) (c : list Q) :
  get_col (prefix +:+ "_" +:+ w) (get_dummies data prefix) = Some c ->
  c = (fun x => if decide (x = w) then 1%Q else 0%Q) <$> data.
Proof.
  unfold get_dummies. induction (categories data) as [|v l IH]; simpl; [done|].
  case_decide as E.
  - apply string_app_inj in E. apply string_app_inj in E. subst v.
    by intros [= <-].
  - auto.
Qed.

End DummyFacts.

(** ** The frame built from a data frame *)

Section BuildFacts.

Import Preprocessor.

Ltac split_ifs :=
  repeat match goal with
         | |- context [if ?b then _ else _] => destruct b
         end.

Lemma numerical_names (df : DataFrame) (n : string) :
  n ∈ names (numerical_features df []) -> n ∈ numeric_names.
Proof.
  unfold numerical_features, numeric_names. split_ifs;
    rewrite ?elem_of_names_set_col; unfold names; simpl;
    rewrite ?elem_of_cons, ?elem_of_nil; tauto.
Qed.

Lemma numerical_NoDup (df : DataFrame) :
  NoDup (names (numerical_features df [])).
Proof.
  unfold numerical_features. split_ifs;
    repeat apply NoDup_names_set_col; apply NoDup_nil_2.
Qed.

Lemma numerical_height (df : DataFrame) :
  height (length (rows df)) (numerical_features df []).
Proof.
  unfold numerical_features. split_ifs;
    repeat (apply height_set_col; [by rewrite length_fmap|]);
    by apply Forall_nil.
Qed.

(** An indicator label is none of the labels assigned by name. *)
Lemma dummy_not_fixed (prefix v : string) :
  prefix = "terrain" ∨ prefix = "driving" ->
  prefix +:+ "_" +:+ v ∉ fixed_names.
Proof.
  intros [-> | ->]; unfold fixed_names, numeric_names, interaction_names;
    simpl; rewrite !elem_of_cons, elem_of_nil;
    intros H; repeat (destruct H as [H|H]; [discriminate H|]); done.
Qed.

Lemma numeric_fixed (n : string) : n ∈ numeric_names -> n ∈ fixed_names.
Proof. unfold fixed_names. rewrite elem_of_app. auto. Qed.

Lemma indicator_not_fixed (df : DataFrame) (n : string) :
  n ∈ names (indicator_columns df) -> n ∉ fixed_names.
Proof.
  unfold indicator_columns, names. rewrite fmap_app, elem_of_app.
  intros [H|H].
  - destruct (has_column "Terrain" _); [|by apply elem_of_nil in H].
    apply elem_of_names_get_dummies in H as (v & -> & _).
    apply dummy_not_fixed. auto.
  - destruct (has_column "Driving_Style" _); [|by apply elem_of_nil in H].
    apply elem_of_names_get_dummies in H as (v & -> & _).
    apply dummy_not_fixed. auto.
Qed.

Lemma indicator_NoDup (df : DataFrame) : NoDup (names (indicator_columns df)).
Proof.
  unfold indicator_columns, names. rewrite fmap_app. apply NoDup_app.
  split_and!.
  - destruct (has_column "Terrain" _);
      [apply NoDup_names_get_dummies | apply NoDup_nil_2].
  - intros n H1 H2.
    destruct (has_column "Terrain" _); [|by apply elem_of_nil in H1].
    destruct (has_column "Driving_Style" _); [|by apply elem_of_nil in H2].
    apply elem_of_names_get_dummies in H1 as (v & -> & _).
    apply elem_of_names_get_dummies in H2 as (w & E & _).
    discriminate E.
  - destruct (has_column "Driving_Style" _);
      [apply NoDup_names_get_dummies | apply NoDup_nil_2].
Qed.

Lemma indicator_height (df : DataFrame) :
  height (length (rows df)) (indicator_columns df).
Proof.
  unfold indicator_columns. apply Forall_app. split.
  - destruct (has_column "Terrain" _); [|by apply Forall_nil].
    rewrite <- (length_fmap Terrain). apply height_get_dummies.
  - destruct (has_column "Driving_Style" _); [|by apply Forall_nil].
    rewrite <- (length_fmap Driving_Style). apply height_get_dummies.
Qed.

(** *** The categorical stage *)

Section Categorical.

Variables (df : DataFrame) (f0 : Frame).
Hypothesis f0_names : forall n, n ∈ names f0 -> n ∈ numeric_names.
Hypothesis f0_NoDup : NoDup (names f0).

Lemma categorical_names (n : string) :
  n ∈ names (categorical_features df f0) ->
  n ∈ fixed_names ∨ n ∈ names (indicator_columns df).
Proof.
  unfold categorical_features, indicator_columns, fixed_names, names.
  split_ifs; rewrite ?fmap_app, ?elem_of_app;
    fold (names (f0 ++ get_dummies (Terrain <$> rows df) "terrain"));
    fold (names f0);
    rewrite ?elem_of_names_set_col; unfold names;
    rewrite ?fmap_app, ?elem_of_app, ?elem_of_cons;
    intros H; decompose [or] H; subst; auto 6;
    left; left; by apply f0_names.
Qed.

Lemma categorical_NoDup : NoDup (names (categorical_features df f0)).
Proof.
  assert (HT : NoDup (names
            (if has_column "Terrain" (columns df)
             then f0 ++ get_dummies (Terrain <$> rows df) "terrain"
             else f0))).
  { destruct (has_column "Terrain" _); [|done].
    unfold names. rewrite fmap_app. apply NoDup_app. split_and!; [done| |].
    - intros n H1 H2. apply f0_names, numeric_fixed in H1.
      apply elem_of_names_get_dummies in H2 as (v & -> & _).
      revert H1. apply dummy_not_fixed. auto.
    - apply NoDup_names_get_dummies. }
  unfold categorical_features.
  destruct (has_column "Driving_Style" _).
  - unfold names. rewrite fmap_app. apply NoDup_app. split_and!.
    + destruct (has_column "AC_Usage" _);
        [by apply NoDup_names_set_col | done].
    + intros n H1 H2.
      apply elem_of_names_get_dummies in H2 as (w & -> & _).
      assert (H : "driving" +:+ "_" +:+ w = "ac_on" ∨
                  "driving" +:+ "_" +:+ w ∈ names
                    (if has_column "Terrain" (columns df)
                     then f0 ++ get_dummies (Terrain <$> rows df) "terrain"
                     else f0)).
      { destruct (has_column "AC_Usage" _); [|by right].
        by apply elem_of_names_set_col in H1. }
      destruct H as [H|H]; [discriminate H|].
      assert (H' : "driving" +:+ "_" +:+ w ∈ names f0 ∨
                   "driving" +:+ "_" +:+ w ∈
                     names (get_dummies (Terrain <$> rows df) "terrain")).
      { destruct (has_column "Terrain" _); [|by left].
        unfold names in H. rewrite fmap_app in H.
        by apply elem_of_app in H. }
      destruct H' as [H'|H'].
      * apply f0_names, numeric_fixed in H'.
        revert H'. apply dummy_not_fixed. auto.
      * apply elem_of_names_get_dummies in H' as (v & E & _).
        discriminate E.
    + apply NoDup_names_get_dummies.
  - destruct (has_column "AC_Usage" _);
      [by apply NoDup_names_set_col | done].
Qed.

Lemma categorical_get_col (n : string) :
  n ∉ fixed_names ->
  get_col n (categorical_features df f0) = get_col n (indicator_columns df).
Proof.
  intros Hn.
  assert (H0 : get_col n f0 = None).
  { apply get_col_None. intros H. by apply f0_names, numeric_fixed in H. }
  assert (Hac : "ac_on" ≠ n).
  { intros <-. apply Hn. unfold fixed_names.
    rewrite !elem_of_app, elem_of_cons. auto. }
  unfold categorical_features, indicator_columns.
  split_ifs; rewrite ?get_col_app, ?get_col_set_col_ne by done;
    rewrite ?get_col_app, ?H0; simpl;
    try done; by case_match.
Qed.

Lemma categorical_height (k : nat) :
  k = length (rows df) -> height k f0 ->
  height k (categorical_features df f0).
Proof.
  intros -> H0. unfold categorical_features.
  split_ifs;
    repeat first
      [ apply Forall_app; split
      | apply height_set_col; [by rewrite length_fmap|]
      | rewrite <- (length_fmap Terrain); apply height_get_dummies
      | rewrite <- (length_fmap Driving_Style); apply height_get_dummies
      | exact H0 ].
Qed.

End Categorical.

Lemma interaction_features_steps (f : Frame) :
  interaction_features f =
  step1 "temperature_c" "temp_deviation_from_optimal"
    (fmap (fun x => Qabs (x - (45 # 2))))
    (step1 "avg_speed_kmh" "speed_deviation_from_optimal"
       (fmap (fun x => Qabs (x - 60)))
       (step2 "temperature_c" "ac_on" "temp_ac_interaction"
          (zip_with Qmult)
          (step2 "avg_speed_kmh" "terrain_Highway" "speed_terrain_highway"
             (zip_with Qmult) f))).
Proof. reflexivity. Qed.

Section Steps.

Variables (src src' name : string).
Variables (op1 : list Q -> list Q) (op2 : list Q -> list Q -> list Q).

Lemma step1_NoDup f : NoDup (names f) -> NoDup (names (step1 src name op1 f)).
Proof.
  unfold step1. destruct (get_col src f); [apply NoDup_names_set_col | done].
Qed.

Lemma step2_NoDup f :
  NoDup (names f) -> NoDup (names (step2 src src' name op2 f)).
Proof.
  unfold step2. destruct (get_col src f), (get_col src' f);
    try done; apply NoDup_names_set_col.
Qed.

Lemma step1_names f n :
  n ∈ names (step1 src name op1 f) -> n = name ∨ n ∈ names f.
Proof.
  unfold step1. destruct (get_col src f); [|auto].
  by rewrite elem_of_names_set_col.
Qed.

Lemma step2_names f n :
  n ∈ names (step2 src src' name op2 f) -> n = name ∨ n ∈ names f.
Proof.
  unfold step2. destruct (get_col src f), (get_col src' f); auto.
  by rewrite elem_of_names_set_col.
Qed.

Lemma step1_get_col f n :
  name ≠ n -> get_col n (step1 src name op1 f) = get_col n f.
Proof.
  intros. unfold step1. destruct (get_col src f); [|done].
  by apply get_col_set_col_ne.
Qed.

Lemma step2_get_col f n :
  name ≠ n -> get_col n (step2 src src' name op2 f) = get_col n f.
Proof.
  intros. unfold step2. destruct (get_col src f), (get_col src' f);
    try done; by apply get_col_set_col_ne.
Qed.

Lemma step1_height k f :
  (forall a, length (op1 a) = length a) ->
  height k f -> height k (step1 src name op1 f).
Proof.
  intros Hop Hf. unfold step1. destruct (get_col src f) as [a|] eqn:E; [|done].
  apply height_set_col; [|done]. rewrite Hop. by eapply height_get_col.
Qed.

Lemma step2_height k f :
  (forall a b, length a = length b -> length (op2 a b) = length a) ->
  height k f -> height k (step2 src src' name op2 f).
Proof.
  intros Hop Hf. unfold step2.
  destruct (get_col src f) as [a|] eqn:Ea; [|done].
  destruct (get_col src' f) as [b|] eqn:Eb; [|done].
  apply height_set_col; [|done].
  pose proof (height_get_col _ _ _ _ Hf Ea) as Ha.
  pose proof (height_get_col _ _ _ _ Hf Eb) as Hb.
  rewrite Hop; congruence.
Qed.

End Steps.

Lemma length_zip_with_same (a b : list Q) :
  length a = length b -> length (zip_with Qmult a b) = length a.
Proof. intros H. rewrite length_zip_with. lia. Qed.

Lemma interaction_NoDup (f : Frame) :
  NoDup (names f) -> NoDup (names (interaction_features f)).
Proof.
  intros H. rewrite interaction_features_steps.
  by repeat first [apply step1_NoDup | apply step2_NoDup].
Qed.

Lemma interaction_names_incl (f : Frame) (n : string) :
  n ∈ names (interaction_features f) ->
  n ∈ interaction_names ∨ n ∈ names f.
Proof.
  rewrite interaction_features_steps. unfold interaction_names.
  intros H.
  apply step1_names in H as [->|H]; [left; rewrite !elem_of_cons; auto 6|].
  apply step1_names in H as [->|H]; [left; rewrite !elem_of_cons; auto 6|].
  apply step2_names in H as [->|H]; [left; rewrite !elem_of_cons; auto 6|].
  apply step2_names in H as [->|H]; [left; rewrite !elem_of_cons; auto 6|].
  by right.
Qed.

Lemma interaction_get_col (f : Frame) (n : string) :
  n ∉ fixed_names ->
  get_col n (interaction_features f) = get_col n f.
Proof.
  intros Hn. rewrite interaction_features_steps.
  rewrite !step1_get_col, !step2_get_col; [done|..];
    intros <-; apply Hn; unfold fixed_names, interaction_names;
    rewrite !elem_of_app, !elem_of_cons; auto 10.
Qed.

Lemma interaction_height (k : nat) (f : Frame) :
  height k f -> height k (interaction_features f).
Proof.
  intros H. rewrite interaction_features_steps.
  repeat first
    [ apply step1_height; [intros; apply length_fmap|]
    | apply step2_height; [apply length_zip_with_same|] ].
  done.
Qed.

(** *** The whole of [build_features] *)

Lemma build_NoDup (df : DataFrame) : NoDup (names (build_features df)).
Proof.
  unfold build_features. apply interaction_NoDup, categorical_NoDup.
  - apply numerical_names.
  - apply numerical_NoDup.
Qed.

Lemma build_height (df : DataFrame) :
  height (length (rows df)) (build_features df).
Proof.
  unfold build_features.
  apply interaction_height, categorical_height; [done|].
  apply numerical_height.
Qed.

(** Every label is assigned by name or is an indicator of the frame. *)
Lemma build_names (df : DataFrame) (n : string) :
  n ∈ names (build_features df) ->
  n ∈ fixed_names ∨ n ∈ names (indicator_columns df).
Proof.
  unfold build_features. intros H.
  apply interaction_names_incl in H as [H|H].
  - left. unfold fixed_names. rewrite !elem_of_app. auto.
  - revert H. apply categorical_names, numerical_names.
Qed.

(** The indicator columns pass through the later stages untouched. *)
Lemma build_get_col_indicator (df : DataFrame) (n : string) :
  n ∉ fixed_names ->
  get_col n (build_features df) = get_col n (indicator_columns df).
Proof.
  intros Hn. unfold build_features.
  rewrite interaction_get_col by done.
  apply categorical_get_col; [apply numerical_names | done].
Qed.

End BuildFacts.

(** ** Reconciliation with the recorded labels *)

Section ReconcileFacts.

Import Preprocessor.

Implicit Types (f g : Frame) (n : string) (labels : list string).

Lemma fill_missing_cons (col : string) labels f :
  fill_missing (col :: labels) f = fill_missing labels (fill_step f col).
Proof. reflexivity. Qed.

Lemma fill_step_nrows f col : nrows (fill_step f col) = nrows f.
Proof.
  unfold fill_step. destruct (has_column col (names f)) eqn:E; [done|].
  apply has_column_false in E. rewrite set_col_new by done.
  by destruct f as [|[k c] f].
Qed.

Lemma fill_step_NoDup f col :
  NoDup (names f) -> NoDup (names (fill_step f col)).
Proof.
  unfold fill_step. destruct (has_column col (names f)); [done|].
  apply NoDup_names_set_col.
Qed.

Lemma fill_step_keeps f col n c :
  get_col n f = Some c -> get_col n (fill_step f col) = Some c.
Proof.
  intros H. unfold fill_step.
  destruct (has_column col (names f)) eqn:E; [done|].
  apply has_column_false in E. rewrite get_col_set_col_ne; [done|].
  intros ->. apply E, get_col_is_Some. eauto.
Qed.

Lemma fill_step_names f col n :
  n ∈ names (fill_step f col) <-> (n = col ∧ col ∉ names f) ∨ n ∈ names f.
Proof.
  unfold fill_step. destruct (has_column col (names f)) eqn:E.
  - apply has_column_true in E. split; [auto | intros [[_ ?]|?]; done].
  - apply has_column_false in E. rewrite elem_of_names_set_col. tauto.
Qed.

Lemma fill_missing_NoDup labels f :
  NoDup (names f) -> NoDup (names (fill_missing labels f)).
Proof.
  revert f. induction labels as [|col labels IH]; intros f H; [done|].
  rewrite fill_missing_cons. by apply IH, fill_step_NoDup.
Qed.

(** Columns already present are kept as they are. *)
Lemma fill_missing_keeps labels f n c :
  get_col n f = Some c -> get_col n (fill_missing labels f) = Some c.
Proof.
  revert f. induction labels as [|col labels IH]; intros f H; [done|].
  rewrite fill_missing_cons. by apply IH, fill_step_keeps.
Qed.

(** An expected label without a column receives a column of zeros. *)
Lemma fill_missing_zero labels f n :
  n ∈ labels -> n ∉ names f ->
  get_col n (fill_missing labels f) = Some (replicate (nrows f) 0%Q).
Proof.
  revert f. induction labels as [|col labels IH]; intros f Hin Hn.
  - by apply elem_of_nil in Hin.
  - rewrite fill_missing_cons. destruct (decide (n = col)) as [->|Hne].
    + apply fill_missing_keeps. unfold fill_step.
      rewrite (proj2 (has_column_false _ _) Hn).
      apply get_col_set_col_eq.
    + apply elem_of_cons in Hin as [?|Hin]; [done|].
      rewrite <- (fill_step_nrows f col). apply IH; [done|].
      rewrite fill_step_names. tauto.
Qed.

Lemma fill_missing_complete labels f n :
  n ∈ labels -> n ∈ names (fill_missing labels f).
Proof.
  intros Hin. apply get_col_is_Some.
  destruct (get_col n f) as [c|] eqn:E.
  - rewrite (fill_missing_keeps _ _ _ _ E). eauto.
  - apply get_col_None in E. rewrite fill_missing_zero by done. eauto.
Qed.

Lemma filter_absent f n :
  n ∉ names f -> filter (fun col => col.1 = n) f = [].
Proof.
  unfold names, Frame in *. induction f as [|[k c0] f IH]; [done|].
  rewrite fmap_cons, not_elem_of_cons. simpl. intros [Hk Hn].
  rewrite filter_cons_False by (simpl; congruence). auto.
Qed.

Lemma filter_label f n c :
  NoDup (names f) -> get_col n f = Some c ->
  filter (fun col => col.1 = n) f = [(n, c)].
Proof.
  unfold names, Frame in *. induction f as [|[k c0] f IH]; [done|].
  rewrite fmap_cons, filter_cons. simpl.
  intros Hnd. apply NoDup_cons in Hnd as [Hk Hnd].
  case_decide as E.
  - subst k. intros [= ->]. f_equal. by apply filter_absent.
  - intros H. by apply IH.
Qed.

(** Selecting labels that all name exactly one column succeeds, and
    yields those columns under those labels, in the order asked. *)
Lemma select_spec labels f :
  NoDup (names f) -> (forall n, n ∈ labels -> n ∈ names f) ->
  exists g, select labels f = Some g ∧ names g = labels ∧
            forall n, n ∈ labels -> get_col n g = get_col n f.
Proof.
  intros Hnd Hall. unfold select.
  assert (Hb : forallb (fun l => has_column l (names f)) labels = true).
  { apply forallb_forall. intros l Hl. apply has_column_true, Hall.
    by apply list_elem_of_In. }
  rewrite Hb. eexists. split; [done|].
  clear Hb. induction labels as [|l labels IH]; simpl.
  - split; [done|]. intros n H. by apply elem_of_nil in H.
  - destruct IH as [IH1 IH2].
    { intros n H. apply Hall. by right. }
    assert (Hl : is_Some (get_col l f)).
    { apply get_col_is_Some, Hall. by left. }
    destruct Hl as [c Hc]. rewrite (filter_label _ _ _ Hnd Hc). simpl.
    split.
    + unfold names in *. simpl. by f_equal.
    + intros n Hn. case_decide as E; [by subst|].
      apply elem_of_cons in Hn as [->|Hn]; [done|]. by apply IH2.
Qed.

(** [prepare_features] never raises; it returns the recorded labels in
    the recorded order. *)
Lemma prepare_features_spec (self : EVDataPreprocessor) (df : DataFrame)
    (fit : bool) :
  let expected :=
    if fit then names (build_features df) else feature_names self in
  exists X,
    prepare_features self df fit
      = Some ({| feature_names := expected |}, X, target df) ∧
    names X = expected ∧
    forall n, n ∈ expected -> get_col n X = Some (reconciled df n).
Proof.
  intros expected. unfold prepare_features.
  assert (E : feature_names
                (if fit then {| feature_names := names (build_features df) |}
                 else self) = expected).
  { unfold expected. by destruct fit. }
  rewrite E.
  destruct (select_spec expected
              (fill_missing expected (build_features df)))
    as (X & HX & Hnames & Hcols).
  { apply fill_missing_NoDup, build_NoDup. }
  { intros n Hn. by apply fill_missing_complete. }
  exists X. rewrite HX. simpl. split_and!; [|done|].
  - unfold target. do 3 f_equal. unfold expected.
    destruct fit; [done | by destruct self].
  - intros n Hn. rewrite Hcols by done. unfold reconciled.
    destruct (get_col n (build_features df)) as [c|] eqn:Ec.
    + by apply fill_missing_keeps.
    + apply fill_missing_zero; [done | by apply get_col_None].
Qed.

End ReconcileFacts.

(** ** The feature contract between fit and transform *)

Section FeatureContract.

Import Preprocessor.

Lemma transform_total (self : EVDataPreprocessor) (df : DataFrame) :
  exists X, transform self df = Some (self, X) ∧
            names X = feature_names self ∧
            forall n, n ∈ feature_names self ->
                      get_col n X = Some (reconciled df n).
Proof.
  destruct (prepare_features_spec self df false) as (X & HX & Hn & Hc).
  exists X. unfold transform. rewrite HX. simpl. by destruct self.
Qed.

Lemma fitted_by_names (self : EVDataPreprocessor) (df : DataFrame) :
  feature_names (fitted_by self df) = names (build_features df).
Proof.
  unfold fitted_by.
  destruct (prepare_features_spec self df true) as (X & HX & _).
  by rewrite HX.
Qed.

Lemma indicator_get_col (fld : categorical) (df : DataFrame) (w : string) :
  get_col (indicator_name fld w) (indicator_columns df) =
  if has_column (field_column fld) (columns df)
  then get_col (indicator_name fld w)
         (get_dummies (field_value fld <$> rows df) (field_prefix fld))
  else None.
Proof.
  unfold indicator_columns. rewrite get_col_app.
  assert (HT : forall data,
    get_col (indicator_name DrivingStyleField w) (get_dummies data "terrain")
    = None).
  { intros data. apply get_col_None. intros H.
    apply elem_of_names_get_dummies in H as (v & E & _). discriminate E. }
  assert (HD : forall data,
    get_col (indicator_name TerrainField w) (get_dummies data "driving")
    = None).
  { intros data. apply get_col_None. intros H.
    apply elem_of_names_get_dummies in H as (v & E & _). discriminate E. }
  destruct fld; simpl.
  - destruct (has_column "Terrain" _), (has_column "Driving_Style" _);
      simpl; rewrite ?HD; by try case_match.
  - destruct (has_column "Terrain" _), (has_column "Driving_Style" _);
      simpl; rewrite ?HT; done.
Qed.

Lemma indicator_name_not_fixed (fld : categorical) (w : string) :
  indicator_name fld w ∉ fixed_names.
Proof. apply dummy_not_fixed. destruct fld; auto. Qed.

(** The built column of an indicator label, when there is one, is the
    indicator of its value. *)
Lemma build_indicator_column (fld : categorical) (df : DataFrame)
    (w : string) (c : list Q) :
  get_col (indicator_name fld w) (build_features df) = Some c ->
  observed fld df w = true ∧
  c = (fun x => if decide (x = w) then 1%Q else 0%Q)
        <$> (field_value fld <$> rows df).
Proof.
  rewrite build_get_col_indicator by apply indicator_name_not_fixed.
  rewrite indicator_get_col. unfold observed.
  destruct (has_column (field_column fld) _); [|done].
  intros H. split; [|by eapply get_col_get_dummies].
  apply bool_decide_eq_true.
  assert (Hin : indicator_name fld w ∈
            names (get_dummies (field_value fld <$> rows df)
                     (field_prefix fld))).
  { apply get_col_is_Some. eauto. }
  apply elem_of_names_get_dummies in Hin as (v & E & Hv).
  unfold indicator_name in E.
  apply string_app_inj in E. apply string_app_inj in E. by subst.
Qed.

(** A value that occurs in the frame has its indicator column. *)
Lemma build_indicator_present (fld : categorical) (df : DataFrame)
    (w : string) :
  observed fld df w = true ->
  indicator_name fld w ∈ names (build_features df).
Proof.
  unfold observed. intros H. apply andb_true_iff in H as [Hc Hv].
  apply bool_decide_eq_true in Hv.
  apply get_col_is_Some.
  rewrite build_get_col_indicator by apply indicator_name_not_fixed.
  rewrite indicator_get_col, Hc. apply get_col_is_Some.
  apply elem_of_names_get_dummies. by exists w.
Qed.

End FeatureContract.

(* ===================================================================== *)
(** * The claims                                                          *)
(* ===================================================================== *)

Section FeatureClaims.

Import Preprocessor.

Lemma transform_reproduces (self : EVDataPreprocessor) (df : DataFrame) :
  exists F, transform self df = Some (self, F) ∧
            reproduces (feature_names self) df F.
Proof.
  destruct (transform_total self df) as (F & HF & Hn & Hc).
  exists F. split; [done|]. unfold reproduces. split_and!; [done| | |].
  - intros n c Hin Hb. rewrite Hc by done. unfold reconciled. by rewrite Hb.
  - intros n Hin Hb. rewrite Hc by done. unfold reconciled.
    apply get_col_None in Hb. by rewrite Hb.
  - intros n Hout. apply get_col_None. by rewrite Hn.
Qed.

(** Frames with the same distinct labels and the same column under
    each label are equal. *)
Lemma frame_ext (f g : Frame) :
  names f = names g -> NoDup (names f) ->
  (forall n, n ∈ names f -> get_col n f = get_col n g) -> f = g.
Proof.
  unfold names. revert g.
  induction f as [|[k c] f IH]; intros [|[k' c'] g]; try done.
  rewrite !fmap_cons. simpl. intros [= <- Hn] Hnd Hc.
  apply NoDup_cons in Hnd as [Hk Hnd].
  pose proof (Hc k (list_elem_of_here _ _)) as Hhead.
  rewrite !decide_True in Hhead by done. injection Hhead as <-.
  f_equal. apply IH; [done..|].
  intros n Hin. specialize (Hc n (list_elem_of_further _ _ _ Hin)).
  rewrite !decide_False in Hc by (intros ->; done). done.
Qed.

(** C1 (feature-order invariance).  Once [fit_transform] has run on a
    data frame [X], whatever the preprocessor held before, the labels of
    the frame built from [X] are the recorded feature names, and every
    later [transform] call, on any data frames [dfs] in any succession,
    succeeds, leaves the recorded names as they are, and returns a frame
    whose columns carry exactly the recorded names in the recorded
    order: columns the data frame produces are passed on, recorded
    features it does not produce are columns of zeros, and columns
    outside the recorded list are dropped. *)
Theorem transform_reproduces_fit_columns (self : EVDataPreprocessor)
    (X : DataFrame) (dfs : list DataFrame) :
  (exists FX,
     fit_transform self X = Some (fitted_by self X, FX, target X) ∧
     names FX = feature_names (fitted_by self X) ∧
     FX = build_features X) ∧
  exists Fs,
    transform_each (fitted_by self X) dfs = Some (fitted_by self X, Fs) ∧
    Forall2 (reproduces (feature_names (fitted_by self X))) dfs Fs.
Proof.
  split.
  - unfold fit_transform, fitted_by.
    destruct (prepare_features_spec self X true) as (FX & HFX & Hn & Hc).
    rewrite HFX. exists FX. split_and!; [done..|].
    simpl in Hn, Hc. apply frame_ext; [done | | ].
    + rewrite Hn. apply build_NoDup.
    + intros n Hin. rewrite Hn in Hin. rewrite Hc by done.
      unfold reconciled. apply get_col_is_Some in Hin as [c Hcol].
      by rewrite Hcol.
  - generalize (fitted_by self X) as fitted. intros fitted.
    induction dfs as [|df dfs IH].
    + exists []. split; [done | constructor].
    + destruct (transform_reproduces fitted df) as (F & HF & HR).
      destruct IH as (Fs & HFs & HRs).
      exists (F :: Fs). simpl. rewrite HF. simpl. rewrite HFs. simpl.
      split; [done | by constructor].
Qed.

(** C2 (unseen-category robustness).  Let the preprocessor be fitted
    on [X] and let [transform] run on a data frame [D] that has the
    column of a one-hot encoded field ([Terrain] or [Driving_Style]).
    If the value of that field in row [i] of [D] was not observed in
    that column of [X], then [transform] succeeds and, in row [i] of
    its result, every indicator column of the field that was recorded
    at fit time holds 0. *)
Theorem unseen_category_all_zero (self : EVDataPreprocessor)
    (X D : DataFrame) (fld : categorical) (i : nat) (r : Row) :
  rows D !! i = Some r ->
  has_column (field_column fld) (columns D) = true ->
  observed fld X (field_value fld r) = false ->
  exists F,
    transform (fitted_by self X) D = Some (fitted_by self X, F) ∧
    forall w, indicator_name fld w ∈ feature_names (fitted_by self X) ->
              exists c, get_col (indicator_name fld w) F = Some c ∧
                        c !! i = Some 0%Q.
Proof.
  intros Hrow Hcol Hunseen.
  destruct (transform_total (fitted_by self X) D) as (F & HF & _ & Hc).
  exists F. split; [done|]. intros w Hw.
  rewrite (Hc _ Hw). eexists; split; [done|].
  assert (Hne : field_value fld r ≠ w).
  { intros <-. rewrite fitted_by_names in Hw.
    apply get_col_is_Some in Hw as [c Hcw].
    apply build_indicator_column in Hcw as [Hobs _]. congruence. }
  unfold reconciled.
  destruct (get_col (indicator_name fld w) (build_features D)) as [c|] eqn:E.
  - apply build_indicator_column in E as [_ ->].
    rewrite !list_lookup_fmap, Hrow. simpl. by rewrite decide_False.
  - apply lookup_replicate. split; [done|].
    assert (Hin : indicator_name fld (field_value fld r)
                    ∈ names (build_features D)).
    { apply build_indicator_present. unfold observed. rewrite Hcol. simpl.
      apply bool_decide_eq_true, list_elem_of_fmap.
      exists r. split; [done|]. by eapply list_elem_of_lookup_2. }
    rewrite (height_nrows (length (rows D))).
    + by eapply lookup_lt_Some.
    + apply build_height.
    + intros Hnil. rewrite Hnil in Hin. by apply elem_of_nil in Hin.
Qed.

Lemma unseen_category_all_zero_witness :
  exists F,
    transform (fitted_by init fit_frame) swamp_frame
      = Some (fitted_by init fit_frame, F) ∧
    forall w,
      indicator_name TerrainField w
        ∈ feature_names (fitted_by init fit_frame) ->
      exists c, get_col (indicator_name TerrainField w) F = Some c ∧
                c !! 1%nat = Some 0%Q.
Proof.
  apply (unseen_category_all_zero init fit_frame swamp_frame TerrainField
           1 swamp_row); reflexivity.
Defined.

End FeatureClaims.

(** ** The Column Mapper *)

Section ColumnMapperClaims.

Import ColumnMapper.

Implicit Types (mapping : gmap string string) (columns : list string).

Lemma consumption_patterns_compile :
  Forall (fun entry => Forall (fun p => is_Some (Re.compile p)) entry.2)
         consumption_patterns.
Proof. repeat constructor; by eexists. Qed.

Lemma stations_patterns_compile :
  Forall (fun entry => Forall (fun p => is_Some (Re.compile p)) entry.2)
         stations_patterns.
Proof. repeat constructor; by eexists. Qed.

Lemma try_patterns_spec (std col col_lower : string)
    (pattern_list : list string) mapping :
  try_patterns std col col_lower pattern_list mapping =
  if existsb (fun pattern => Re.search pattern col_lower) pattern_list
  then <[std := col]> mapping else mapping.
Proof.
  induction pattern_list as [|p ps IH]; simpl; [done|].
  by destruct (Re.search p col_lower).
Qed.

(** For a field that is not mapped yet, the column loop stops at the
    first column that any pattern matches. *)
Lemma scan_columns_spec (std : string) (pattern_list : list string)
    columns mapping :
  mapping !! std = None ->
  scan_columns std pattern_list columns mapping =
  match first_matching_column pattern_list columns with
  | Some col => <[std := col]> mapping
  | None => mapping
  end.
Proof.
  intros Hfree. unfold first_matching_column.
  induction columns as [|col rest IH]; simpl; [done|].
  rewrite try_patterns_spec.
  destruct (existsb _ pattern_list).
  - rewrite decide_True; [done|]. rewrite lookup_insert_eq. eauto.
  - rewrite decide_False; [done|]. rewrite Hfree. by intros [? ?].
Qed.

Lemma table_lookup_None (std : string) (table : list (string * list string)) :
  std ∉ table.*1 -> table_lookup std table = None.
Proof.
  induction table as [|[k v] table IH]; simpl; [done|].
  rewrite not_elem_of_cons. intros [Hk Hrest].
  destruct (String.eqb_spec k std); [congruence | auto].
Qed.

Lemma fold_scan_columns (table : list (string * list string)) columns
    mapping (std : string) :
  NoDup table.*1 ->
  (forall k, k ∈ table.*1 -> mapping !! k = None) ->
  fold_left
    (fun mapping '(std_name, pattern_list) =>
       scan_columns std_name pattern_list columns mapping)
    table mapping !! std =
  match table_lookup std table with
  | Some pattern_list => first_matching_column pattern_list columns
  | None => mapping !! std
  end.
Proof.
  revert mapping. induction table as [|[k pl] table IH]; intros mapping;
    [done|].
  rewrite fmap_cons. simpl. intros Hnd Hfree.
  apply NoDup_cons in Hnd as [Hk Hnd].
  assert (Hfk : mapping !! k = None) by (apply Hfree; left).
  rewrite scan_columns_spec by done.
  rewrite IH; [|done|].
  - destruct (String.eqb_spec k std) as [->|Hne].
    + rewrite table_lookup_None by done.
      destruct (first_matching_column pl columns);
        [apply lookup_insert_eq | done].
    + destruct (table_lookup std table); [done|].
      destruct (first_matching_column pl columns);
        [by apply lookup_insert_ne | done].
  - intros k' Hk'.
    assert (mapping !! k' = None) by (apply Hfree; by right).
    destruct (first_matching_column pl columns); [|done].
    rewrite lookup_insert_ne; [done|]. by intros ->.
Qed.

Lemma patterns_NoDup (dataset_type : string) :
  NoDup (patterns dataset_type).*1.
Proof.
  unfold patterns. destruct (String.eqb dataset_type "consumption");
    apply (bool_decide_unpack _); by vm_compute.
Qed.

(** C9, as the code has it.  For every list of raw column names, every
    dataset kind and every canonical field, the Column Mapper maps the
    field to at most one raw column, chosen first-match-wins over the
    columns: the field is mapped to the first column, in column order,
    whose lower-cased name is matched by any pattern of the field's
    list, and no later column is tried; a field none of whose patterns
    matches any column, and a name that is no field of the dataset
    kind, is absent from the mapping. *)
Theorem auto_detect_first_matching_column columns
    (dataset_type std_name : string) :
  auto_detect_columns columns dataset_type !! std_name =
  match table_lookup std_name (patterns dataset_type) with
  | Some pattern_list => first_matching_column pattern_list columns
  | None => None
  end.
Proof.
  unfold auto_detect_columns.
  rewrite fold_scan_columns; [done | apply patterns_NoDup | done].
Qed.

(** C9, as stated, fails: with the columns [Trip_Distance_km] and
    [Range_km], the first pattern of the field [Range_km] (['range'])
    matches the second column, yet the field is mapped to the first
    column, which only the second pattern (['distance']) matches. *)
Lemma first_pattern_wins_counterexample :
  auto_detect_columns ["Trip_Distance_km"; "Range_km"] "consumption"
    !! "Range_km" = Some "Trip_Distance_km" ∧
  (table_lookup "Range_km" (patterns "consumption") ≫=
     fun pattern_list =>
       spec_first_pattern_wins pattern_list ["Trip_Distance_km"; "Range_km"])
    = Some "Range_km" ∧
  ~ (forall columns (dataset_type std_name : string),
       auto_detect_columns columns dataset_type !! std_name =
       table_lookup std_name (patterns dataset_type) ≫=
         fun pattern_list => spec_first_pattern_wins pattern_list columns).
Proof.
  split_and!; [by vm_compute.. |].
  intros H.
  specialize (H ["Trip_Distance_km"; "Range_km"] "consumption" "Range_km").
  vm_compute in H. discriminate H.
Qed.

End ColumnMapperClaims.

(** ** Ensemble weights and the promotion rule *)

Section TrainingClaims.

Import Training.
Local Open Scope Q_scope.

(** C3 (ensemble weight normalization).  For top-3 models with test R²
    scores [s1], [s2], [s3], all non-negative and with a positive sum,
    the Ensemble Builder computes the weights [s_i / (s1 + s2 + s3)];
    each weight is non-negative and the weights sum to 1 (exactly, in
    rational arithmetic, hence within the tolerance 1e-9). *)
Theorem ensemble_weights_normalized (m1 m2 m3 : string) (s1 s2 s3 : Q)
    (others : list Result) :
  0 <= s1 -> 0 <= s2 -> 0 <= s3 -> 0 < s1 + s2 + s3 ->
  exists w1 w2 w3,
    ensemble_weights
      (result m1 s1 :: result m2 s2 :: result m3 s3 :: others)
      = Some [w1; w2; w3] ∧
    (w1 == s1 / (s1 + s2 + s3) ∧ w2 == s2 / (s1 + s2 + s3) ∧
     w3 == s3 / (s1 + s2 + s3)) ∧
    (0 <= w1 ∧ 0 <= w2 ∧ 0 <= w3) ∧
    sum [w1; w2; w3] == 1 ∧
    Qabs (sum [w1; w2; w3] - 1) <= 1 # 1000000000.
Proof.
  intros H1 H2 H3 Hpos.
  assert (Htot : sum [s1; s2; s3] == s1 + s2 + s3)
    by (unfold sum; simpl; ring).
  assert (Hnz : ~ sum [s1; s2; s3] == 0).
  { rewrite Htot. intros E. rewrite E in Hpos. by apply Qlt_irrefl in Hpos. }
  assert (Hnz' : ~ s1 + s2 + s3 == 0) by (by rewrite <- Htot).
  assert (Hinv : 0 <= / sum [s1; s2; s3]).
  { apply Qinv_le_0_compat. rewrite Htot. by apply Qlt_le_weak. }
  unfold ensemble_weights.
  change (Test_R2 <$> take 3
            (result m1 s1 :: result m2 s2 :: result m3 s3 :: others))
    with [s1; s2; s3].
  cbv zeta.
  destruct (Qeq_bool (sum [s1; s2; s3]) 0) eqn:E.
  { apply Qeq_bool_iff in E. contradiction. }
  do 3 eexists. split; [reflexivity|].
  assert (Hsum : sum [s1 / sum [s1; s2; s3]; s2 / sum [s1; s2; s3];
                      s3 / sum [s1; s2; s3]] == 1).
  { unfold sum at 1. simpl. rewrite !Htot. by field. }
  split_and!.
  - by rewrite Htot.
  - by rewrite Htot.
  - by rewrite Htot.
  - by apply Qmult_le_0_compat.
  - by apply Qmult_le_0_compat.
  - by apply Qmult_le_0_compat.
  - done.
  - rewrite Hsum. by vm_compute.
Qed.

Lemma ensemble_weights_normalized_witness :
  exists w1 w2 w3,
    ensemble_weights
      [result "XGBoost" (96 # 100); result "LightGBM" (95 # 100);
       result "CatBoost" (90 # 100); result "Random Forest" (80 # 100)]
      = Some [w1; w2; w3] ∧
    (w1 == (96 # 100) / ((96 # 100) + (95 # 100) + (90 # 100)) ∧
     w2 == (95 # 100) / ((96 # 100) + (95 # 100) + (90 # 100)) ∧
     w3 == (90 # 100) / ((96 # 100) + (95 # 100) + (90 # 100))) ∧
    (0 <= w1 ∧ 0 <= w2 ∧ 0 <= w3) ∧
    sum [w1; w2; w3] == 1 ∧
    Qabs (sum [w1; w2; w3] - 1) <= 1 # 1000000000.
Proof.
  apply (ensemble_weights_normalized "XGBoost" "LightGBM" "CatBoost"
           (96 # 100) (95 # 100) (90 # 100)
           [result "Random Forest" (80 # 100)]);
    by vm_compute.
Defined.

Lemma ensemble_stage_spec (ensemble_r2 : list string -> list Q -> Q)
    (results_df : list Result) (best : Best) (weights : list Q) :
  ensemble_weights results_df = Some weights ->
  ensemble_stage ensemble_r2 results_df best =
  Some
    (if Py.ltb (best_accuracy best) 98
     then
       {| selected :=
            if Py.gtb
                 (ensemble_r2 (Model <$> take 3 results_df) weights)
                 (best_score best)
            then mkBest "Ensemble"
                   (ensemble_r2 (Model <$> take 3 results_df) weights)
                   (ensemble_r2 (Model <$> take 3 results_df) weights * 100)
            else best;
          ensemble :=
            Some (Model <$> take 3 results_df, weights,
                  ensemble_r2 (Model <$> take 3 results_df) weights) |}
     else {| selected := best; ensemble := None |}).
Proof.
  intros H. unfold ensemble_stage. rewrite H.
  by destruct (Py.ltb (best_accuracy best) 98).
Qed.

(** C4 (trigger and promotion).  Let the best single model have the
    name [name] (no model of the benchmark is called "Ensemble") and
    the test R² [r2], so that its accuracy is [r2 * 100].  Then the
    selection returns, an ensemble is created exactly when
    [r2 * 100 < 98], and the selection is named "Ensemble" exactly when
    an ensemble was created whose test R² is strictly above [r2]; the
    ensemble then carries its own score and accuracy, and otherwise the
    best single model stays selected.  Evaluating the rule again, on
    its own result and with the same models and weights, changes
    nothing. *)
Theorem selection_rule (ensemble_r2 : list string -> list Q -> Q)
    (name : string) (r2 : Q) (others : list Result) :
  name ≠ "Ensemble" ->
  ~ sum (Test_R2 <$> take 3 (result name r2 :: others)) == 0 ->
  exists out,
    select_model ensemble_r2 (result name r2 :: others) = Some out ∧
    (is_Some (ensemble out) <-> r2 * 100 < 98) ∧
    (best_model_name (selected out) = "Ensemble" <->
     exists members weights e,
       ensemble out = Some (members, weights, e) ∧ r2 < e) ∧
    (forall members weights e,
       ensemble out = Some (members, weights, e) ->
       members = Model <$> take 3 (result name r2 :: others) ∧
       ensemble_weights (result name r2 :: others) = Some weights ∧
       e = ensemble_r2 members weights ∧
       (r2 < e -> selected out = mkBest "Ensemble" e (e * 100))) ∧
    (best_model_name (selected out) ≠ "Ensemble" ->
     selected out = mkBest name r2 (r2 * 100)) ∧
    selected <$> ensemble_stage ensemble_r2 (result name r2 :: others)
                   (selected out)
      = Some (selected out).
Proof.
  intros Hname Hnz.
  assert (Hw : exists weights,
             ensemble_weights (result name r2 :: others) = Some weights).
  { unfold ensemble_weights.
    destruct (Qeq_bool _ 0) eqn:E; [|eauto].
    apply Qeq_bool_iff in E. contradiction. }
  destruct Hw as [weights Hw].
  change (select_model ensemble_r2 (result name r2 :: others))
    with (ensemble_stage ensemble_r2 (result name r2 :: others)
            (mkBest name r2 (r2 * 100))).
  rewrite (ensemble_stage_spec _ _ _ _ Hw), Hw.
  cbn [best_accuracy best_score].
  remember (Model <$> take 3 (result name r2 :: others)) as members
    eqn:Hm.
  destruct (Py.ltb (r2 * 100) 98) eqn:Etrig.
  - apply ltb_true in Etrig.
    destruct (Py.gtb (ensemble_r2 members weights) r2) eqn:Eprom.
    + apply gtb_true in Eprom.
      eexists. split; [reflexivity|].
      cbn [selected ensemble best_model_name]. split_and!.
      * split; [done | eauto].
      * split; [intros _; by do 3 eexists | done].
      * by intros ms ws e' [= <- <- <-].
      * done.
      * rewrite (ensemble_stage_spec _ _ _ _ Hw), <- Hm.
        cbn [best_accuracy best_score option_fmap fmap option_map].
        destruct (Py.ltb _ 98); cbn [selected]; [|done].
        by rewrite (proj2 (gtb_false _ _) (Qle_refl _)).
    + apply gtb_false in Eprom.
      eexists. split; [reflexivity|].
      cbn [selected ensemble best_model_name]. split_and!.
      * split; [done | eauto].
      * split; [done|]. intros (ms & ws & e' & [= <- <- <-] & Hlt).
        exfalso. by apply (Qlt_not_le _ _ Hlt).
      * intros ms ws e' [= <- <- <-]. split_and!; [done..|].
        intros Hlt. exfalso. by apply (Qlt_not_le _ _ Hlt).
      * done.
      * rewrite (ensemble_stage_spec _ _ _ _ Hw), <- Hm.
        cbn [best_accuracy best_score option_fmap fmap option_map].
        rewrite (proj2 (ltb_true _ _) Etrig). cbn [selected].
        by rewrite (proj2 (gtb_false _ _) Eprom).
  - apply ltb_false in Etrig.
    eexists. split; [reflexivity|].
    cbn [selected ensemble best_model_name]. split_and!.
    + split; [intros [? ?]; done|].
      intros Hlt. exfalso. by apply (Qlt_not_le _ _ Hlt).
    + split; [done | intros (? & ? & ? & ? & _); done].
    + done.
    + done.
    + rewrite (ensemble_stage_spec _ _ _ _ Hw), <- Hm.
      cbn [best_accuracy best_score option_fmap fmap option_map].
      by rewrite (proj2 (ltb_false _ _) Etrig).
Qed.

Lemma selection_rule_witness :
  exists out,
    select_model (fun _ _ => 97 # 100)
      [result "XGBoost" (96 # 100); result "LightGBM" (95 # 100)]
      = Some out ∧
    (is_Some (ensemble out) <-> (96 # 100) * 100 < 98) ∧
    (best_model_name (selected out) = "Ensemble" <->
     exists members weights e,
       ensemble out = Some (members, weights, e) ∧ 96 # 100 < e) ∧
    (forall members weights e,
       ensemble out = Some (members, weights, e) ->
       members = Model <$> take 3
         [result "XGBoost" (96 # 100); result "LightGBM" (95 # 100)] ∧
       ensemble_weights
         [result "XGBoost" (96 # 100); result "LightGBM" (95 # 100)]
         = Some weights ∧
       e = (fun _ _ => 97 # 100) members weights ∧
       (96 # 100 < e -> selected out = mkBest "Ensemble" e (e * 100))) ∧
    (best_model_name (selected out) ≠ "Ensemble" ->
     selected out = mkBest "XGBoost" (96 # 100) ((96 # 100) * 100)) ∧
    selected <$> ensemble_stage (fun _ _ => 97 # 100)
                   [result "XGBoost" (96 # 100); result "LightGBM" (95 # 100)]
                   (selected out)
      = Some (selected out).
Proof.
  apply (selection_rule (fun _ _ => 97 # 100) "XGBoost" (96 # 100)
           [result "LightGBM" (95 # 100)]); by vm_compute.
Defined.

End TrainingClaims.

(** ** Range and charging arithmetic of the endpoints *)

Section ApiClaims.

Import Api.
Local Open Scope Q_scope.

(** C5, as the code has it.  For every prediction request in which the
    model's predicted consumption is negative, the range-prediction
    operation signals no error: both [predict_range] and
    [predict_range_internal] answer 200 with [success = true] and with
    the range obtained by dividing the available energy by the negative
    consumption (rounded to 2 decimals), which is not positive whenever
    the available energy is not negative.  (A consumption of exactly
    zero makes the float division divide by zero and is not covered.) *)
Theorem negative_consumption_range_returned (accuracy : Q)
    (data : RangeRequest) (predicted_consumption : Q) :
  predicted_consumption < 0 ->
  (exists body,
     predict_range accuracy data predicted_consumption = Some (Http200 body) ∧
     range_success body = true ∧
     max_range_km body
       = Py.round (request_energy data / predicted_consumption) 2 ∧
     predicted_range_km body
       = Py.round (request_energy data / predicted_consumption
                   * (1 - SAFETY_BUFFER)) 2 ∧
     (0 <= request_energy data ->
      max_range_km body <= 0 ∧ predicted_range_km body <= 0)) ∧
  (exists body,
     predict_range_internal data predicted_consumption
       = Some (Http200 body) ∧
     internal_success body = true ∧
     internal_max_range_km body
       = Py.round (request_energy data / predicted_consumption) 2).
Proof.
  intros Hneg.
  assert (Hnz : ~ predicted_consumption == 0).
  { intros E. rewrite E in Hneg. by apply Qlt_irrefl in Hneg. }
  unfold predict_range, predict_range_internal.
  fold (request_energy data).
  rewrite (checked_div_nonzero _ _ Hnz). simpl. split.
  - eexists. split; [reflexivity|]. simpl. split_and!; [done..|].
    intros Hpos.
    assert (Hq : request_energy data / predicted_consumption <= 0)
      by (by apply Qdiv_nonneg_neg).
    split; apply round_nonpos; [done|].
    setoid_replace 0 with (0 * (1 - SAFETY_BUFFER)) using relation Qeq
      by ring.
    apply Qmult_le_compat_r; [done | by vm_compute].
  - eexists. split; [reflexivity|]. simpl. done.
Qed.

Lemma negative_consumption_range_returned_witness :
  (exists body,
     predict_range 97 (mkRangeRequest (Some 80) (Some 50) None None)
       (- (15 # 100)) = Some (Http200 body) ∧
     range_success body = true ∧
     max_range_km body
       = Py.round
           (request_energy (mkRangeRequest (Some 80) (Some 50) None None)
            / - (15 # 100)) 2 ∧
     predicted_range_km body
       = Py.round
           (request_energy (mkRangeRequest (Some 80) (Some 50) None None)
            / - (15 # 100) * (1 - SAFETY_BUFFER)) 2 ∧
     (0 <= request_energy (mkRangeRequest (Some 80) (Some 50) None None) ->
      max_range_km body <= 0 ∧ predicted_range_km body <= 0)) ∧
  (exists body,
     predict_range_internal (mkRangeRequest (Some 80) (Some 50) None None)
       (- (15 # 100)) = Some (Http200 body) ∧
     internal_success body = true ∧
     internal_max_range_km body
       = Py.round
           (request_energy (mkRangeRequest (Some 80) (Some 50) None None)
            / - (15 # 100)) 2).
Proof.
  apply (negative_consumption_range_returned 97
           (mkRangeRequest (Some 80) (Some 50) None None) (- (15 # 100))).
  by vm_compute.
Defined.

(** C5, as stated, fails: with 80% of a 50 kWh battery and a predicted
    consumption of -0.15 kWh/km the operation answers 200 with
    [success = true], a maximal range of -266.67 km and a safe range of
    -226.67 km; no error is signalled. *)
Lemma nonpositive_consumption_error_counterexample :
  predict_range 97 (mkRangeRequest (Some 80) (Some 50) None None)
    (- (15 # 100))
  = Some (Http200
      {| range_success := true;
         predicted_range_km := (-22667) # 100;
         max_range_km := (-26667) # 100;
         consumption_kwh_per_100km := (-1500) # 100;
         available_energy_kwh := 4000 # 100;
         safety_buffer_percent := 1500 # 100;
         range_model_accuracy := 97 |}) ∧
  ~ (forall accuracy data predicted_consumption,
       predicted_consumption <= 0 ->
       exists error,
         predict_range accuracy data predicted_consumption
           = Some (Http400 error)).
Proof.
  split; [by vm_compute|]. intros H.
  destruct (H 97 (mkRangeRequest (Some 80) (Some 50) None None)
              (- (15 # 100))) as [error Herr]; [by vm_compute|].
  vm_compute in Herr. discriminate Herr.
Qed.

Lemma effective_power_nonzero (rated required_pct : Q) :
  ~ rated == 0 -> ~ spec_effective_power rated required_pct == 0.
Proof.
  intros Hr. unfold spec_effective_power.
  destruct (Py.gtb required_pct 80); intros E;
    apply Qmult_integral in E as [E|E]; try done; by vm_compute in E.
Qed.

Lemma charge_calc_prefix (distance capacity consumption : Q) :
  ~ capacity == 0 ->
  Py.checked_div (distance * consumption) (1 - SAFETY_BUFFER)
    = Some (distance * consumption / (1 - SAFETY_BUFFER)) ∧
  Py.checked_div (distance * consumption / (1 - SAFETY_BUFFER)) capacity
    = Some (distance * consumption / (1 - SAFETY_BUFFER) / capacity).
Proof.
  intros Hc. split; apply checked_div_nonzero; [by vm_compute | done].
Qed.

(** C6, as the code has it.  On the backward-compatible
    [/recommend-charging] endpoint the estimated charging time is
    [energy_to_add] divided by an effective charger power, times 60
    minutes, where the effective power is 60% of the request's charger
    power when the required target state of charge exceeds 80% and 85%
    of it otherwise (the response carries the time rounded to whole
    minutes).  On [/api/recommend-charge] the charger is a fixed 50 kW
    one and no charging-curve adjustment is made: the handler computes
    [energy_to_add / 50 * 60], and every recommendation it answers
    carries that time rounded to 1 decimal.  Both hold for a non-zero
    battery capacity and charger power. *)
Theorem charging_time_per_endpoint (accuracy : Q) (data : ChargeRequest)
    (legacy : LegacyChargeRequest) (predicted_consumption : Q) :
  ~ get (battery_capacity legacy) 50 == 0 ->
  ~ get (charger_power legacy) 50 == 0 ->
  ~ get (battery_capacity_kwh data) 50 == 0 ->
  (exists c body,
     recommend_charging_calc (get (distance_remaining legacy) 0)
       (get (battery_capacity legacy) 50) (get (current_soc legacy) 100)
       (get (charger_power legacy) 50) predicted_consumption = Some c ∧
     recommend_charging legacy predicted_consumption = Some (Http200 body) ∧
     estimated_time_minutes body = Py.round (charging_time_minutes c) 0 ∧
     charging_time_minutes c ==
       energy_to_add c
       / spec_effective_power (get (charger_power legacy) 50)
           (required_battery_pct c)
       * 60) ∧
  (exists c,
     recommend_charge_calc (get (distance_to_destination_km data) 0)
       (get (battery_capacity_kwh data) 50)
       (get (current_battery_pct data) 100) predicted_consumption = Some c ∧
     charging_time_minutes c == energy_to_add c / 50 * 60 ∧
     forall body,
       recommend_charge accuracy data predicted_consumption
         = Some (Http200 body) ->
       estimated_charging_time_minutes body
         = Py.round (charging_time_minutes c) 1).
Proof.
  intros Hcap Hpow Hcap'. split.
  - unfold recommend_charging, recommend_charging_calc.
    destruct (charge_calc_prefix (get (distance_remaining legacy) 0)
                (get (battery_capacity legacy) 50) predicted_consumption Hcap)
      as [H1 H2].
    rewrite H1. cbn [mbind option_bind]. rewrite H2.
    cbn [mbind option_bind].
    fold (spec_effective_power (get (charger_power legacy) 50)
            (Py.min (get (distance_remaining legacy) 0 * predicted_consumption
                     / (1 - SAFETY_BUFFER)
                     / get (battery_capacity legacy) 50 * 100) 100)).
    rewrite checked_div_nonzero by (by apply effective_power_nonzero).
    cbn [mbind option_bind].
    do 2 eexists. split_and!; [reflexivity..|].
    cbn [charging_time_minutes energy_to_add required_battery_pct].
    reflexivity.
  - unfold recommend_charge, recommend_charge_calc.
    destruct (charge_calc_prefix (get (distance_to_destination_km data) 0)
                (get (battery_capacity_kwh data) 50) predicted_consumption
                Hcap')
      as [H1 H2].
    rewrite H1. cbn [mbind option_bind]. rewrite H2.
    cbn [mbind option_bind].
    rewrite checked_div_nonzero by (by vm_compute).
    cbn [mbind option_bind].
    eexists. split_and!; [reflexivity| |].
    + cbn [charging_time_minutes energy_to_add]. reflexivity.
    + cbn [required_is_int charging_time_minutes]. intros body.
      destruct (Py.ltb 100 _); [|done]. by intros [= <-].
Qed.

Lemma charging_time_per_endpoint_witness :
  (exists c body,
     recommend_charging_calc 300 50 20 50 (15 # 100) = Some c ∧
     recommend_charging
       (mkLegacyChargeRequest (Some 300) (Some 50) (Some 20) None)
       (15 # 100) = Some (Http200 body) ∧
     estimated_time_minutes body = Py.round (charging_time_minutes c) 0 ∧
     charging_time_minutes c ==
       energy_to_add c / spec_effective_power 50 (required_battery_pct c)
       * 60) ∧
  (exists c,
     recommend_charge_calc 300 50 20 (15 # 100) = Some c ∧
     charging_time_minutes c == energy_to_add c / 50 * 60 ∧
     forall body,
       recommend_charge 97 (mkChargeRequest (Some 300) (Some 50) (Some 20))
         (15 # 100) = Some (Http200 body) ->
       estimated_charging_time_minutes body
         = Py.round (charging_time_minutes c) 1).
Proof.
  apply (charging_time_per_endpoint 97
           (mkChargeRequest (Some 300) (Some 50) (Some 20))
           (mkLegacyChargeRequest (Some 300) (Some 50) (Some 20) None)
           (15 # 100)); by vm_compute.
Defined.

(** C6, as stated, fails on [/api/recommend-charge]: for 300 km, a 50 kWh
    battery at 20% and a predicted consumption of 0.15 kWh/km the
    required target is capped at 100%, so the claimed effective power is
    60% of 50 kW and the claimed time for the 40 kWh to add is 80
    minutes; the endpoint divides by the full 50 kW and answers 200 with
    48 minutes. *)
Lemma charging_curve_counterexample :
  recommend_charge 97 (mkChargeRequest (Some 300) (Some 50) (Some 20))
    (15 # 100)
  = Some (Http200
      {| charge_success := true;
         is_reachable := false;
         body_current_battery_pct := 20;
         body_required_battery_pct := 1000 # 10;
         body_charge_needed_pct := 800 # 10;
         estimated_charging_time_minutes := 480 # 10;
         body_energy_needed_kwh := 5294 # 100;
         estimated_cost_inr := 80000 # 100;
         charge_model_accuracy := 97 |}) ∧
  (exists c,
     recommend_charge_calc 300 50 20 (15 # 100) = Some c ∧
     energy_to_add c == 40 ∧
     charging_time_minutes c == 48 ∧
     energy_to_add c / spec_effective_power 50 (required_battery_pct c) * 60
       == 80) ∧
  ~ (forall accuracy data consumption c body,
       recommend_charge_calc (get (distance_to_destination_km data) 0)
         (get (battery_capacity_kwh data) 50)
         (get (current_battery_pct data) 100) consumption = Some c ->
       recommend_charge accuracy data consumption = Some (Http200 body) ->
       estimated_charging_time_minutes body =
       Py.round (energy_to_add c
                 / spec_effective_power 50 (required_battery_pct c) * 60) 1).
Proof.
  split_and!.
  - by vm_compute.
  - eexists. split; [reflexivity|]. by vm_compute.
  - intros H.
    destruct (recommend_charge_calc 300 50 20 (15 # 100)) as [c|] eqn:E;
      [|by vm_compute in E].
    specialize (H 97 (mkChargeRequest (Some 300) (Some 50) (Some 20))
                  (15 # 100) c _ E ltac:(by vm_compute)).
    vm_compute in E. injection E as <-. by vm_compute in H.
Qed.

(** C7 (charge-recommendation scenario): what the code does.  For a
    distance of 100 km, a 50 kWh battery at 20% and a predicted
    consumption of 0.15 kWh/km the handler of [/api/recommend-charge]
    computes the values of the scenario, [energy_needed_kwh] 17.65
    (rounded to 2 decimals), [required_battery_pct] 35.3 and
    [charge_needed_pct] 15.3 (rounded to 1 decimal), and a false
    [current_pct >= required_battery_pct]; but that truth value is a
    NumPy bool, the response cannot be serialised, and the endpoint
    answers 400 with the serialiser's error instead of these outputs.
    The same computation in binary64 (with 0.15 read as the nearest
    double) stays strictly inside the intervals that round to these
    decimals: (17.645, 17.655), (35.25, 35.35) and (15.25, 15.35). *)
Theorem charge_recommendation_scenario (accuracy : Q) :
  recommend_charge accuracy
    (mkChargeRequest (Some 100) (Some 50) (Some 20)) (15 # 100)
  = Some (Http400 bool_not_serializable) ∧
  (exists c,
     recommend_charge_calc 100 50 20 (15 # 100) = Some c ∧
     required_is_int c = false ∧
     Py.round (energy_needed_kwh c) 2 = 1765 # 100 ∧
     Py.round (required_battery_pct c) 1 = 353 # 10 ∧
     Py.round (charge_needed_pct c) 1 = 153 # 10 ∧
     Py.geb 20 (required_battery_pct c) = false) ∧
  Py.round (100 * (15 # 100) / (1 - SAFETY_BUFFER)) 2 = 1765 # 100 ∧
  (let r := Binary64.recommend_charge 100 50 20 0x1.3333333333333p-3 in
   Binary64.strictly_between 17645 17655 1000 (Binary64.energy_needed_kwh r)
   && Binary64.strictly_between 3525 3535 100 (Binary64.required_battery_pct r)
   && Binary64.strictly_between 1525 1535 100 (Binary64.charge_needed_pct r)
   && negb (Binary64.is_reachable r)) = true.
Proof.
  split_and!; try by vm_compute.
  eexists. split; [reflexivity|]. by vm_compute.
Qed.

End ApiClaims.

(** ** The predictor *)

Section PredictorClaims.

Import Predictor.
Local Open Scope Q_scope.

(** A predictor whose scaler was fitted, on at least one feature, and
    whose model is the Keras one returns: the transform succeeds and the
    division is only reached with a positive divisor. *)
Lemma predict_returns (model_predict : Preprocessor.Frame -> Q)
    (self : EVRangePredictor)
    (capacity soc speed temp : Q) (terrain ac style : string) :
  scaler_fitted self = true ->
  Preprocessor.feature_names (preprocessor self) ≠ [] ->
  model_type self = "neural" ->
  exists X per_km,
    Preprocessor.transform (preprocessor self)
      (input_data capacity soc speed temp terrain ac style)
      = Some (preprocessor self, X) ∧
    soc_per_km soc (model_predict X) = Some per_km ∧
    predict model_predict self capacity soc speed temp terrain ac style
    = Returns
        {| predicted_range_km := Py.round (model_predict X) 2;
           safe_range_km := Py.round (model_predict X * (85 # 100)) 2;
           confidence := confidence_band (model_predict X);
           battery_capacity_kwh := capacity;
           current_soc := soc;
           available_energy_kwh := Py.round (capacity * (soc / 100)) 2;
           soc_consumption_per_km := Py.round per_km 3;
           conditions := mkConditions temp terrain speed ac style |} ∧
    (0 < model_predict X -> per_km = soc / model_predict X) ∧
    (model_predict X <= 0 -> per_km = 0).
Proof.
  intros Hfit Hnames Htype.
  destruct (transform_total (preprocessor self)
              (input_data capacity soc speed temp terrain ac style))
    as (X & HX & Hn & _).
  exists X. unfold predict. rewrite HX, Hfit, Htype. cbn [negb String.eqb].
  rewrite bool_decide_eq_false_2 by (by rewrite Hn).
  change (negb ("neural" =? "neural")%string) with false. cbv iota.
  unfold soc_per_km.
  destruct (Py.gtb (model_predict X) 0) eqn:E.
  - apply gtb_true in E.
    assert (Hnz : ~ model_predict X == 0).
    { intros E0. rewrite E0 in E. by apply Qlt_irrefl in E. }
    rewrite (checked_div_nonzero _ _ Hnz).
    eexists. split_and!; [done..|].
    intros Hle. exfalso. by apply (Qlt_not_le _ _ E).
  - apply gtb_false in E.
    eexists. split_and!; [done..| |done].
    intros Hlt. exfalso. by apply (Qlt_not_le _ _ Hlt).
Qed.

(** The band of a prediction and the prediction rounded to 2 decimals
    never contradict each other. *)
Lemma band_of_rounded (m : Q) :
  (confidence_band m = "high" -> 150 <= Py.round m 2) ∧
  (confidence_band m = "medium" ->
   50 <= Py.round m 2 ∧ Py.round m 2 <= 150) ∧
  (confidence_band m = "low" -> Py.round m 2 <= 50).
Proof.
  unfold confidence_band.
  pose proof (round_Z 150 2) as R150. pose proof (round_Z 50 2) as R50.
  change (inject_Z 150) with 150 in R150. change (inject_Z 50) with 50 in R50.
  destruct (Py.gtb m 150) eqn:E1; [|destruct (Py.gtb m 50) eqn:E2].
  - apply gtb_true in E1. split_and!; try done.
    intros _. rewrite <- R150. apply round_mono. by apply Qlt_le_weak.
  - apply gtb_false in E1. apply gtb_true in E2. split_and!; try done.
    intros _. split.
    + rewrite <- R50. apply round_mono. by apply Qlt_le_weak.
    + rewrite <- R150. by apply round_mono.
  - apply gtb_false in E2. split_and!; try done.
    intros _. rewrite <- R50. by apply round_mono.
Qed.

(** C8, as the code has it.  Every predictor call that returns (a
    fitted scaler and a Keras model) carries a confidence that is
    "high" when the model's predicted range exceeds 150, "medium" when
    it exceeds 50 but not 150, and "low" otherwise, where the predicted
    range is the value before it is rounded to 2 decimals for
    [predicted_range_km].  On the returned field this leaves "high" with
    [predicted_range_km >= 150], "medium" with
    [50 <= predicted_range_km <= 150] and "low" with
    [predicted_range_km <= 50].  In particular predicted ranges of 200,
    100 and 30 give "high", "medium" and "low". *)
Theorem confidence_banding (model_predict : Preprocessor.Frame -> Q)
    (self : EVRangePredictor)
    (capacity soc speed temp : Q) (terrain ac style : string) :
  scaler_fitted self = true ->
  Preprocessor.feature_names (preprocessor self) ≠ [] ->
  model_type self = "neural" ->
  (exists X res,
     Preprocessor.transform (preprocessor self)
       (input_data capacity soc speed temp terrain ac style)
       = Some (preprocessor self, X) ∧
     predict model_predict self capacity soc speed temp terrain ac style
       = Returns res ∧
     predicted_range_km res = Py.round (model_predict X) 2 ∧
     (150 < model_predict X -> confidence res = "high") ∧
     (50 < model_predict X ∧ model_predict X <= 150 ->
      confidence res = "medium") ∧
     (model_predict X <= 50 -> confidence res = "low") ∧
     (confidence res = "high" -> 150 <= predicted_range_km res) ∧
     (confidence res = "medium" ->
      50 <= predicted_range_km res ∧ predicted_range_km res <= 150) ∧
     (confidence res = "low" -> predicted_range_km res <= 50)) ∧
  (exists res,
     predict (fun _ => 200) self capacity soc speed temp terrain ac style
       = Returns res ∧
     predicted_range_km res == 200 ∧ confidence res = "high") ∧
  (exists res,
     predict (fun _ => 100) self capacity soc speed temp terrain ac style
       = Returns res ∧
     predicted_range_km res == 100 ∧ confidence res = "medium") ∧
  (exists res,
     predict (fun _ => 30) self capacity soc speed temp terrain ac style
       = Returns res ∧
     predicted_range_km res == 30 ∧ confidence res = "low").
Proof.
  intros Hfit Hnames Htype. split.
  - destruct (predict_returns model_predict self capacity soc speed
                temp terrain ac style Hfit Hnames Htype)
      as (X & per_km & HX & _ & Hres & _).
    exists X. eexists. split_and!; [done | exact Hres | done | ..];
      cbn [confidence predicted_range_km].
    + unfold confidence_band. intros H. by rewrite (proj2 (gtb_true _ _) H).
    + unfold confidence_band. intros [H1 H2].
      by rewrite (proj2 (gtb_false _ _) H2), (proj2 (gtb_true _ _) H1).
    + unfold confidence_band. intros H.
      assert (H' : model_predict X <= 150).
      { eapply Qle_trans; [exact H | by vm_compute]. }
      by rewrite (proj2 (gtb_false _ _) H'), (proj2 (gtb_false _ _) H).
    + apply band_of_rounded.
    + apply band_of_rounded.
    + apply band_of_rounded.
  - split_and!.
    + destruct (predict_returns (fun _ => 200) self capacity soc speed temp
                  terrain ac style Hfit Hnames Htype)
        as (X & ? & _ & _ & -> & _).
      eexists. split; [reflexivity|]. by vm_compute.
    + destruct (predict_returns (fun _ => 100) self capacity soc speed temp
                  terrain ac style Hfit Hnames Htype)
        as (X & ? & _ & _ & -> & _).
      eexists. split; [reflexivity|]. by vm_compute.
    + destruct (predict_returns (fun _ => 30) self capacity soc speed temp
                  terrain ac style Hfit Hnames Htype)
        as (X & ? & _ & _ & -> & _).
      eexists. split; [reflexivity|]. by vm_compute.
Qed.

Lemma confidence_banding_witness :
  (exists X res,
     Preprocessor.transform (preprocessor fitted_predictor)
       (input_data 50 80 60 25 "Mixed" "Off" "Moderate")
       = Some (preprocessor fitted_predictor, X) ∧
     predict (fun _ => 150004 # 1000) fitted_predictor 50 80 60 25
       "Mixed" "Off" "Moderate" = Returns res ∧
     predicted_range_km res = Py.round ((fun _ => 150004 # 1000) X) 2 ∧
     (150 < (fun _ => 150004 # 1000) X -> confidence res = "high") ∧
     (50 < (fun _ => 150004 # 1000) X ∧ (fun _ => 150004 # 1000) X <= 150 ->
      confidence res = "medium") ∧
     ((fun _ => 150004 # 1000) X <= 50 -> confidence res = "low") ∧
     (confidence res = "high" -> 150 <= predicted_range_km res) ∧
     (confidence res = "medium" ->
      50 <= predicted_range_km res ∧ predicted_range_km res <= 150) ∧
     (confidence res = "low" -> predicted_range_km res <= 50)) ∧
  (exists res,
     predict (fun _ => 200) fitted_predictor 50 80 60 25
       "Mixed" "Off" "Moderate" = Returns res ∧
     predicted_range_km res == 200 ∧ confidence res = "high") ∧
  (exists res,
     predict (fun _ => 100) fitted_predictor 50 80 60 25
       "Mixed" "Off" "Moderate" = Returns res ∧
     predicted_range_km res == 100 ∧ confidence res = "medium") ∧
  (exists res,
     predict (fun _ => 30) fitted_predictor 50 80 60 25
       "Mixed" "Off" "Moderate" = Returns res ∧
     predicted_range_km res == 30 ∧ confidence res = "low").
Proof.
  apply (confidence_banding (fun _ => 150004 # 1000) fitted_predictor
           50 80 60 25 "Mixed" "Off" "Moderate"); by vm_compute.
Defined.

(** C8, as stated, fails on the returned field: when the model predicts
    150.004 km, a fitted predictor returns [predicted_range_km = 150.0]
    together with the confidence "high", where the claim asks for
    "medium" ([50 < 150.0 <= 150]). *)
Lemma confidence_on_returned_range_counterexample :
  (exists res,
     predict (fun _ => 150004 # 1000) fitted_predictor 50 80 60 25
       "Mixed" "Off" "Moderate" = Returns res ∧
     predicted_range_km res == 150 ∧ confidence res = "high") ∧
  ~ (forall (model_predict : Preprocessor.Frame -> Q) self capacity soc
            speed temp terrain ac style res,
       predict model_predict self capacity soc speed temp terrain ac style
         = Returns res ->
       (150 < predicted_range_km res -> confidence res = "high") ∧
       (50 < predicted_range_km res ∧ predicted_range_km res <= 150 ->
        confidence res = "medium") ∧
       (predicted_range_km res <= 50 -> confidence res = "low")).
Proof.
  split.
  - eexists. split; [by vm_compute|]. by vm_compute.
  - intros H.
    destruct (predict (fun _ => 150004 # 1000) fitted_predictor 50 80 60 25
                "Mixed" "Off" "Moderate") as [res|e] eqn:E;
      [|by vm_compute in E].
    destruct (H _ _ _ _ _ _ _ _ _ _ E) as (_ & Hmed & _).
    vm_compute in E. injection E as <-.
    specialize (Hmed ltac:(by vm_compute)). discriminate Hmed.
Qed.

(** C10, as the code has it.  Every predictor call that returns (a
    fitted scaler and a Keras model) carries a
    [soc_consumption_per_km] that is the current state of charge divided
    by the predicted range, rounded to 3 decimals, when the predicted
    range is strictly positive, and 0 otherwise; the division is only
    evaluated under that guard, so it never meets a zero divisor. *)
Theorem soc_consumption_rounded_and_guarded
    (model_predict : Preprocessor.Frame -> Q) (self : EVRangePredictor)
    (capacity soc speed temp : Q) (terrain ac style : string) :
  scaler_fitted self = true ->
  Preprocessor.feature_names (preprocessor self) ≠ [] ->
  model_type self = "neural" ->
  exists X res,
    Preprocessor.transform (preprocessor self)
      (input_data capacity soc speed temp terrain ac style)
      = Some (preprocessor self, X) ∧
    predict model_predict self capacity soc speed temp terrain ac style
      = Returns res ∧
    (0 < model_predict X ->
     soc_consumption_per_km res = Py.round (soc / model_predict X) 3) ∧
    (model_predict X <= 0 -> soc_consumption_per_km res == 0) ∧
    is_Some (soc_per_km soc (model_predict X)).
Proof.
  intros Hfit Hnames Htype.
  destruct (predict_returns model_predict self capacity soc speed
              temp terrain ac style Hfit Hnames Htype)
    as (X & per_km & HX & Hdiv & Hres & Hpos & Hneg).
  exists X. eexists. split_and!; [done | exact Hres | ..];
    cbn [soc_consumption_per_km].
  - intros H. by rewrite (Hpos H).
  - intros H. by rewrite (Hneg H).
  - rewrite Hdiv. eauto.
Qed.

Lemma soc_consumption_rounded_and_guarded_witness :
  exists X res,
    Preprocessor.transform (preprocessor fitted_predictor)
      (input_data 50 80 60 25 "Mixed" "Off" "Moderate")
      = Some (preprocessor fitted_predictor, X) ∧
    predict (fun _ => 300) fitted_predictor 50 80 60 25
      "Mixed" "Off" "Moderate" = Returns res ∧
    (0 < (fun _ => 300) X ->
     soc_consumption_per_km res = Py.round (80 / (fun _ => 300) X) 3) ∧
    ((fun _ => 300) X <= 0 -> soc_consumption_per_km res == 0) ∧
    is_Some (soc_per_km 80 ((fun _ => 300) X)).
Proof.
  apply (soc_consumption_rounded_and_guarded (fun _ => 300) fitted_predictor
           50 80 60 25 "Mixed" "Off" "Moderate"); by vm_compute.
Defined.

(** C10, as stated, fails: for a state of charge of 80 and a predicted
    range of 300 a fitted predictor returns a [soc_consumption_per_km]
    of 0.267, which is not 80 / 300. *)
Lemma soc_consumption_exact_quotient_counterexample :
  (exists res,
     predict (fun _ => 300) fitted_predictor 50 80 60 25
       "Mixed" "Off" "Moderate" = Returns res ∧
     soc_consumption_per_km res = 267 # 1000) ∧
  ~ (267 # 1000 == 80 / 300) ∧
  ~ (forall (predicted_range : Q) self capacity soc speed temp terrain ac
            style res,
       predict (fun _ => predicted_range) self capacity soc speed temp
         terrain ac style = Returns res ->
       0 < predicted_range ->
       soc_consumption_per_km res == soc / predicted_range).
Proof.
  split_and!.
  - eexists. split; by vm_compute.
  - by vm_compute.
  - intros H.
    destruct (predict (fun _ => 300) fitted_predictor 50 80 60 25
                "Mixed" "Off" "Moderate") as [res|e] eqn:E;
      [|by vm_compute in E].
    specialize (H _ _ _ _ _ _ _ _ _ _ E).
    vm_compute in E. injection E as <-.
    specialize (H ltac:(by vm_compute)). by vm_compute in H.
Qed.

End PredictorClaims.

(* ===================================================================== *)
(** * Further properties of the code                                      *)
(* ===================================================================== *)

(** ** The feature frame, row by row *)

Section RowFacts.

Import Preprocessor.
Local Open Scope Q_scope.

Lemma strip_prefix_app (p w : string) : strip_prefix p (p +:+ w) = Some w.
Proof.
  induction p as [|a p IH]; simpl; [done|]. by rewrite Ascii.eqb_refl.
Qed.

Lemma strip_prefix_Some (p s w : string) :
  strip_prefix p s = Some w -> s = p +:+ w.
Proof.
  revert s. induction p as [|a p IH]; intros s; simpl.
  - by intros [= ->].
  - destruct s as [|b s]; [done|].
    destruct (Ascii.eqb_spec a b) as [->|]; [|done].
    intros H. by rewrite (IH _ H).
Qed.

(** The columns of the numerical stage, in closed form. *)
Lemma numerical_columns (df : DataFrame) :
  let f := numerical_features df [] in
  let has n := has_column n (columns df) in
  get_col "battery_capacity_kwh" f
    = (if has "Battery_Capacity_kWh"
       then Some (Battery_Capacity_kWh <$> rows df) else None) ∧
  get_col "current_soc_pct" f
    = (if has "Current_SoC_%"
       then Some (Current_SoC_pct <$> rows df) else None) ∧
  get_col "current_soc_normalized" f
    = (if has "Current_SoC_%"
       then Some ((fun r => Current_SoC_pct r / 100) <$> rows df) else None) ∧
  get_col "avg_speed_kmh" f
    = (if has "Avg_Speed_kmh"
       then Some (Avg_Speed_kmh <$> rows df) else None) ∧
  get_col "temperature_c" f
    = (if has "Temperature_C"
       then Some (Temperature_C <$> rows df) else None) ∧
  get_col "available_energy_kwh" f
    = (if has "Battery_Capacity_kWh" && has "Current_SoC_%"
       then Some ((fun r => Battery_Capacity_kWh r * Current_SoC_pct r / 100)
                    <$> rows df)
       else None).
Proof.
  unfold numerical_features.
  destruct (has_column "Battery_Capacity_kWh" _),
           (has_column "Current_SoC_%" _),
           (has_column "Avg_Speed_kmh" _),
           (has_column "Temperature_C" _);
    cbn; split_and!; reflexivity.
Qed.

(** A fixed label is no indicator label. *)
Lemma get_col_dummies_fixed (n : string) (data : list string)
    (prefix : string) :
  n ∈ fixed_names -> prefix = "terrain" ∨ prefix = "driving" ->
  get_col n (get_dummies data prefix) = None.
Proof.
  intros Hn Hp. apply get_col_None. intros H.
  apply elem_of_names_get_dummies in H as (v & -> & _).
  revert Hn. by apply dummy_not_fixed.
Qed.

(** The column of a category, in closed form. *)
Lemma get_col_dummies_closed (w : string) (data : list string)
    (prefix : string) :
  get_col (prefix +:+ "_" +:+ w) (get_dummies data prefix) =
  if bool_decide (w ∈ data)
  then Some ((fun x => if decide (x = w) then 1 else 0) <$> data)
  else None.
Proof.
  destruct (get_col _ (get_dummies data prefix)) as [c|] eqn:E.
  - assert (Hin : prefix +:+ "_" +:+ w ∈ names (get_dummies data prefix))
      by (apply get_col_is_Some; eauto).
    apply elem_of_names_get_dummies in Hin as (v & Ev & Hv).
    apply string_app_inj in Ev. apply string_app_inj in Ev. subst v.
    rewrite bool_decide_eq_true_2 by done.
    by rewrite (get_col_get_dummies _ _ _ _ E).
  - apply get_col_None in E. rewrite bool_decide_eq_false_2; [done|].
    intros Hw. apply E, elem_of_names_get_dummies. by exists w.
Qed.

(** The categorical stage keeps the columns with fixed labels and adds
    [ac_on]. *)
Lemma categorical_get_col_fixed (df : DataFrame) (f0 : Frame) (n : string) :
  n ∈ fixed_names -> n ≠ "ac_on" ->
  get_col n (categorical_features df f0) = get_col n f0.
Proof.
  intros Hn Hac. unfold categorical_features.
  assert (HT : forall data, get_col n (get_dummies data "terrain") = None)
    by (intros; apply get_col_dummies_fixed; auto).
  assert (HD : forall data, get_col n (get_dummies data "driving") = None)
    by (intros; apply get_col_dummies_fixed; auto).
  destruct (has_column "Terrain" _), (has_column "AC_Usage" _),
           (has_column "Driving_Style" _);
    rewrite ?get_col_app, ?get_col_set_col_ne by done;
    rewrite ?get_col_app, ?HT, ?HD; by destruct (get_col n f0).
Qed.

Lemma categorical_get_col_ac (df : DataFrame) (f0 : Frame) :
  "ac_on" ∉ names f0 ->
  get_col "ac_on" (categorical_features df f0) =
  if has_column "AC_Usage" (columns df)
  then Some ((fun r => ac_on (AC_Usage r)) <$> rows df) else None.
Proof.
  intros H0. apply get_col_None in H0. unfold categorical_features.
  assert (Hfix : "ac_on" ∈ fixed_names).
  { unfold fixed_names. rewrite !elem_of_app, elem_of_cons. auto. }
  assert (HT : forall data, get_col "ac_on" (get_dummies data "terrain") = None)
    by (intros; apply get_col_dummies_fixed; auto).
  assert (HD : forall data, get_col "ac_on" (get_dummies data "driving") = None)
    by (intros; apply get_col_dummies_fixed; auto).
  destruct (has_column "Terrain" _), (has_column "AC_Usage" _),
           (has_column "Driving_Style" _);
    rewrite ?get_col_app, ?get_col_set_col_eq, ?get_col_app, ?H0, ?HT, ?HD;
    done.
Qed.

Section StepColumns.

Variables (src src' name : string).
Variables (op1 : list Q -> list Q) (op2 : list Q -> list Q -> list Q).

Lemma step1_get_col_self (f : Frame) :
  get_col name (step1 src name op1 f) =
  match get_col src f with
  | Some a => Some (op1 a)
  | None => get_col name f
  end.
Proof.
  unfold step1. destruct (get_col src f); [apply get_col_set_col_eq | done].
Qed.

Lemma step2_get_col_self (f : Frame) :
  get_col name (step2 src src' name op2 f) =
  match get_col src f, get_col src' f with
  | Some a, Some b => Some (op2 a b)
  | _, _ => get_col name f
  end.
Proof.
  unfold step2. destruct (get_col src f), (get_col src' f);
    try done; apply get_col_set_col_eq.
Qed.

End StepColumns.

(** The interaction stage leaves every other column alone. *)
Lemma interaction_get_col_other (f : Frame) (n : string) :
  n ∉ interaction_names ->
  get_col n (interaction_features f) = get_col n f.
Proof.
  intros Hn. rewrite interaction_features_steps.
  rewrite !step1_get_col, !step2_get_col; [done|..];
    intros <-; apply Hn; unfold interaction_names;
    rewrite !elem_of_cons; auto 10.
Qed.

(** The four interaction columns, in closed form. *)
Lemma interaction_columns (f : Frame) :
  (forall n, n ∈ interaction_names -> get_col n f = None) ->
  get_col "speed_terrain_highway" (interaction_features f) =
    match get_col "avg_speed_kmh" f, get_col "terrain_Highway" f with
    | Some a, Some b => Some (zip_with Qmult a b)
    | _, _ => None
    end ∧
  get_col "temp_ac_interaction" (interaction_features f) =
    match get_col "temperature_c" f, get_col "ac_on" f with
    | Some a, Some b => Some (zip_with Qmult a b)
    | _, _ => None
    end ∧
  get_col "speed_deviation_from_optimal" (interaction_features f) =
    match get_col "avg_speed_kmh" f with
    | Some a => Some ((fun x => Qabs (x - 60)) <$> a)
    | None => None
    end ∧
  get_col "temp_deviation_from_optimal" (interaction_features f) =
    match get_col "temperature_c" f with
    | Some a => Some ((fun x => Qabs (x - (45 # 2))) <$> a)
    | None => None
    end.
Proof.
  intros Hfree.
  assert (H1 : get_col "speed_terrain_highway" f = None)
    by (apply Hfree; unfold interaction_names; rewrite !elem_of_cons; auto).
  assert (H2 : get_col "temp_ac_interaction" f = None)
    by (apply Hfree; unfold interaction_names; rewrite !elem_of_cons; auto).
  assert (H3 : get_col "speed_deviation_from_optimal" f = None)
    by (apply Hfree; unfold interaction_names; rewrite !elem_of_cons; auto).
  assert (H4 : get_col "temp_deviation_from_optimal" f = None)
    by (apply Hfree; unfold interaction_names; rewrite !elem_of_cons; auto 6).
  rewrite interaction_features_steps. split_and!.
  - rewrite !step1_get_col, step2_get_col by done.
    rewrite step2_get_col_self, H1.
    by destruct (get_col "avg_speed_kmh" f), (get_col "terrain_Highway" f).
  - rewrite !step1_get_col by done.
    rewrite step2_get_col_self, !step2_get_col by done. rewrite H2.
    by destruct (get_col "temperature_c" f), (get_col "ac_on" f).
  - rewrite step1_get_col by done.
    rewrite step1_get_col_self, !step2_get_col by done. rewrite H3.
    by destruct (get_col "avg_speed_kmh" f).
  - rewrite step1_get_col_self, !step1_get_col, !step2_get_col by done.
    rewrite H4. by destruct (get_col "temperature_c" f).
Qed.

Ltac by_computation := apply (bool_decide_unpack _); by vm_compute.

Lemma numerical_get_col_None (df : DataFrame) (n : string) :
  n ∉ numeric_names -> get_col n (numerical_features df []) = None.
Proof.
  intros Hn. apply get_col_None. intros H. by apply numerical_names in H.
Qed.

(** The column [terrain_Highway] before the interaction stage. *)
Lemma categorical_get_col_highway (df : DataFrame) :
  get_col "terrain_Highway"
    (categorical_features df (numerical_features df [])) =
  if has_column "Terrain" (columns df) &&
     bool_decide ("Highway" ∈ Terrain <$> rows df)
  then Some ((fun x => if decide (x = "Highway") then 1 else 0)
               <$> (Terrain <$> rows df))
  else None.
Proof.
  rewrite categorical_get_col;
    [| apply numerical_names
     | apply (indicator_name_not_fixed TerrainField "Highway") ].
  change "terrain_Highway" with (indicator_name TerrainField "Highway").
  rewrite (indicator_get_col TerrainField df "Highway"). simpl.
  destruct (has_column "Terrain" _); [|done]. simpl.
  apply (get_col_dummies_closed "Highway" _ "terrain").
Qed.

(** Every column of [build_features] with a fixed label, in closed
    form. *)
Lemma build_columns (df : DataFrame) :
  let f := build_features df in
  let has n := has_column n (columns df) in
  get_col "battery_capacity_kwh" f
    = (if has "Battery_Capacity_kWh"
       then Some (Battery_Capacity_kWh <$> rows df) else None) ∧
  get_col "current_soc_pct" f
    = (if has "Current_SoC_%"
       then Some (Current_SoC_pct <$> rows df) else None) ∧
  get_col "current_soc_normalized" f
    = (if has "Current_SoC_%"
       then Some ((fun r => Current_SoC_pct r / 100) <$> rows df) else None) ∧
  get_col "avg_speed_kmh" f
    = (if has "Avg_Speed_kmh"
       then Some (Avg_Speed_kmh <$> rows df) else None) ∧
  get_col "temperature_c" f
    = (if has "Temperature_C"
       then Some (Temperature_C <$> rows df) else None) ∧
  get_col "available_energy_kwh" f
    = (if has "Battery_Capacity_kWh" && has "Current_SoC_%"
       then Some ((fun r => Battery_Capacity_kWh r * Current_SoC_pct r / 100)
                    <$> rows df)
       else None) ∧
  get_col "ac_on" f
    = (if has "AC_Usage"
       then Some ((fun r => ac_on (AC_Usage r)) <$> rows df) else None) ∧
  get_col "speed_terrain_highway" f
    = (if has "Avg_Speed_kmh" &&
          (has "Terrain" && bool_decide ("Highway" ∈ Terrain <$> rows df))
       then Some (zip_with Qmult (Avg_Speed_kmh <$> rows df)
                    ((fun x => if decide (x = "Highway") then 1 else 0)
                       <$> (Terrain <$> rows df)))
       else None) ∧
  get_col "temp_ac_interaction" f
    = (if has "Temperature_C" && has "AC_Usage"
       then Some (zip_with Qmult (Temperature_C <$> rows df)
                    ((fun r => ac_on (AC_Usage r)) <$> rows df))
       else None) ∧
  get_col "speed_deviation_from_optimal" f
    = (if has "Avg_Speed_kmh"
       then Some ((fun x => Qabs (x - 60)) <$> (Avg_Speed_kmh <$> rows df))
       else None) ∧
  get_col "temp_deviation_from_optimal" f
    = (if has "Temperature_C"
       then Some ((fun x => Qabs (x - (45 # 2)))
                    <$> (Temperature_C <$> rows df))
       else None).
Proof.
  intros f has. subst f has. unfold build_features.
  set (f0 := numerical_features df []).
  set (f1 := categorical_features df f0).
  destruct (numerical_columns df) as (N1 & N2 & N3 & N4 & N5 & N6).
  fold f0 in N1, N2, N3, N4, N5, N6.
  assert (Hpass : forall n, n ∈ numeric_names -> get_col n f1 = get_col n f0).
  { intros n Hn. apply categorical_get_col_fixed.
    - by apply numeric_fixed.
    - intros ->. revert Hn. by_computation. }
  assert (C1 : get_col "battery_capacity_kwh" f1
               = get_col "battery_capacity_kwh" f0)
    by (apply Hpass; by_computation).
  assert (C2 : get_col "current_soc_pct" f1 = get_col "current_soc_pct" f0)
    by (apply Hpass; by_computation).
  assert (C3 : get_col "current_soc_normalized" f1
               = get_col "current_soc_normalized" f0)
    by (apply Hpass; by_computation).
  assert (C4 : get_col "avg_speed_kmh" f1 = get_col "avg_speed_kmh" f0)
    by (apply Hpass; by_computation).
  assert (C5 : get_col "temperature_c" f1 = get_col "temperature_c" f0)
    by (apply Hpass; by_computation).
  assert (C6 : get_col "available_energy_kwh" f1
               = get_col "available_energy_kwh" f0)
    by (apply Hpass; by_computation).
  assert (C7 : get_col "ac_on" f1 =
               if has_column "AC_Usage" (columns df)
               then Some ((fun r => ac_on (AC_Usage r)) <$> rows df)
               else None).
  { apply categorical_get_col_ac. intros H.
    apply numerical_names in H. revert H. by_computation. }
  assert (C8 := categorical_get_col_highway df). fold f0 f1 in C8.
  assert (Hfree : forall n, n ∈ interaction_names -> get_col n f1 = None).
  { intros n Hn. unfold f1, f0. rewrite categorical_get_col_fixed.
    - apply numerical_get_col_None. revert Hn.
      unfold interaction_names. rewrite !elem_of_cons, elem_of_nil.
      intros H; decompose [or] H; subst; try done; by_computation.
    - unfold fixed_names. rewrite !elem_of_app. auto.
    - intros ->. revert Hn. by_computation. }
  destruct (interaction_columns f1 Hfree) as (I1 & I2 & I3 & I4).
  split_and!.
  - rewrite interaction_get_col_other by by_computation. by rewrite C1.
  - rewrite interaction_get_col_other by by_computation. by rewrite C2.
  - rewrite interaction_get_col_other by by_computation. by rewrite C3.
  - rewrite interaction_get_col_other by by_computation. by rewrite C4.
  - rewrite interaction_get_col_other by by_computation. by rewrite C5.
  - rewrite interaction_get_col_other by by_computation. by rewrite C6.
  - rewrite interaction_get_col_other by by_computation. by rewrite C7.
  - rewrite I1, C4, N4, C8.
    by destruct (has_column "Avg_Speed_kmh" _), (has_column "Terrain" _),
                (bool_decide ("Highway" ∈ Terrain <$> rows df)).
  - rewrite I2, C5, N5, C7.
    by destruct (has_column "Temperature_C" _), (has_column "AC_Usage" _).
  - rewrite I3, C4, N4. by destruct (has_column "Avg_Speed_kmh" _).
  - rewrite I4, C5, N5. by destruct (has_column "Temperature_C" _).
Qed.

Lemma rowwise_fmap (cols : list string) (rs : list Row) (n : string)
    (g : Row -> Q) :
  (forall r, r ∈ rs -> g r == cell cols r n) -> rowwise cols rs n (g <$> rs).
Proof.
  unfold rowwise. induction rs as [|r rs IH]; intros H; [constructor|].
  rewrite fmap_cons. constructor.
  - apply H. left.
  - apply IH. intros r' Hr'. apply H. by right.
Qed.

Lemma rowwise_zeros (cols : list string) (rs : list Row) (n : string) :
  (forall r, r ∈ rs -> cell cols r n == 0) ->
  rowwise cols rs n (replicate (length rs) 0).
Proof.
  unfold rowwise. induction rs as [|r rs IH]; intros H; [constructor|].
  simpl. constructor.
  - symmetry. apply H. left.
  - apply IH. intros r' Hr'. apply H. by right.
Qed.

Lemma zip_with_fmap_rows (h : Q -> Q -> Q) (a b : Row -> Q) (rs : list Row) :
  zip_with h (a <$> rs) (b <$> rs) = (fun r => h (a r) (b r)) <$> rs.
Proof. induction rs as [|r rs IH]; [done|]. simpl. by f_equal. Qed.

Lemma assoc_fixed_None (cols : list string) (r : Row) (n : string) :
  n ∉ fixed_names -> assoc n (fixed_cells cols r) = None.
Proof.
  unfold fixed_names, numeric_names, interaction_names. simpl.
  rewrite !not_elem_of_cons. intros H. destruct_and!.
  unfold fixed_cells. cbn [assoc].
  by rewrite !decide_False by done.
Qed.

(** The features with a fixed label. *)
Lemma cell_fixed (cols : list string) :
  let has n := has_column n cols in
  (forall r, cell cols r "battery_capacity_kwh"
             = if has "Battery_Capacity_kWh" then Battery_Capacity_kWh r
               else 0) ∧
  (forall r, cell cols r "current_soc_pct"
             = if has "Current_SoC_%" then Current_SoC_pct r else 0) ∧
  (forall r, cell cols r "current_soc_normalized"
             = if has "Current_SoC_%" then Current_SoC_pct r / 100 else 0) ∧
  (forall r, cell cols r "avg_speed_kmh"
             = if has "Avg_Speed_kmh" then Avg_Speed_kmh r else 0) ∧
  (forall r, cell cols r "temperature_c"
             = if has "Temperature_C" then Temperature_C r else 0) ∧
  (forall r, cell cols r "available_energy_kwh"
             = if has "Battery_Capacity_kWh" && has "Current_SoC_%"
               then Battery_Capacity_kWh r * Current_SoC_pct r / 100
               else 0) ∧
  (forall r, cell cols r "ac_on"
             = if has "AC_Usage" then ac_on (AC_Usage r) else 0) ∧
  (forall r, cell cols r "speed_terrain_highway"
             = if has "Avg_Speed_kmh" && has "Terrain"
               then Avg_Speed_kmh r
                    * indicator (bool_decide (Terrain r = "Highway"))
               else 0) ∧
  (forall r, cell cols r "temp_ac_interaction"
             = if has "Temperature_C" && has "AC_Usage"
               then Temperature_C r * ac_on (AC_Usage r) else 0) ∧
  (forall r, cell cols r "speed_deviation_from_optimal"
             = if has "Avg_Speed_kmh" then Qabs (Avg_Speed_kmh r - 60)
               else 0) ∧
  (forall r, cell cols r "temp_deviation_from_optimal"
             = if has "Temperature_C"
               then Qabs (Temperature_C r - (45 # 2)) else 0).
Proof. by split_and!. Qed.

(** Every built column holds, row by row, the feature of its label; a
    label without a column has the feature 0 on every row. *)
Lemma build_cell (df : DataFrame) (n : string) :
  match get_col n (build_features df) with
  | Some c => rowwise (columns df) (rows df) n c
  | None => forall r, r ∈ rows df -> cell (columns df) r n == 0
  end.
Proof.
  destruct (decide (n ∈ fixed_names)) as [Hfix|Hfix].
  - destruct (build_columns df)
      as (B1 & B2 & B3 & B4 & B5 & B6 & B7 & B8 & B9 & B10 & B11).
    destruct (cell_fixed (columns df))
      as (K1 & K2 & K3 & K4 & K5 & K6 & K7 & K8 & K9 & K10 & K11).
    unfold fixed_names, numeric_names, interaction_names in Hfix.
    simpl in Hfix. rewrite !elem_of_cons, elem_of_nil in Hfix.
    decompose [or] Hfix; try subst n; try done.
    + rewrite B1. destruct (has_column "Battery_Capacity_kWh" _).
      * apply rowwise_fmap. intros r _. by rewrite K1.
      * intros r _. by rewrite K1.
    + rewrite B2. destruct (has_column "Current_SoC_%" _).
      * apply rowwise_fmap. intros r _. by rewrite K2.
      * intros r _. by rewrite K2.
    + rewrite B3. destruct (has_column "Current_SoC_%" _).
      * apply rowwise_fmap. intros r _. by rewrite K3.
      * intros r _. by rewrite K3.
    + rewrite B4. destruct (has_column "Avg_Speed_kmh" _).
      * apply rowwise_fmap. intros r _. by rewrite K4.
      * intros r _. by rewrite K4.
    + rewrite B5. destruct (has_column "Temperature_C" _).
      * apply rowwise_fmap. intros r _. by rewrite K5.
      * intros r _. by rewrite K5.
    + rewrite B6.
      destruct (has_column "Battery_Capacity_kWh" _ &&
                has_column "Current_SoC_%" _).
      * apply rowwise_fmap. intros r _. by rewrite K6.
      * intros r _. by rewrite K6.
    + rewrite B7. destruct (has_column "AC_Usage" _).
      * apply rowwise_fmap. intros r _. by rewrite K7.
      * intros r _. by rewrite K7.
    + rewrite B8.
      destruct (has_column "Avg_Speed_kmh" _);
        [|intros r _; by rewrite K8].
      destruct (has_column "Terrain" _);
        [|intros r _; by rewrite K8].
      destruct (bool_decide ("Highway" ∈ Terrain <$> rows df)) eqn:E; simpl.
      * rewrite <- list_fmap_compose, zip_with_fmap_rows.
        apply rowwise_fmap. intros r _. rewrite K8. simpl.
        unfold indicator. by destruct (decide (Terrain r = "Highway"));
          [rewrite bool_decide_eq_true_2 | rewrite bool_decide_eq_false_2].
      * apply bool_decide_eq_false in E. intros r Hr. rewrite K8. simpl.
        rewrite bool_decide_eq_false_2.
        { unfold indicator. ring. }
        intros Heq. apply E, list_elem_of_fmap. by exists r.
    + rewrite B9.
      destruct (has_column "Temperature_C" _ && has_column "AC_Usage" _).
      * rewrite zip_with_fmap_rows. apply rowwise_fmap.
        intros r _. by rewrite K9.
      * intros r _. by rewrite K9.
    + rewrite B10. destruct (has_column "Avg_Speed_kmh" _).
      * rewrite <- list_fmap_compose. apply rowwise_fmap.
        intros r _. by rewrite K10.
      * intros r _. by rewrite K10.
    + rewrite B11. destruct (has_column "Temperature_C" _).
      * rewrite <- list_fmap_compose. apply rowwise_fmap.
        intros r _. by rewrite K11.
      * intros r _. by rewrite K11.
  - rewrite build_get_col_indicator by done.
    unfold cell.
    assert (Hcell : forall r, assoc n (fixed_cells (columns df) r) = None)
      by (intros; by apply assoc_fixed_None).
    destruct (strip_prefix "terrain_" n) as [w|] eqn:ET.
    { apply strip_prefix_Some in ET. subst n.
      change ("terrain_" +:+ w) with (indicator_name TerrainField w).
      rewrite indicator_get_col.
      change (field_value TerrainField) with Terrain.
      change (field_column TerrainField) with "Terrain".
      change (field_prefix TerrainField) with "terrain".
      destruct (has_column "Terrain" _) eqn:HK; simpl.
      - change (indicator_name TerrainField w) with ("terrain" +:+ "_" +:+ w).
        rewrite get_col_dummies_closed.
        destruct (bool_decide (w ∈ Terrain <$> rows df)) eqn:E.
        + rewrite <- list_fmap_compose. apply rowwise_fmap.
          intros r _. change ("terrain" +:+ "_" +:+ w) with ("terrain_" +:+ w).
          unfold cell. rewrite Hcell, strip_prefix_app, HK.
          simpl. unfold indicator.
          by destruct (decide (Terrain r = w));
            [rewrite bool_decide_eq_true_2 | rewrite bool_decide_eq_false_2].
        + apply bool_decide_eq_false in E. intros r Hr. rewrite ?Hcell, ?HK. simpl.
          rewrite bool_decide_eq_false_2; [done|].
          intros Heq. apply E, list_elem_of_fmap. by exists r.
      - intros r _. by rewrite ?Hcell, ?HK. }
    destruct (strip_prefix "driving_" n) as [w|] eqn:ED.
    { apply strip_prefix_Some in ED. subst n.
      change ("driving_" +:+ w) with (indicator_name DrivingStyleField w).
      rewrite indicator_get_col.
      change (field_value DrivingStyleField) with Driving_Style.
      change (field_column DrivingStyleField) with "Driving_Style".
      change (field_prefix DrivingStyleField) with "driving".
      destruct (has_column "Driving_Style" _) eqn:HK; simpl.
      - change (indicator_name DrivingStyleField w)
          with ("driving" +:+ "_" +:+ w).
        rewrite get_col_dummies_closed.
        destruct (bool_decide (w ∈ Driving_Style <$> rows df)) eqn:E.
        + rewrite <- list_fmap_compose. apply rowwise_fmap.
          intros r _. change ("driving" +:+ "_" +:+ w) with ("driving_" +:+ w).
          unfold cell. rewrite Hcell, ET, strip_prefix_app, HK.
          simpl. unfold indicator.
          by destruct (decide (Driving_Style r = w));
            [rewrite bool_decide_eq_true_2 | rewrite bool_decide_eq_false_2].
        + apply bool_decide_eq_false in E. intros r Hr. rewrite ?Hcell, ?HK. simpl.
          rewrite bool_decide_eq_false_2; [done|].
          intros Heq. apply E, list_elem_of_fmap. by exists r.
      - intros r _. by rewrite ?Hcell, ?HK. }
    destruct (get_col n (indicator_columns df)) as [c|] eqn:E.
    + exfalso.
      assert (Hin : n ∈ names (indicator_columns df))
        by (apply get_col_is_Some; eauto).
      unfold indicator_columns, names in Hin.
      rewrite fmap_app, elem_of_app in Hin. destruct Hin as [Hin|Hin].
      * destruct (has_column "Terrain" _); [|by apply elem_of_nil in Hin].
        apply elem_of_names_get_dummies in Hin as (v & -> & _).
        change ("terrain" +:+ "_" +:+ v) with ("terrain_" +:+ v) in ET.
        by rewrite strip_prefix_app in ET.
      * destruct (has_column "Driving_Style" _);
          [|by apply elem_of_nil in Hin].
        apply elem_of_names_get_dummies in Hin as (v & -> & _).
        change ("driving" +:+ "_" +:+ v) with ("driving_" +:+ v) in ED.
        by rewrite strip_prefix_app in ED.
    + intros r _. by rewrite Hcell.
Qed.

Lemma has_feature_column_false (cols : list string) :
  has_feature_column cols = false ->
  has_column "Battery_Capacity_kWh" cols = false ∧
  has_column "Current_SoC_%" cols = false ∧
  has_column "Avg_Speed_kmh" cols = false ∧
  has_column "Temperature_C" cols = false ∧
  has_column "Terrain" cols = false ∧
  has_column "AC_Usage" cols = false ∧
  has_column "Driving_Style" cols = false.
Proof.
  unfold has_feature_column. simpl.
  destruct (has_column "Battery_Capacity_kWh" cols),
           (has_column "Current_SoC_%" cols),
           (has_column "Avg_Speed_kmh" cols),
           (has_column "Temperature_C" cols),
           (has_column "Terrain" cols),
           (has_column "AC_Usage" cols),
           (has_column "Driving_Style" cols); simpl; try done.
Qed.

(** Without any feature column nothing is built. *)
Lemma build_empty (df : DataFrame) :
  has_feature_column (columns df) = false -> build_features df = [].
Proof.
  intros H. apply has_feature_column_false in H
    as (H1 & H2 & H3 & H4 & H5 & H6 & H7).
  unfold build_features, numerical_features, categorical_features.
  by rewrite H1, H2, H3, H4, H5, H6, H7.
Qed.

(** With a feature column and a row, something is built. *)
Lemma build_nonempty (df : DataFrame) :
  has_feature_column (columns df) = true -> rows df ≠ [] ->
  build_features df ≠ [].
Proof.
  intros Hcol Hrows Hnil.
  destruct (build_columns df)
    as (B1 & B2 & _ & B4 & B5 & _ & B7 & _).
  rewrite Hnil in B1, B2, B4, B5, B7. simpl in *.
  destruct (rows df) as [|r rs] eqn:Er; [done|].
  assert (HT : has_column "Terrain" (columns df) = false).
  { destruct (has_column "Terrain" (columns df)) eqn:E; [|done].
    assert (Hin : indicator_name TerrainField (Terrain r)
                    ∈ names (build_features df)).
    { apply build_indicator_present. unfold observed. simpl. rewrite E, Er.
      simpl. apply bool_decide_eq_true. left. }
    rewrite Hnil in Hin. by apply elem_of_nil in Hin. }
  assert (HD : has_column "Driving_Style" (columns df) = false).
  { destruct (has_column "Driving_Style" (columns df)) eqn:E; [|done].
    assert (Hin : indicator_name DrivingStyleField (Driving_Style r)
                    ∈ names (build_features df)).
    { apply build_indicator_present. unfold observed. simpl. rewrite E, Er.
      simpl. apply bool_decide_eq_true. left. }
    rewrite Hnil in Hin. by apply elem_of_nil in Hin. }
  unfold has_feature_column in Hcol. simpl in Hcol.
  rewrite HT, HD in Hcol.
  destruct (has_column "Battery_Capacity_kWh" _); [done|].
  destruct (has_column "Current_SoC_%" _); [done|].
  destruct (has_column "Avg_Speed_kmh" _); [done|].
  destruct (has_column "Temperature_C" _); [done|].
  destruct (has_column "AC_Usage" _); done.
Qed.

(** The index of the built frame is the index of the data frame, unless
    no feature column exists. *)
Lemma build_nrows (df : DataFrame) :
  has_feature_column (columns df) = true ->
  nrows (build_features df) = length (rows df).
Proof.
  intros Hcol. destruct (rows df) as [|r rs] eqn:Er.
  - pose proof (build_height df) as Hh. rewrite Er in Hh.
    destruct (build_features df) as [|[k c] f]; [done|].
    by apply Forall_cons in Hh as [Hh _].
  - rewrite <- Er. apply height_nrows; [apply build_height|].
    apply build_nonempty; [done|]. by rewrite Er.
Qed.

(** The frame of [transform], cell by cell. *)
Lemma transform_cells (self : EVDataPreprocessor) (df : DataFrame) :
  has_feature_column (columns df) = true ->
  exists X,
    transform self df = Some (self, X) ∧
    names X = feature_names self ∧
    forall n, n ∈ feature_names self ->
              exists c, get_col n X = Some c ∧
                        rowwise (columns df) (rows df) n c.
Proof.
  intros Hcol.
  destruct (transform_total self df) as (X & HX & Hn & Hc).
  exists X. split_and!; [done..|]. intros n Hin.
  rewrite (Hc n Hin). eexists. split; [done|].
  unfold reconciled. pose proof (build_cell df n) as Hcell.
  destruct (get_col n (build_features df)); [done|].
  rewrite build_nrows by done. by apply rowwise_zeros.
Qed.

(** X1.  [transform] works record by record.  On a data frame with at
    least one feature column the frame it hands to the scaler holds,
    under every recorded label, the column that holds for each row the
    feature of that row alone ([cell]): its own numbers, the indicators
    of its own categories and its own interaction terms, with 0 for
    whatever the frame cannot produce.  Neither the other rows nor the
    categories that happen to occur in the frame change a row's
    features. *)
Theorem transform_rowwise (self : EVDataPreprocessor) (df : DataFrame) :
  has_feature_column (columns df) = true ->
  exists X,
    transform self df = Some (self, X) ∧
    names X = feature_names self ∧
    forall n, n ∈ feature_names self ->
              exists c, get_col n X = Some c ∧
                        rowwise (columns df) (rows df) n c.
Proof. apply transform_cells. Qed.

Lemma transform_rowwise_witness :
  exists X,
    transform (fitted_by init fit_frame) swamp_frame
      = Some (fitted_by init fit_frame, X) ∧
    names X = feature_names (fitted_by init fit_frame) ∧
    forall n, n ∈ feature_names (fitted_by init fit_frame) ->
              exists c, get_col n X = Some c ∧
                        rowwise (columns swamp_frame) (rows swamp_frame) n c.
Proof.
  apply (transform_rowwise (fitted_by init fit_frame) swamp_frame).
  reflexivity.
Defined.

(** X2.  The features of a record depend neither on its position nor on
    the records around it: when the same record sits in row [i] of one
    data frame and in row [j] of another with the same columns (a
    reordering, a subset, a single-row request), [transform] gives it
    the same value under every recorded label. *)
Theorem transform_row_independent (self : EVDataPreprocessor)
    (df1 df2 : DataFrame) (i j : nat) (r : Row) (n : string) :
  columns df1 = columns df2 ->
  has_feature_column (columns df1) = true ->
  rows df1 !! i = Some r -> rows df2 !! j = Some r ->
  n ∈ feature_names self ->
  exists X1 X2 c1 c2 x1 x2,
    transform self df1 = Some (self, X1) ∧
    transform self df2 = Some (self, X2) ∧
    get_col n X1 = Some c1 ∧ get_col n X2 = Some c2 ∧
    c1 !! i = Some x1 ∧ c2 !! j = Some x2 ∧ x1 == x2.
Proof.
  intros Hcols Hcol H1 H2 Hn.
  destruct (transform_cells self df1 Hcol) as (X1 & HX1 & _ & Hc1).
  assert (Hcol2 : has_feature_column (columns df2) = true)
    by (by rewrite <- Hcols).
  destruct (transform_cells self df2 Hcol2) as (X2 & HX2 & _ & Hc2).
  destruct (Hc1 n Hn) as (c1 & Hg1 & Hr1).
  destruct (Hc2 n Hn) as (c2 & Hg2 & Hr2).
  unfold rowwise in Hr1, Hr2.
  destruct (Forall2_lookup_r _ _ _ _ _ Hr1 H1) as (x1 & Hx1 & E1).
  destruct (Forall2_lookup_r _ _ _ _ _ Hr2 H2) as (x2 & Hx2 & E2).
  exists X1, X2, c1, c2, x1, x2. split_and!; try done.
  rewrite E1, E2, Hcols. reflexivity.
Qed.

Lemma transform_row_independent_witness :
  exists X1 X2 c1 c2 x1 x2,
    transform (fitted_by init fit_frame) swamp_frame
      = Some (fitted_by init fit_frame, X1) ∧
    transform (fitted_by init fit_frame)
      {| columns := columns fit_frame; rows := [swamp_row] |}
      = Some (fitted_by init fit_frame, X2) ∧
    get_col "terrain_City" X1 = Some c1 ∧
    get_col "terrain_City" X2 = Some c2 ∧
    c1 !! 1%nat = Some x1 ∧ c2 !! 0%nat = Some x2 ∧ x1 == x2.
Proof.
  apply (transform_row_independent (fitted_by init fit_frame) swamp_frame
           {| columns := columns fit_frame; rows := [swamp_row] |}
           1 0 swamp_row "terrain_City");
    try reflexivity.
  by_computation.
Defined.

Lemma fill_missing_height (k : nat) (labels : list string) (f : Frame) :
  height k f -> nrows f = k -> height k (fill_missing labels f).
Proof.
  revert f. induction labels as [|col labels IH]; intros f Hh Hn; [done|].
  rewrite fill_missing_cons. apply IH.
  - unfold fill_step. destruct (has_column col (names f)); [done|].
    apply height_set_col; [|done]. by rewrite length_replicate.
  - by rewrite fill_step_nrows.
Qed.

(** Every column that [transform] returns is a column of the reconciled
    frame. *)
Lemma transform_columns_from (self : EVDataPreprocessor) (df : DataFrame)
    (X : Frame) :
  transform self df = Some (self, X) ->
  forall col, col ∈ X ->
              col ∈ fill_missing (feature_names self) (build_features df).
Proof.
  unfold transform, prepare_features, select. simpl.
  destruct (forallb _ (feature_names self)); simpl; [|done].
  intros [= <-] col Hin.
  apply list_elem_of_In, in_flat_map in Hin as (l & _ & Hl).
  apply list_elem_of_In in Hl. by apply list_elem_of_filter in Hl as [_ ?].
Qed.

(** X3.  A data frame without any of the seven feature columns yields no
    rows: [transform] still returns the recorded labels in order, but
    every column is empty, whatever the number of rows of the data
    frame. *)
Theorem transform_without_feature_columns (self : EVDataPreprocessor)
    (df : DataFrame) :
  has_feature_column (columns df) = false ->
  exists X,
    transform self df = Some (self, X) ∧
    X = (fun n => (n, [])) <$> feature_names self.
Proof.
  intros Hcol.
  destruct (transform_total self df) as (X & HX & Hn & _).
  exists X. split; [done|].
  assert (Hempty : Forall (fun col => col.2 = []) X).
  { apply Forall_forall. intros col Hin.
    apply (transform_columns_from _ _ _ HX) in Hin.
    rewrite (build_empty df Hcol) in Hin.
    assert (Hh : height 0 (fill_missing (feature_names self) []))
      by (by apply fill_missing_height; [apply Forall_nil|]).
    unfold height in Hh. rewrite Forall_forall in Hh.
    specialize (Hh _ Hin). by apply nil_length_inv. }
  clear HX. revert X Hn Hempty. unfold names.
  induction (feature_names self) as [|k ks IH]; intros X Hn Hempty.
  - by destruct X.
  - destruct X as [|[k' c] X]; [done|].
    rewrite fmap_cons in Hn. simpl in Hn. injection Hn as -> Hn.
    apply Forall_cons in Hempty as [Hc Hrest]. simpl in Hc. subst c.
    rewrite fmap_cons. f_equal. by apply IH.
Qed.

Lemma transform_without_feature_columns_witness :
  exists X,
    transform (fitted_by init fit_frame)
      {| columns := ["Range_km"; "Station_Name"]; rows := [swamp_row] |}
      = Some (fitted_by init fit_frame, X) ∧
    X = (fun n => (n, [])) <$> feature_names (fitted_by init fit_frame).
Proof.
  apply (transform_without_feature_columns (fitted_by init fit_frame)
           {| columns := ["Range_km"; "Station_Name"]; rows := [swamp_row] |}).
  reflexivity.
Defined.

End RowFacts.

(** ** Ensemble weights for any number of models *)

Section WeightFacts.

Import Training.
Local Open Scope Q_scope.

Lemma sum_cons (x : Q) (l : list Q) : sum (x :: l) = x + sum l.
Proof. reflexivity. Qed.

Lemma sum_scaled (t : Q) (l : list Q) :
  sum ((fun w => w / t) <$> l) == sum l / t.
Proof.
  induction l as [|x l IH].
  - unfold sum. simpl. unfold Qdiv. ring.
  - rewrite fmap_cons, !sum_cons, IH. unfold Qdiv. ring.
Qed.

Lemma sum_nonneg (l : list Q) : Forall (fun x => 0 <= x) l -> 0 <= sum l.
Proof.
  induction 1 as [|x l Hx _ IH]; [by vm_compute|].
  rewrite sum_cons. replace 0 with (0 + 0) by reflexivity.
  by apply Qplus_le_compat.
Qed.

(** The weights of the top models are their shares of the score. *)
Lemma ensemble_weights_shares (results_df : list Result) :
  Forall (fun r => 0 <= Test_R2 r) (take 3 results_df) ->
  0 < sum (Test_R2 <$> take 3 results_df) ->
  exists weights,
    ensemble_weights results_df = Some weights ∧
    length weights = Nat.min 3 (length results_df) ∧
    Forall2 (fun w r =>
               w == Test_R2 r / sum (Test_R2 <$> take 3 results_df))
            weights (take 3 results_df) ∧
    Forall (fun w => 0 <= w) weights ∧
    sum weights == 1.
Proof.
  intros Hnn Hpos. unfold ensemble_weights.
  set (top := take 3 results_df) in *.
  set (total := sum (Test_R2 <$> top)) in *.
  assert (Hnz : ~ total == 0).
  { intros E. rewrite E in Hpos. by apply Qlt_irrefl in Hpos. }
  destruct (Qeq_bool total 0) eqn:E.
  { apply Qeq_bool_iff in E. contradiction. }
  eexists. split; [reflexivity|]. split_and!.
  - rewrite !length_fmap. unfold top. by rewrite length_take.
  - rewrite <- list_fmap_compose. apply Forall2_fmap_l, Forall_Forall2_diag.
    apply Forall_forall. intros r _. simpl. reflexivity.
  - rewrite <- list_fmap_compose. apply Forall_fmap.
    eapply Forall_impl; [exact Hnn|]. intros r Hr. simpl.
    apply Qmult_le_0_compat; [done|].
    apply Qinv_le_0_compat. by apply Qlt_le_weak.
  - rewrite sum_scaled. fold total. by apply Qmult_inv_r.
Qed.

(** X4.  The ensemble weights for any number of ranked models, not only
    three: when the test R² scores of the (at most three) top models are
    non-negative and their sum is positive, the weights exist, there is
    one per top model, each is that model's score divided by the sum,
    none is negative, and they sum to 1.  With fewer than three models
    the ensemble is built from those there are. *)
Theorem ensemble_weights_any_count (results_df : list Result) :
  Forall (fun r => 0 <= Test_R2 r) (take 3 results_df) ->
  0 < sum (Test_R2 <$> take 3 results_df) ->
  exists weights,
    ensemble_weights results_df = Some weights ∧
    length weights = Nat.min 3 (length results_df) ∧
    Forall2 (fun w r =>
               w == Test_R2 r / sum (Test_R2 <$> take 3 results_df))
            weights (take 3 results_df) ∧
    Forall (fun w => 0 <= w) weights ∧
    sum weights == 1.
Proof. apply ensemble_weights_shares. Qed.

Lemma ensemble_weights_any_count_witness :
  exists weights,
    ensemble_weights [result "XGBoost" (96 # 100); result "LightGBM" (95 # 100)]
      = Some weights ∧
    length weights = Nat.min 3 2 ∧
    Forall2 (fun w r =>
               w == Test_R2 r
                    / sum (Test_R2 <$> take 3
                             [result "XGBoost" (96 # 100);
                              result "LightGBM" (95 # 100)]))
            weights
            (take 3 [result "XGBoost" (96 # 100);
                     result "LightGBM" (95 # 100)]) ∧
    Forall (fun w => 0 <= w) weights ∧
    sum weights == 1.
Proof.
  apply (ensemble_weights_any_count
           [result "XGBoost" (96 # 100); result "LightGBM" (95 # 100)]).
  - repeat constructor; by vm_compute.
  - by vm_compute.
Defined.

End WeightFacts.

(** ** The served ensemble *)

Section ServedEnsemble.

Import Training ApiModel.
Local Open Scope Q_scope.






End ServedEnsemble.

(** ** What the ensemble stage preserves *)

Section PromotionFacts.

Import Training.
Local Open Scope Q_scope.

(** X6.  The ensemble stage never lowers the selected score, and keeps
    the recorded accuracy equal to 100 times the recorded score: if the
    accuracy passed in is 100 times the score, then whatever the stage
    returns has a score at least as high, an accuracy that is still 100
    times its score, and the name either unchanged or "Ensemble"; when
    the accuracy is 98 or more, no ensemble is created and the selection
    is returned as it came. *)
Theorem ensemble_stage_keeps_score (ensemble_r2 : list string -> list Q -> Q)
    (results_df : list Result) (best : Best) (out : Outcome) :
  ensemble_stage ensemble_r2 results_df best = Some out ->
  best_accuracy best == best_score best * 100 ->
  best_score best <= best_score (selected out) ∧
  best_accuracy (selected out) == best_score (selected out) * 100 ∧
  (best_model_name (selected out) = best_model_name best ∨
   best_model_name (selected out) = "Ensemble") ∧
  (98 <= best_accuracy best -> out = mkOutcome best None).
Proof.
  intros Hout Hacc. unfold ensemble_stage in Hout.
  destruct (Py.ltb (best_accuracy best) 98) eqn:Etrig.
  - destruct (ensemble_weights results_df) as [weights|]; [|done].
    simpl in Hout. injection Hout as <-. cbn [selected].
    apply ltb_true in Etrig.
    destruct (Py.gtb _ (best_score best)) eqn:Eprom.
    + apply gtb_true in Eprom. cbn. split_and!.
      * by apply Qlt_le_weak.
      * reflexivity.
      * by right.
      * intros H. exfalso. by apply (Qlt_not_le _ _ Etrig).
    + split_and!; [apply Qle_refl | done | by left |].
      intros H. exfalso. by apply (Qlt_not_le _ _ Etrig).
  - injection Hout as <-. cbn [selected].
    split_and!; [apply Qle_refl | done | by left | done].
Qed.

Lemma ensemble_stage_keeps_score_witness :
  (96 # 100) <= best_score
                  (selected
                     (mkOutcome (mkBest "Ensemble" (97 # 100) ((97 # 100) * 100))
                        (Some (["XGBoost"; "LightGBM"],
                               [(96 # 100) / ((96 # 100) + ((95 # 100) + 0));
                                (95 # 100) / ((96 # 100) + ((95 # 100) + 0))],
                               97 # 100)))) ∧
  best_accuracy
    (selected
       (mkOutcome (mkBest "Ensemble" (97 # 100) ((97 # 100) * 100))
          (Some (["XGBoost"; "LightGBM"],
                 [(96 # 100) / ((96 # 100) + ((95 # 100) + 0));
                  (95 # 100) / ((96 # 100) + ((95 # 100) + 0))],
                 97 # 100))))
  == best_score
       (selected
          (mkOutcome (mkBest "Ensemble" (97 # 100) ((97 # 100) * 100))
             (Some (["XGBoost"; "LightGBM"],
                    [(96 # 100) / ((96 # 100) + ((95 # 100) + 0));
                     (95 # 100) / ((96 # 100) + ((95 # 100) + 0))],
                    97 # 100)))) * 100 ∧
  (best_model_name
     (selected
        (mkOutcome (mkBest "Ensemble" (97 # 100) ((97 # 100) * 100))
           (Some (["XGBoost"; "LightGBM"],
                  [(96 # 100) / ((96 # 100) + ((95 # 100) + 0));
                   (95 # 100) / ((96 # 100) + ((95 # 100) + 0))],
                  97 # 100)))) = "XGBoost" ∨
   best_model_name
     (selected
        (mkOutcome (mkBest "Ensemble" (97 # 100) ((97 # 100) * 100))
           (Some (["XGBoost"; "LightGBM"],
                  [(96 # 100) / ((96 # 100) + ((95 # 100) + 0));
                   (95 # 100) / ((96 # 100) + ((95 # 100) + 0))],
                  97 # 100)))) = "Ensemble") ∧
  (98 <= (96 # 100) * 100 ->
   mkOutcome (mkBest "Ensemble" (97 # 100) ((97 # 100) * 100))
     (Some (["XGBoost"; "LightGBM"],
            [(96 # 100) / ((96 # 100) + ((95 # 100) + 0));
             (95 # 100) / ((96 # 100) + ((95 # 100) + 0))],
            97 # 100))
   = mkOutcome (mkBest "XGBoost" (96 # 100) ((96 # 100) * 100)) None).
Proof.
  apply (ensemble_stage_keeps_score (fun _ _ => 97 # 100)
           [result "XGBoost" (96 # 100); result "LightGBM" (95 # 100)]
           (mkBest "XGBoost" (96 # 100) ((96 # 100) * 100))).
  - reflexivity.
  - reflexivity.
Defined.

End PromotionFacts.

(** ** The charge recommendation *)

Section ChargeFacts.

Import Api.
Local Open Scope Q_scope.

Lemma py_min_le_r (a b : Q) : Py.min a b <= b.
Proof.
  unfold Py.min. destruct (Py.ltb b a) eqn:E; [apply Qle_refl|].
  by apply ltb_false in E.
Qed.

Lemma py_max_ge_l (a b : Q) : a <= Py.max a b.
Proof.
  unfold Py.max, Py.gtb. destruct (Py.ltb a b) eqn:E; [|apply Qle_refl].
  apply ltb_true in E. by apply Qlt_le_weak.
Qed.

Lemma py_max_0_nonpos (x : Q) : x <= 0 -> Py.max 0 x = 0.
Proof.
  intros H. unfold Py.max. by rewrite (proj2 (gtb_false _ _) H).
Qed.

Lemma round_zero (x : Q) (ndigits : nat) : x == 0 -> Py.round x ndigits == 0.
Proof.
  intros E. apply Qle_antisym.
  - apply round_nonpos. rewrite E. apply Qle_refl.
  - apply round_nonneg. rewrite E. apply Qle_refl.
Qed.

(** X7.  What [/api/recommend-charge] answers (for a non-zero battery
    capacity).  It answers 200 only for a trip that needs more than a
    full battery: the required charge is then reported as 100%, the
    charge to add is not negative, the destination is reported reachable
    exactly when the battery is at 100% or more, and then the charge to
    add, the charging time and the cost are all 0.  Every other request,
    so every trip within the reach of a full battery, is answered 400
    with the serialiser's error. *)
Theorem recommend_charge_answers (accuracy : Q) (data : ChargeRequest)
    (predicted_consumption : Q) :
  ~ get (battery_capacity_kwh data) 50 == 0 ->
  (100 < get (distance_to_destination_km data) 0 * predicted_consumption
         / (1 - SAFETY_BUFFER) / get (battery_capacity_kwh data) 50 * 100 ->
   exists body,
     recommend_charge accuracy data predicted_consumption
       = Some (Http200 body) ∧
     body_required_battery_pct body == 100 ∧
     0 <= body_charge_needed_pct body ∧
     (is_reachable body = true <-> 100 <= get (current_battery_pct data) 100) ∧
     (is_reachable body = true ->
      body_charge_needed_pct body == 0 ∧
      estimated_charging_time_minutes body == 0 ∧
      estimated_cost_inr body == 0)) ∧
  (get (distance_to_destination_km data) 0 * predicted_consumption
   / (1 - SAFETY_BUFFER) / get (battery_capacity_kwh data) 50 * 100 <= 100 ->
   recommend_charge accuracy data predicted_consumption
     = Some (Http400 bool_not_serializable)).
Proof.
  intros Hcap. unfold recommend_charge, recommend_charge_calc.
  destruct (charge_calc_prefix (get (distance_to_destination_km data) 0)
              (get (battery_capacity_kwh data) 50) predicted_consumption Hcap)
    as [H1 H2].
  rewrite H1. cbn [mbind option_bind]. rewrite H2. cbn [mbind option_bind].
  rewrite checked_div_nonzero by (by vm_compute).
  cbn [mbind option_bind required_is_int].
  set (pct := _ / _ / _ * 100).
  set (current := get (current_battery_pct data) 100).
  split.
  - intros Hcapped. rewrite (proj2 (ltb_true _ _) Hcapped).
    eexists. split; [reflexivity|].
    cbn [body_required_battery_pct body_charge_needed_pct is_reachable
         estimated_charging_time_minutes estimated_cost_inr
         required_battery_pct charge_needed_pct charging_time_minutes
         estimated_cost].
    assert (Hreq : Py.min pct 100 = 100).
    { unfold Py.min. by rewrite (proj2 (ltb_true _ _) Hcapped). }
    rewrite Hreq.
    assert (Hiff : Py.geb current 100 = true <-> 100 <= current).
    { unfold Py.geb. rewrite negb_true_iff. apply ltb_false. }
    split_and!.
    + apply (round_Z 100 1).
    + apply round_nonneg, py_max_ge_l.
    + exact Hiff.
    + intros Hreach. apply Hiff in Hreach.
      assert (Hneed : Py.max 0 (100 - current) = 0).
      { apply py_max_0_nonpos. unfold Qminus.
        rewrite <- (Qplus_opp_r current).
        apply Qplus_le_compat; [done | apply Qle_refl]. }
      rewrite Hneed. split_and!; apply round_zero.
      * reflexivity.
      * unfold Qdiv. ring.
      * unfold Qdiv. ring.
  - intros Hle. by rewrite (proj2 (ltb_false _ _) Hle).
Qed.

Lemma recommend_charge_answers_witness :
  (100 < get (distance_to_destination_km
                (mkChargeRequest (Some 300) (Some 50) (Some 20))) 0
         * (15 # 100) / (1 - SAFETY_BUFFER)
         / get (battery_capacity_kwh
                  (mkChargeRequest (Some 300) (Some 50) (Some 20))) 50 * 100 ->
   exists body,
     recommend_charge 97 (mkChargeRequest (Some 300) (Some 50) (Some 20))
       (15 # 100) = Some (Http200 body) ∧
     body_required_battery_pct body == 100 ∧
     0 <= body_charge_needed_pct body ∧
     (is_reachable body = true <->
      100 <= get (current_battery_pct
                    (mkChargeRequest (Some 300) (Some 50) (Some 20))) 100) ∧
     (is_reachable body = true ->
      body_charge_needed_pct body == 0 ∧
      estimated_charging_time_minutes body == 0 ∧
      estimated_cost_inr body == 0)) ∧
  (get (distance_to_destination_km
          (mkChargeRequest (Some 300) (Some 50) (Some 20))) 0
   * (15 # 100) / (1 - SAFETY_BUFFER)
   / get (battery_capacity_kwh
            (mkChargeRequest (Some 300) (Some 50) (Some 20))) 50 * 100
   <= 100 ->
   recommend_charge 97 (mkChargeRequest (Some 300) (Some 50) (Some 20))
     (15 # 100) = Some (Http400 bool_not_serializable)).
Proof.
  apply (recommend_charge_answers 97
           (mkChargeRequest (Some 300) (Some 50) (Some 20)) (15 # 100)).
  by vm_compute.
Defined.

End ChargeFacts.

(** ** The range answer *)

Section RangeFacts.

Import Api.
Local Open Scope Q_scope.

(** X8.  For a positive predicted consumption and a non-negative
    available energy, [/api/predict-range] answers with a safe range
    that is neither negative nor above the maximal range it reports next
    to it. *)
Theorem predict_range_safe_within_max (accuracy : Q) (data : RangeRequest)
    (predicted_consumption : Q) :
  0 < predicted_consumption -> 0 <= request_energy data ->
  exists body,
    predict_range accuracy data predicted_consumption = Some (Http200 body) ∧
    0 <= predicted_range_km body ∧
    predicted_range_km body <= max_range_km body.
Proof.
  intros Hpos Hen.
  assert (Hnz : ~ predicted_consumption == 0).
  { intros E. rewrite E in Hpos. by apply Qlt_irrefl in Hpos. }
  unfold predict_range. fold (request_energy data).
  rewrite (checked_div_nonzero _ _ Hnz). cbn [mbind option_bind].
  eexists. split; [reflexivity|]. cbn [predicted_range_km max_range_km].
  assert (Hr : 0 <= request_energy data / predicted_consumption).
  { apply Qle_shift_div_l; [done|]. by rewrite Qmult_0_l. }
  split.
  - apply round_nonneg. apply Qmult_le_0_compat; [done | by vm_compute].
  - apply round_mono.
    rewrite <- (Qmult_1_r (request_energy data / predicted_consumption)) at 2.
    rewrite !(Qmult_comm (request_energy data / predicted_consumption)).
    apply Qmult_le_compat_r; [by vm_compute | done].
Qed.

Lemma predict_range_safe_within_max_witness :
  exists body,
    predict_range 97 (mkRangeRequest (Some 80) (Some 50) None None) (15 # 100)
      = Some (Http200 body) ∧
    0 <= predicted_range_km body ∧
    predicted_range_km body <= max_range_km body.
Proof.
  apply (predict_range_safe_within_max 97
           (mkRangeRequest (Some 80) (Some 50) None None) (15 # 100));
    by vm_compute.
Defined.

End RangeFacts.

Section LegacyFacts.

Import ApiModel.
Local Open Scope Q_scope.

(** X9.  The backward-compatible [/predict] returns the ranges that
    [/api/predict-range] returns for the remapped body (speed,
    temperature and capacity carried over, air conditioning on above 30
    degrees, flat terrain, normal mode): the two handlers fail together,
    with the same error, and when they answer 200, [predicted_range] and
    [max_range_km] of the one are [predicted_range_km] and
    [max_range_km] of the other. *)
Theorem legacy_predict_agrees (loaded : LoadedModel)
    (scaler_transform : list Q -> list Q) (feature_names : list string)
    (str : Raised -> string) (accuracy : Q) (data : LegacyPredictRequest) :
  match predict loaded scaler_transform feature_names str data,
        predict_range loaded scaler_transform feature_names str accuracy
          (mapped_features data) (mapped_range data) with
  | Some (Api.Http200 old), Some (Api.Http200 new) =>
      Api.predicted_range old = Api.predicted_range_km new ∧
      Api.internal_max_range_km old = Api.max_range_km new ∧
      Api.battery_percent old = Api.get (battery_percent data) 100
  | Some (Api.Http400 old), Some (Api.Http400 new) => old = new
  | None, None => True
  | _, _ => False
  end.
Proof.
  unfold predict, predict_range.
  destruct (consumption _ _ _ _) as [e|c]; [done|].
  unfold Api.predict_range_internal, Api.predict_range.
  destruct (Py.checked_div _ c); cbn [mbind option_bind]; done.
Qed.


End LegacyFacts.

(** ** Substrings *)

Section SubstringFacts.

Import ApiModel.

Lemma lower_app (a b : string) :
  Py.lower (a +:+ b) = Py.lower a +:+ Py.lower b.
Proof. induction a as [|c a IH]; simpl; [done|]. by rewrite IH. Qed.

Lemma prefix_nil (a : string) : String.prefix "" a = true.
Proof. by destruct a. Qed.

Lemma prefix_app_l (n a b : string) :
  String.prefix n a = true -> String.prefix n (a +:+ b) = true.
Proof.
  revert n. induction a as [|y a IH]; intros [|x n]; simpl; try done.
  - intros _. apply prefix_nil.
  - destruct (Ascii.ascii_dec x y); [apply IH | done].
Qed.

Lemma contains_app_l (n a b : string) :
  contains n a = true -> contains n (a +:+ b) = true.
Proof.
  induction a as [|c a IH]; cbn [contains].
  - rewrite orb_false_r. destruct n as [|x n]; [|done].
    intros _. change ("" +:+ b) with b.
    destruct b; cbn [contains]; by rewrite prefix_nil.
  - intros H. apply orb_true_iff in H as [H|H].
    + change (String c a +:+ b) with (String c (a +:+ b)). cbn [contains].
      apply orb_true_iff. left.
      by apply (prefix_app_l n (String c a) b).
    + change (String c a +:+ b) with (String c (a +:+ b)). cbn [contains].
      apply orb_true_iff. right. by apply IH.
Qed.

Lemma contains_app_r (n a b : string) :
  contains n b = true -> contains n (a +:+ b) = true.
Proof.
  intros H. induction a as [|c a IH]; [done|].
  change (String c a +:+ b) with (String c (a +:+ b)). cbn [contains].
  rewrite IH. apply orb_true_r.
Qed.

Lemma prefix_before_underscore (n a b : string) :
  plain n = true -> n ≠ EmptyString ->
  String.prefix n (a +:+ String "_" b) = String.prefix n a.
Proof.
  revert n. induction a as [|y a IH]; intros [|x n] Hp Hne; try done.
  - simpl in Hp. apply andb_true_iff in Hp as [Hx _].
    apply negb_true_iff in Hx. simpl.
    destruct (Ascii.ascii_dec x "_") as [->|]; [|done].
    by rewrite Ascii.eqb_refl in Hx.
  - simpl in Hp. apply andb_true_iff in Hp as [_ Hp]. simpl.
    destruct (Ascii.ascii_dec x y); [|done].
    destruct n as [|x' n]; [by rewrite !prefix_nil|].
    by apply IH.
Qed.

(** A needle without underscore occurs in [a_b] only inside [a] or
    inside [_b]. *)
Lemma contains_around_underscore (n a b : string) :
  plain n = true -> n ≠ EmptyString ->
  contains n (a +:+ String "_" b) =
  contains n a || contains n (String "_" b).
Proof.
  intros Hp Hne. induction a as [|c a IH].
  - change ("" +:+ String "_" b) with (String "_" b).
    destruct n as [|x n]; [done|]. reflexivity.
  - change (String c a +:+ String "_" b)
      with (String c (a +:+ String "_" b)).
    cbn [contains]. rewrite IH.
    change (String c (a +:+ String "_" b))
      with (String c a +:+ String "_" b).
    rewrite (prefix_before_underscore n (String c a) b Hp Hne).
    by rewrite orb_assoc.
Qed.

Lemma prefix_shorter (a b s : string) :
  String.prefix (a +:+ b) s = true -> String.prefix a s = true.
Proof.
  revert a. induction s as [|y s IH]; intros [|x a]; simpl; try done.
  destruct (Ascii.ascii_dec x y); [apply IH | done].
Qed.

(** A string that contains [ab] contains [a]. *)
Lemma contains_shorter (a b s : string) :
  contains (a +:+ b) s = true -> contains a s = true.
Proof.
  induction s as [|c s IH]; cbn [contains]; intros H;
    apply orb_true_iff in H as [H|H]; try done; apply orb_true_iff.
  - left. by apply (prefix_shorter a b).
  - left. by apply (prefix_shorter a b).
  - right. by apply IH.
Qed.

(** Appending [_suffix] to a name changes no keyword test of
    [feature_value] but those the suffix itself answers. *)
Lemma contains_suffixed (kw f sfx : string) :
  plain kw = true -> kw ≠ EmptyString ->
  contains kw (String "_" sfx) = false ->
  contains kw (f +:+ String "_" sfx) = contains kw f.
Proof.
  intros Hp Hne Hs. rewrite contains_around_underscore by done.
  rewrite Hs. apply orb_false_r.
Qed.

(** X11.  The serving code and the training script agree on the squared
    companion [col_squared] of a column whose name contains [speed]: the
    value served for it is the square of the value served for [col].
    For any other column (one that training squares for the word
    [velocity] alone, say) the value served for [col_squared] is the
    value served for [col] itself, not its square. *)
Theorem squared_feature_served (data : FeatureRequest) (col : string) :
  contains "squared" (Py.lower col) = false ->
  (feature_value data (TrainingPrep.squared_name col) ==
   if contains "speed" (Py.lower col)
   then feature_value data col ^ 2
   else feature_value data col)%Q.
Proof.
  intros Hq. unfold feature_value, TrainingPrep.squared_name.
  rewrite lower_app. change (Py.lower "_squared") with "_squared".
  set (f := Py.lower col) in *. cbv zeta.
  rewrite !(contains_suffixed "speed"), !(contains_suffixed "temp"),
    !(contains_suffixed "deviation"), !(contains_suffixed "battery"),
    !(contains_suffixed "capacity"), !(contains_suffixed "ac"),
    !(contains_suffixed "terrain"), !(contains_suffixed "mode"),
    !(contains_suffixed "driving") by done.
  rewrite (contains_app_r "squared" f "_squared") by done.
  destruct (contains "speed" f); [by rewrite Hq | reflexivity].
Qed.

Lemma squared_feature_served_witness :
  (feature_value
     (mkFeatureRequest (Some 40%Q) (Some 72%Q) None None None None)
     (TrainingPrep.squared_name "Avg_Speed_kmh") == 72 ^ 2)%Q.
Proof.
  apply (squared_feature_served
           (mkFeatureRequest (Some 40%Q) (Some 72%Q) None None None None)
           "Avg_Speed_kmh"); reflexivity.
Defined.

(** X12.  The same for the deviation companion [col_deviation] of a
    temperature column: the value served for it is the distance from 25
    of the value served for [col]; when the name also contains [speed],
    both are served the speed value instead. *)
Theorem deviation_feature_served (data : FeatureRequest) (col : string) :
  TrainingPrep.is_temp_col col = true ->
  contains "deviation" (Py.lower col) = false ->
  (feature_value data (TrainingPrep.deviation_name col) ==
   if contains "speed" (Py.lower col)
   then feature_value data col
   else Qabs (feature_value data col - 25))%Q.
Proof.
  intros Ht Hd. unfold feature_value, TrainingPrep.deviation_name.
  assert (Ht' : contains "temp" (Py.lower col) = true).
  { unfold TrainingPrep.is_temp_col in Ht.
    apply orb_true_iff in Ht as [Ht|Ht]; [done|].
    by apply (contains_shorter "temp" "erature"). }
  rewrite lower_app. change (Py.lower "_deviation") with "_deviation".
  set (f := Py.lower col) in *. cbv zeta.
  rewrite !(contains_suffixed "speed"), !(contains_suffixed "temp"),
    !(contains_suffixed "squared"), !(contains_suffixed "battery"),
    !(contains_suffixed "capacity"), !(contains_suffixed "ac"),
    !(contains_suffixed "terrain"), !(contains_suffixed "mode"),
    !(contains_suffixed "driving") by done.
  rewrite (contains_app_r "deviation" f "_deviation") by done.
  destruct (contains "speed" f); [reflexivity|].
  by rewrite Ht', Hd.
Qed.

Lemma deviation_feature_served_witness :
  (feature_value
     (mkFeatureRequest None None (Some 10%Q) None None None)
     (TrainingPrep.deviation_name "Temperature_C") == Qabs (10 - 25))%Q.
Proof.
  apply (deviation_feature_served
           (mkFeatureRequest None None (Some 10%Q) None None None)
           "Temperature_C"); reflexivity.
Defined.

End SubstringFacts.

(** ** Loading the model files *)

Section LoaderFacts.

Import Loader.

Variable path_exists : string -> bool.
Variable loads : string -> bool.

(** X13.  [EVRangePredictor.__init__] needs the preprocessor file to
    exist and to load; it then takes the first model file, in the order
    [.keras], SavedModel, [.h5], random forest, gradient boosting, that
    exists and loads, so a file that fails to load falls through to the
    next one; it raises only when no file of the five is usable. *)
Theorem init_first_usable (model_dir : string) :
  init path_exists loads model_dir =
  let preprocessor_path := join model_dir "preprocessor.pkl" in
  if path_exists preprocessor_path && loads preprocessor_path
  then match List.find (usable path_exists loads) (candidates model_dir) with
       | Some (path, type) => inr (mkLoaded type path)
       | None => inl (NoCompatibleModel model_dir)
       end
  else inl (if path_exists preprocessor_path
            then PreprocessorLoadFailed preprocessor_path
            else PreprocessorNotFound preprocessor_path).
Proof.
  unfold init, candidates, usable, attempt.
  cbn [List.find sklearn_loop fst snd]. cbv zeta.
  change ("range_predictor_" +:+ "random_forest" +:+ ".pkl")
    with "range_predictor_random_forest.pkl".
  change ("range_predictor_" +:+ "gradient_boost" +:+ ".pkl")
    with "range_predictor_gradient_boost.pkl".
  set (pp := join model_dir "preprocessor.pkl").
  destruct (path_exists pp); [|done]. destruct (loads pp); [|done].
  cbn [negb andb]. clearbody pp.
  set (p1 := join model_dir "range_predictor_neural.keras").
  set (p2 := join model_dir "range_predictor_savedmodel").
  set (p3 := join model_dir "range_predictor_neural.h5").
  set (p4 := join model_dir "range_predictor_random_forest.pkl").
  set (p5 := join model_dir "range_predictor_gradient_boost.pkl").
  clearbody p1 p2 p3 p4 p5.
  destruct (path_exists p1), (loads p1); try reflexivity;
    destruct (path_exists p2), (loads p2); try reflexivity;
    destruct (path_exists p3), (loads p3); try reflexivity;
    destruct (path_exists p4), (loads p4); try reflexivity;
    destruct (path_exists p5), (loads p5); reflexivity.
Qed.

End LoaderFacts.

(** ** The predictor's response *)

Section PredictorFacts.

Import Predictor.
Local Open Scope Q_scope.

Lemma round_half_even_below (x : Q) :
  x < -(1 # 2) -> (Py.round_half_even x <= -1)%Z.
Proof.
  intros Hx.
  assert (Hf : (Qfloor x <= -1)%Z).
  { change (-1)%Z with (Qfloor (-(1 # 2))).
    apply Qfloor_resp_le. by apply Qlt_le_weak. }
  pose proof (round_half_even_floor x) as Hr.
  destruct (Z.eq_dec (Qfloor x) (-1)%Z) as [E|NE]; [|lia].
  unfold Py.round_half_even. rewrite E.
  assert (H : Py.ltb (x - inject_Z (-1)) (1 # 2) = true).
  { apply ltb_true. clear -Hx. destruct x as [n d].
    unfold Qlt, Qminus, Qplus, Qopp, inject_Z in *. simpl in *. lia. }
  by rewrite H.
Qed.

Lemma round_half_even_above (x : Q) :
  -(1 # 2) <= x -> (0 <= Py.round_half_even x)%Z.
Proof.
  intros Hx. change 0%Z with (Py.round_half_even (-(1 # 2))).
  by apply round_half_even_mono.
Qed.

Lemma round_sign (x : Q) (ndigits : nat) :
  0 <= Py.round x ndigits ->
  (0 <= Py.round_half_even (x * inject_Z (10 ^ Z.of_nat ndigits)))%Z.
Proof. unfold Py.round, Qle. simpl. lia. Qed.

(** X14.  Every call of [predict] that returns reports a [safe_range_km]
    between 0 and [predicted_range_km] whenever the latter is not
    negative: rounding the two values separately never lifts the
    buffered range above the predicted one. *)
Theorem safe_range_within_predicted
    (model_predict : Preprocessor.Frame -> Q) (self : EVRangePredictor)
    (capacity soc speed temp : Q) (terrain ac style : string) :
  scaler_fitted self = true ->
  Preprocessor.feature_names (preprocessor self) ≠ [] ->
  model_type self = "neural" ->
  exists res,
    predict model_predict self capacity soc speed temp terrain ac style
      = Returns res ∧
    (0 <= predicted_range_km res ->
     0 <= safe_range_km res ∧ safe_range_km res <= predicted_range_km res).
Proof.
  intros Hfit Hnames Htype.
  destruct (predict_returns model_predict self capacity soc speed
              temp terrain ac style Hfit Hnames Htype)
    as (X & per_km & _ & _ & Hp & _).
  eexists. split; [exact Hp|].
  cbn [predicted_range_km safe_range_km].
  set (m := model_predict X). intros H0.
  apply round_sign in H0 as Hr. change (10 ^ Z.of_nat 2)%Z with 100%Z in Hr.
  assert (Hm : -(1 # 2) <= m * inject_Z 100).
  { destruct (Qlt_le_dec (m * inject_Z 100) (-(1 # 2))) as [Hlt|Hle];
      [|done].
    apply round_half_even_below in Hlt.
    pose proof (Z.le_trans _ _ _ Hr Hlt). lia. }
  split.
  - unfold Py.round, Qle. simpl.
    change (10 ^ Z.of_nat 2)%Z with 100%Z.
    assert (H : (0 <= Py.round_half_even (m * (85 # 100) * inject_Z 100))%Z);
      [|lia].
    apply round_half_even_above. clear -Hm. destruct m as [n d].
    unfold Qle, Qmult, Qopp, inject_Z in *. simpl in *. lia.
  - destruct (Qlt_le_dec m 0) as [Hneg|Hpos].
    + apply Qle_trans with 0; [|exact H0].
      apply round_nonpos. clear -Hneg. destruct m as [n d].
      unfold Qle, Qlt, Qmult in *. simpl in *. lia.
    + apply round_mono. clear -Hpos. destruct m as [n d].
      unfold Qle, Qmult in *. simpl in *. lia.
Qed.

Lemma safe_range_within_predicted_witness :
  exists res,
    predict (fun _ => 300) fitted_predictor 50 80 60 25
      "Mixed" "Off" "Moderate" = Returns res ∧
    (0 <= predicted_range_km res ->
     0 <= safe_range_km res ∧ safe_range_km res <= predicted_range_km res).
Proof.
  apply (safe_range_within_predicted (fun _ => 300) fitted_predictor
           50 80 60 25 "Mixed" "Off" "Moderate"); by vm_compute.
Defined.

(** X15.  When [predict] returns and when it raises.  It returns exactly
    for a predictor whose scaler was fitted, on at least one feature,
    and whose loaded model is the Keras one.  With a scaler that was
    never fitted every call raises [NotFittedError]; with a fitted
    scaler and a scikit-learn model (the types ['random_forest'] and
    ['gradient_boost'] that [__init__] falls back to) every call raises
    [TypeError], whatever the arguments. *)
Theorem predict_returns_iff (model_predict : Preprocessor.Frame -> Q)
    (self : EVRangePredictor)
    (capacity soc speed temp : Q) (terrain ac style : string) :
  ((exists res,
      predict model_predict self capacity soc speed temp terrain ac style
        = Returns res) <->
   scaler_fitted self = true ∧
   Preprocessor.feature_names (preprocessor self) ≠ [] ∧
   model_type self = "neural") ∧
  (scaler_fitted self = false ->
   predict model_predict self capacity soc speed temp terrain ac style
     = Raises NotFittedError) ∧
  (scaler_fitted self = true ->
   Preprocessor.feature_names (preprocessor self) ≠ [] ->
   model_type self ≠ "neural" ->
   predict model_predict self capacity soc speed temp terrain ac style
     = Raises TypeError).
Proof.
  destruct (transform_total (preprocessor self)
              (input_data capacity soc speed temp terrain ac style))
    as (X & HX & Hn & _).
  split_and!.
  - split.
    + intros [res Hres]. unfold predict in Hres. rewrite HX in Hres.
      destruct (scaler_fitted self); [|done]. cbn [negb] in Hres.
      case_bool_decide as Hnames; [done|]. rewrite Hn in Hnames.
      destruct (String.eqb_spec (model_type self) "neural"); [done|done].
    + intros (Hfit & Hnames & Htype).
      destruct (predict_returns model_predict self capacity soc speed
                  temp terrain ac style Hfit Hnames Htype)
        as (? & ? & _ & _ & Hp & _).
      eauto.
  - intros Hfit. unfold predict. by rewrite HX, Hfit.
  - intros Hfit Hnames Htype. unfold predict. rewrite HX, Hfit.
    cbn [negb]. rewrite bool_decide_eq_false_2 by (by rewrite Hn).
    by destruct (String.eqb_spec (model_type self) "neural").
Qed.

End PredictorFacts.

(** ** Patterns and substrings *)

Section PatternFacts.

Import ApiModel.

Lemma compile_literal (p : string) :
  literal p = true -> Re.compile p = Some (lits p).
Proof.
  induction p as [|c p IH]; [done|]. intros H.
  cbn [literal] in H.
  apply andb_true_iff in H as [H Hp].
  apply andb_true_iff in H as [H Heol].
  apply andb_true_iff in H as [H Hbol].
  apply andb_true_iff in H as [Hmeta Hdot].
  apply negb_true_iff in Hmeta, Hdot, Hbol, Heol.
  specialize (IH Hp). cbn [Re.compile lits].
  rewrite Hmeta, Hbol, Heol. unfold Re.atom_of. rewrite Hdot.
  destruct p as [|d p']; [done|].
  rewrite IH.
  destruct d as [[] [] [] [] [] [] [] []]; try reflexivity.
  by cbn in Hp.
Qed.

Lemma match_here_lits (p : string) (b : bool) (s : string) :
  Re.match_here (lits p) b s = String.prefix p s.
Proof.
  revert b s. induction p as [|c p IH]; intros b s.
  - by rewrite prefix_nil.
  - destruct s as [|d s]; [done|]. cbn [lits Re.match_here]. simpl.
    rewrite IH. destruct (Ascii.ascii_dec c d) as [->|Hne].
    + by rewrite Ascii.eqb_refl.
    + apply not_eq_sym in Hne. apply Ascii.eqb_neq in Hne. by rewrite Hne.
Qed.

Lemma search_from_lits (p : string) (b : bool) (s : string) :
  Re.search_from (lits p) b s = contains p s.
Proof.
  revert b. induction s as [|c s IH]; intros b; cbn [Re.search_from contains];
    rewrite match_here_lits; [done|]. by rewrite IH.
Qed.

(** For a pattern of literal characters, [re.search] is the substring
    test. *)
Lemma search_literal (p s : string) :
  literal p = true -> Re.search p s = contains p s.
Proof.
  intros H. unfold Re.search. rewrite (compile_literal p H).
  apply search_from_lits.
Qed.

Lemma prefix_contains (p s : string) :
  String.prefix p s = true -> contains p s = true.
Proof. intros H. destruct s; cbn [contains]; by rewrite H. Qed.

Lemma contains_tail (p : string) (c : ascii) (s : string) :
  contains p s = true -> contains p (String c s) = true.
Proof. intros H. cbn [contains]. rewrite H. apply orb_true_r. Qed.

Lemma match_here_lits_app (p : string) (re : Re.regex) (b : bool)
    (s : string) :
  Re.match_here (lits p ++ re) b s = true -> String.prefix p s = true.
Proof.
  revert b s. induction p as [|c p IH]; intros b s H.
  - apply prefix_nil.
  - destruct s as [|d s]; [done|].
    cbn [lits app Re.match_here] in H.
    apply andb_true_iff in H as [Hc H]. apply IH in H.
    simpl in Hc. apply Ascii.eqb_eq in Hc as ->. simpl.
    by destruct (Ascii.ascii_dec c c).
Qed.

Lemma match_here_star (a : Re.atom) (re : Re.regex) (b : bool) (s : string) :
  Re.match_here (Re.Star a :: re) b s =
  Re.match_here re b s ||
  match s with
  | String c s' =>
      Re.atom_matches a c && Re.match_here (Re.Star a :: re) false s'
  | EmptyString => false
  end.
Proof. by destruct s. Qed.

(** A match of a pattern that holds the literal [p] somewhere shows an
    occurrence of [p] in the subject. *)
Lemma match_here_contains (re1 : Re.regex) (p : string) (re2 : Re.regex)
    (b : bool) (s : string) :
  Re.match_here (re1 ++ lits p ++ re2) b s = true -> contains p s = true.
Proof.
  revert b s. induction re1 as [|[a|a| |] re1 IH]; intros b s.
  - intros H. apply prefix_contains. by apply (match_here_lits_app p re2 b).
  - destruct s as [|c s]; [done|]. cbn [app Re.match_here]. intros H.
    apply andb_true_iff in H as [_ H]. apply contains_tail. by apply (IH false).
  - change ((Re.Star a :: re1) ++ lits p ++ re2)
      with (Re.Star a :: (re1 ++ lits p ++ re2)).
    revert b. induction s as [|c s IHs]; intros b; rewrite match_here_star;
      intros H; apply orb_true_iff in H as [H|H]; try done.
    + by apply (IH b).
    + by apply (IH b).
    + apply andb_true_iff in H as [_ H]. apply contains_tail.
      by apply (IHs false).
  - cbn [app Re.match_here]. intros H.
    apply andb_true_iff in H as [_ H]. by apply (IH b).
  - cbn [app Re.match_here]. intros H.
    apply andb_true_iff in H as [_ H]. by apply (IH b).
Qed.

Lemma search_from_contains (re1 : Re.regex) (p : string) (re2 : Re.regex)
    (b : bool) (s : string) :
  Re.search_from (re1 ++ lits p ++ re2) b s = true -> contains p s = true.
Proof.
  revert b. induction s as [|c s IH]; intros b; cbn [Re.search_from];
    intros H; apply orb_true_iff in H as [H|H]; try done.
  - by apply (match_here_contains re1 p re2 b).
  - by apply (match_here_contains re1 p re2 b).
  - apply contains_tail. by apply (IH false).
Qed.

Lemma search_contains (pat kw : string) (re1 re2 : Re.regex) (s : string) :
  Re.compile pat = Some (re1 ++ lits kw ++ re2) ->
  Re.search pat s = true -> contains kw s = true.
Proof.
  unfold Re.search. intros ->. apply search_from_contains.
Qed.

Lemma prefix_longer_contains (a b s : string) :
  String.prefix (a +:+ b) s = true -> contains b s = true.
Proof.
  revert s. induction a as [|x a IH]; intros s H.
  - by apply prefix_contains.
  - destruct s as [|y s]; [done|]. simpl in H.
    destruct (Ascii.ascii_dec x y); [|done].
    apply contains_tail. by apply IH.
Qed.

(** A string that contains [ab] contains [b]. *)
Lemma contains_longer (a b s : string) :
  contains (a +:+ b) s = true -> contains b s = true.
Proof.
  induction s as [|c s IH]; intros H; cbn [contains] in H;
    apply orb_true_iff in H as [H|H]; try done.
  - by apply (prefix_longer_contains a b).
  - by apply (prefix_longer_contains a b).
  - apply contains_tail. by apply IH.
Qed.

Lemma existsb_keywords (pl : list string) (K : bool) (s : string) :
  (forall p, In p pl -> Re.search p s = true -> K = true) ->
  (K = true -> exists p, In p pl ∧ Re.search p s = true) ->
  existsb (fun p => Re.search p s) pl = K.
Proof.
  intros H1 H2. apply eq_iff_eq_true. rewrite existsb_exists. split.
  - intros (p & Hin & Hs). by apply (H1 p).
  - done.
Qed.

Lemma find_pointwise {A} (f g : A -> bool) (l : list A) :
  (forall x, f x = g x) -> List.find f l = List.find g l.
Proof.
  intros H. induction l as [|x l IH]; [done|]. simpl. by rewrite H, IH.
Qed.

Lemma existsb_pointwise {A} (f g : A -> bool) (l : list A) :
  (forall x, f x = g x) -> existsb f l = existsb g l.
Proof.
  intros H. induction l as [|x l IH]; [done|]. simpl. by rewrite H, IH.
Qed.

(** The six patterns of [Range_km] match exactly the names that
    contain [range] or [distance]. *)
Lemma range_patterns (s : string) :
  existsb (fun p => Re.search p s)
    ["range"; "distance"; "range.*km"; "actual.*range"; "achieved.*range";
     "km.*range"]
  = contains "range" s || contains "distance" s.
Proof.
  apply existsb_keywords.
  - intros p Hin Hs. apply orb_true_iff. simpl in Hin.
    destruct Hin as [<-|[<-|[<-|[<-|[<-|[<-|[]]]]]]].
    + left. by rewrite <- search_literal.
    + right. by rewrite <- search_literal.
    + left. revert Hs.
      by apply (search_contains _ "range" [] (Re.Star Re.Dot :: lits "km")).
    + left. revert Hs.
      by apply (search_contains _ "range"
                  (lits "actual" ++ [Re.Star Re.Dot]) []).
    + left. revert Hs.
      by apply (search_contains _ "range"
                  (lits "achieved" ++ [Re.Star Re.Dot]) []).
    + left. revert Hs.
      by apply (search_contains _ "range" (lits "km" ++ [Re.Star Re.Dot]) []).
  - intros H. apply orb_true_iff in H as [H|H].
    + exists "range". split; [simpl; tauto|]. by rewrite search_literal.
    + exists "distance". split; [simpl; tauto|]. by rewrite search_literal.
Qed.

Lemma station_name_patterns (s : string) :
  existsb (fun p => Re.search p s)
    ["name"; "station.*name"; "title"; "location.*name"]
  = contains "name" s || contains "title" s.
Proof.
  apply existsb_keywords.
  - intros p Hin Hs. apply orb_true_iff. simpl in Hin.
    destruct Hin as [<-|[<-|[<-|[<-|[]]]]].
    + left. by rewrite <- search_literal.
    + left. revert Hs.
      by apply (search_contains _ "name"
                  (lits "station" ++ [Re.Star Re.Dot]) []).
    + right. by rewrite <- search_literal.
    + left. revert Hs.
      by apply (search_contains _ "name"
                  (lits "location" ++ [Re.Star Re.Dot]) []).
  - intros H. apply orb_true_iff in H as [H|H].
    + exists "name". split; [simpl; tauto|]. by rewrite search_literal.
    + exists "title". split; [simpl; tauto|]. by rewrite search_literal.
Qed.

Lemma latitude_patterns (s : string) :
  existsb (fun p => Re.search p s) ["lat"; "latitude"; "^lat$"]
  = contains "lat" s.
Proof.
  apply existsb_keywords.
  - intros p Hin Hs. simpl in Hin. destruct Hin as [<-|[<-|[<-|[]]]].
    + by rewrite <- search_literal.
    + rewrite search_literal in Hs by done.
      by apply (contains_shorter "lat" "itude").
    + revert Hs. by apply (search_contains _ "lat" [Re.Bol] [Re.Eol]).
  - intros H. exists "lat". split; [simpl; tauto|]. by rewrite search_literal.
Qed.

Lemma longitude_patterns (s : string) :
  existsb (fun p => Re.search p s)
    ["lon"; "lng"; "longitude"; "^lon$"; "^lng$"]
  = contains "lon" s || contains "lng" s.
Proof.
  apply existsb_keywords.
  - intros p Hin Hs. apply orb_true_iff. simpl in Hin.
    destruct Hin as [<-|[<-|[<-|[<-|[<-|[]]]]]].
    + left. by rewrite <- search_literal.
    + right. by rewrite <- search_literal.
    + left. rewrite search_literal in Hs by done.
      by apply (contains_shorter "lon" "gitude").
    + left. revert Hs. by apply (search_contains _ "lon" [Re.Bol] [Re.Eol]).
    + right. revert Hs. by apply (search_contains _ "lng" [Re.Bol] [Re.Eol]).
  - intros H. apply orb_true_iff in H as [H|H].
    + exists "lon". split; [simpl; tauto|]. by rewrite search_literal.
    + exists "lng". split; [simpl; tauto|]. by rewrite search_literal.
Qed.

End PatternFacts.

(** ** The cleaners *)

Section CleanerFacts.

Import ApiModel ColumnMapper Cleaner.

Lemma find_existsb {A} (f : A -> bool) (l : list A) :
  existsb f l = bool_decide (is_Some (List.find f l)).
Proof.
  induction l as [|x l IH]; [done|]. simpl.
  destruct (f x); [|done]. symmetry. apply bool_decide_eq_true. eauto.
Qed.

(** Every name in the mapping is a column of the frame. *)
Lemma mapping_sound (columns : list string) (dataset_type f a : string) :
  auto_detect_columns columns dataset_type !! f = Some a -> a ∈ columns.
Proof.
  unfold auto_detect_columns.
  rewrite fold_scan_columns; [|apply patterns_NoDup|done].
  destruct (table_lookup f (patterns dataset_type)) as [pl|]; [|done].
  unfold first_matching_column. intros H.
  apply find_some in H as [H _]. by apply list_elem_of_In.
Qed.

(** The test [actual_name in df.columns] of the "Map columns" loop never
    fails: [df_clean] gets one column per mapped field, in the order of
    the pattern table. *)
Lemma clean_columns_mapped (columns : list string) (dataset_type : string) :
  clean_columns columns dataset_type =
  filter (fun f => is_Some (auto_detect_columns columns dataset_type !! f))
         (patterns dataset_type).*1.
Proof.
  unfold clean_columns, items.
  pose proof (mapping_sound columns dataset_type) as Hs.
  revert Hs. generalize (auto_detect_columns columns dataset_type) as m.
  intros m Hs.
  induction (patterns dataset_type) as [|[f pl] tb IH]; [done|].
  rewrite fmap_cons. cbn [omap list_omap fst]. rewrite filter_cons.
  destruct (m !! f) as [a|] eqn:E.
  - rewrite filter_cons. cbn [snd].
    rewrite decide_True by (by apply (Hs f)).
    rewrite decide_True by done. rewrite fmap_cons. cbn [fst].
    f_equal. apply IH.
  - rewrite decide_False by (by intros [? ?]). apply IH.
Qed.

Lemma field_lookup (columns : list string) (dataset_type f : string)
    (pl : list string) :
  table_lookup f (patterns dataset_type) = Some pl ->
  auto_detect_columns columns dataset_type !! f =
  first_matching_column pl columns.
Proof.
  intros H. unfold auto_detect_columns.
  rewrite fold_scan_columns; [|apply patterns_NoDup|done]. by rewrite H.
Qed.

(** The column of the target field. *)
Lemma range_lookup (columns : list string) :
  auto_detect_columns columns "consumption" !! "Range_km" =
  List.find (fun col => contains "range" (Py.lower col) ||
                        contains "distance" (Py.lower col)) columns.
Proof.
  rewrite (field_lookup columns "consumption" "Range_km"
             ["range"; "distance"; "range.*km"; "actual.*range";
              "achieved.*range"; "km.*range"]) by reflexivity.
  unfold first_matching_column. apply find_pointwise.
  intros col. apply range_patterns.
Qed.

(** X16.  Which column becomes the target: [Range_km] is mapped to the
    first column whose lower-cased name contains [range] or [distance],
    and is left unmapped when there is none; the four longer patterns of
    the field never decide. *)
Theorem range_column_detected (columns : list string) :
  auto_detect_columns columns "consumption" !! "Range_km" =
  List.find (fun col => contains "range" (Py.lower col) ||
                        contains "distance" (Py.lower col)) columns.
Proof. apply range_lookup. Qed.

(** X17.  The first part of [clean_consumption_data], on a frame with
    distinct column labels.  The cleaner goes on exactly when some
    column name contains [range] or [distance] (case-insensitively);
    [df_clean] then has one column per mapped field, in the order of the
    pattern table.  Otherwise it returns [None] when any other field was
    mapped, and its argument unchanged when no field was. *)
Theorem consumption_guard_outcome (columns : list string) :
  NoDup columns ->
  consumption_guard columns =
  if existsb (fun col => contains "range" (Py.lower col) ||
                         contains "distance" (Py.lower col)) columns
  then Continues
         (filter (fun f => is_Some
                             (auto_detect_columns columns "consumption" !! f))
                 (patterns "consumption").*1)
  else if decide (auto_detect_columns columns "consumption" = ∅)
       then ReturnsInput else ReturnsNone.
Proof.
  intros _. unfold consumption_guard. cbv zeta. rewrite clean_columns_mapped.
  rewrite find_existsb, <- range_lookup.
  set (m := auto_detect_columns columns "consumption").
  destruct (m !! "Range_km") as [a|] eqn:E.
  - rewrite bool_decide_eq_true_2 by eauto.
    rewrite decide_False.
    + rewrite decide_True; [done|].
      apply list_elem_of_filter. split; [by rewrite E|].
      apply (bool_decide_unpack _). by vm_compute.
    + intros Hm. rewrite Hm in E. by rewrite lookup_empty in E.
  - rewrite bool_decide_eq_false_2 by (by intros [? ?]).
    destruct (decide (m = ∅)); [done|].
    rewrite decide_False; [done|].
    intros H. apply list_elem_of_filter in H as [[? H] _].
    by rewrite E in H.
Qed.

Lemma consumption_guard_outcome_witness :
  consumption_guard ["Speed"; "Temp"; "Trip_Distance"] =
  if existsb (fun col => contains "range" (Py.lower col) ||
                         contains "distance" (Py.lower col))
       ["Speed"; "Temp"; "Trip_Distance"]
  then Continues
         (filter (fun f => is_Some
                             (auto_detect_columns
                                ["Speed"; "Temp"; "Trip_Distance"]
                                "consumption" !! f))
                 (patterns "consumption").*1)
  else if decide (auto_detect_columns ["Speed"; "Temp"; "Trip_Distance"]
                    "consumption" = ∅)
       then ReturnsInput else ReturnsNone.
Proof.
  apply (consumption_guard_outcome ["Speed"; "Temp"; "Trip_Distance"]).
  apply (bool_decide_unpack _). by vm_compute.
Defined.

Lemma station_name_detected (columns : list string) :
  auto_detect_columns columns "stations" !! "Station_Name" =
  List.find (fun col => contains "name" (Py.lower col) ||
                        contains "title" (Py.lower col)) columns.
Proof.
  rewrite (field_lookup columns "stations" "Station_Name"
             ["name"; "station.*name"; "title"; "location.*name"])
    by reflexivity.
  unfold first_matching_column. apply find_pointwise.
  intros col. apply station_name_patterns.
Qed.

Lemma latitude_detected (columns : list string) :
  auto_detect_columns columns "stations" !! "Latitude" =
  List.find (fun col => contains "lat" (Py.lower col)) columns.
Proof.
  rewrite (field_lookup columns "stations" "Latitude"
             ["lat"; "latitude"; "^lat$"]) by reflexivity.
  unfold first_matching_column. apply find_pointwise.
  intros col. apply latitude_patterns.
Qed.

Lemma longitude_detected (columns : list string) :
  auto_detect_columns columns "stations" !! "Longitude" =
  List.find (fun col => contains "lon" (Py.lower col) ||
                        contains "lng" (Py.lower col)) columns.
Proof.
  rewrite (field_lookup columns "stations" "Longitude"
             ["lon"; "lng"; "longitude"; "^lon$"; "^lng$"]) by reflexivity.
  unfold first_matching_column. apply find_pointwise.
  intros col. apply longitude_patterns.
Qed.

(** X18.  The first part of [clean_stations_data], on a frame with
    distinct column labels.  When no field is mapped the cleaner returns
    its argument unchanged.  Otherwise it goes on exactly when some
    column name contains [name] or [title], some column name contains
    [lat], and some column name contains [lon] or [lng]
    (case-insensitively; one column may serve several fields);
    [df_clean] then has one column per mapped field, in the order of the
    pattern table.  In every other case it returns [None]. *)
Theorem stations_guard_outcome (columns : list string) :
  NoDup columns ->
  stations_guard columns =
  if decide (auto_detect_columns columns "stations" = ∅) then ReturnsInput
  else if existsb (fun col => contains "name" (Py.lower col) ||
                              contains "title" (Py.lower col)) columns &&
          existsb (fun col => contains "lat" (Py.lower col)) columns &&
          existsb (fun col => contains "lon" (Py.lower col) ||
                              contains "lng" (Py.lower col)) columns
  then Continues
         (filter (fun f => is_Some
                             (auto_detect_columns columns "stations" !! f))
                 (patterns "stations").*1)
  else ReturnsNone.
Proof.
  intros _. unfold stations_guard. cbv zeta. rewrite clean_columns_mapped.
  rewrite !find_existsb, <- station_name_detected, <- latitude_detected,
    <- longitude_detected.
  set (m := auto_detect_columns columns "stations").
  destruct (decide (m = ∅)); [done|].
  set (L := filter (fun f => is_Some (m !! f)) (patterns "stations").*1).
  assert (HL : forall f, f ∈ (patterns "stations").*1 ->
                         f ∈ L <-> is_Some (m !! f)).
  { intros f Hf. unfold L. rewrite list_elem_of_filter. tauto. }
  assert (H1 : "Station_Name" ∈ L <-> is_Some (m !! "Station_Name"))
    by (apply HL, (bool_decide_unpack _); by vm_compute).
  assert (H2 : "Latitude" ∈ L <-> is_Some (m !! "Latitude"))
    by (apply HL, (bool_decide_unpack _); by vm_compute).
  assert (H3 : "Longitude" ∈ L <-> is_Some (m !! "Longitude"))
    by (apply HL, (bool_decide_unpack _); by vm_compute).
  clearbody L. clear HL.
  rewrite !filter_cons, filter_nil.
  repeat case_decide; repeat case_bool_decide; simpl; try done; tauto.
Qed.

Lemma stations_guard_outcome_witness :
  stations_guard ["Station Name"; "lat"; "lng"; "Town"] =
  if decide (auto_detect_columns ["Station Name"; "lat"; "lng"; "Town"]
               "stations" = ∅)
  then ReturnsInput
  else if existsb (fun col => contains "name" (Py.lower col) ||
                              contains "title" (Py.lower col))
            ["Station Name"; "lat"; "lng"; "Town"] &&
          existsb (fun col => contains "lat" (Py.lower col))
            ["Station Name"; "lat"; "lng"; "Town"] &&
          existsb (fun col => contains "lon" (Py.lower col) ||
                              contains "lng" (Py.lower col))
            ["Station Name"; "lat"; "lng"; "Town"]
  then Continues
         (filter (fun f => is_Some
                             (auto_detect_columns
                                ["Station Name"; "lat"; "lng"; "Town"]
                                "stations" !! f))
                 (patterns "stations").*1)
  else ReturnsNone.
Proof.
  apply (stations_guard_outcome ["Station Name"; "lat"; "lng"; "Town"]).
  apply (bool_decide_unpack _). by vm_compute.
Defined.

(** X19.  One column can serve two fields.  The word [capacity] contains
    [ac], the first pattern of [AC_Usage]: when the first column of the
    raw data has [capacity] in its name, that column is mapped both to
    [Battery_Capacity_kWh] and to [AC_Usage], whatever columns follow (a
    later column named [AC_Usage] included). *)
Theorem capacity_column_read_as_ac (col : string) (rest : list string) :
  contains "capacity" (Py.lower col) = true ->
  auto_detect_columns (col :: rest) "consumption" !! "Battery_Capacity_kWh"
    = Some col ∧
  auto_detect_columns (col :: rest) "consumption" !! "AC_Usage" = Some col.
Proof.
  intros H. split.
  - rewrite (field_lookup _ "consumption" "Battery_Capacity_kWh"
               ["battery.*capacity"; "capacity.*kwh"; "battery.*kwh";
                "bat.*cap"; "kwh"; "capacity"]) by reflexivity.
    unfold first_matching_column. cbn [List.find].
    assert (E : existsb (fun p => Re.search p (Py.lower col))
                  ["battery.*capacity"; "capacity.*kwh"; "battery.*kwh";
                   "bat.*cap"; "kwh"; "capacity"] = true).
    { apply existsb_exists. exists "capacity". split; [simpl; tauto|].
      by rewrite search_literal. }
    by rewrite E.
  - rewrite (field_lookup _ "consumption" "AC_Usage"
               ["ac"; "air.*condition"; "hvac"; "ac.*usage"; "climate"])
      by reflexivity.
    unfold first_matching_column. cbn [List.find].
    assert (E : existsb (fun p => Re.search p (Py.lower col))
                  ["ac"; "air.*condition"; "hvac"; "ac.*usage"; "climate"]
                = true).
    { apply existsb_exists. exists "ac". split; [simpl; tauto|].
      rewrite search_literal by done.
      apply (contains_shorter "ac" "ity"), (contains_longer "cap" "acity").
      exact H. }
    by rewrite E.
Qed.

Lemma capacity_column_read_as_ac_witness :
  auto_detect_columns
    ["Battery_Capacity_kWh"; "Current_SoC_%"; "AC_Usage"; "Range_km"]
    "consumption" !! "Battery_Capacity_kWh" = Some "Battery_Capacity_kWh" ∧
  auto_detect_columns
    ["Battery_Capacity_kWh"; "Current_SoC_%"; "AC_Usage"; "Range_km"]
    "consumption" !! "AC_Usage" = Some "Battery_Capacity_kWh".
Proof.
  apply (capacity_column_read_as_ac "Battery_Capacity_kWh"
           ["Current_SoC_%"; "AC_Usage"; "Range_km"]).
  reflexivity.
Defined.

End CleanerFacts.

(** ** Station records *)

Section StationFacts.

Import Cleaner.
Local Open Scope Q_scope.

Lemma pretty_N_go_head (x : N) (s : string) :
  (0 < x)%N ->
  match pretty_N_go x s with
  | String c _ => c ≠ "0"%char
  | EmptyString => False
  end.
Proof.
  revert s. induction (N.lt_wf_0 x) as [x _ IH]; intros s Hx.
  rewrite pretty_N_go_step by done.
  destruct (decide (x `div` 10 = 0)%N) as [E|NE].
  - rewrite E, pretty_N_go_0.
    assert (Hlt : (x < 10)%N) by (by apply N.div_small_iff in E).
    rewrite N.mod_small by done.
    clear -Hx. unfold pretty_N_char.
    repeat case_match; first [done | lia].
  - apply IH; [|by apply N.neq_0_lt_0]. by apply N.div_lt.
Qed.

(** [str(i)] is not empty and has no leading zero, except for ["0"]
    itself. *)
Lemma pretty_nat_canonical (i : nat) :
  pretty i ≠ EmptyString ∧
  forall t, pretty i = String "0" t -> t = EmptyString.
Proof.
  unfold pretty, pretty_nat, pretty, pretty_N.
  destruct (decide (N.of_nat i = 0)%N) as [E|NE].
  - split; [done|]. by intros t [= <-].
  - pose proof (pretty_N_go_head (N.of_nat i) "" ltac:(lia)) as H.
    destruct (pretty_N_go (N.of_nat i) "") as [|c t']; [done|].
    split; [done|]. intros t [= -> _]. done.
Qed.

Lemma zeros_app_inj (a b : string) (m n : nat) :
  a ≠ EmptyString -> b ≠ EmptyString ->
  (forall t, a = String "0" t -> t = EmptyString) ->
  (forall t, b = String "0" t -> t = EmptyString) ->
  zeros m +:+ a = zeros n +:+ b -> a = b.
Proof.
  intros Ha Hb Za Zb. revert n.
  induction m as [|m IH]; intros [|n]; simpl; intros H; try done.
  - exfalso. specialize (Za _ H). destruct n; simpl in Za; [done|done].
  - exfalso. symmetry in H. specialize (Zb _ H).
    destruct m; simpl in Zb; [done|done].
  - injection H as H. by apply (IH n).
Qed.

Lemma station_id_inj (i j : nat) : station_id i = station_id j -> i = j.
Proof.
  unfold station_id, zfill. intros H. simpl in H. injection H as H.
  destruct (pretty_nat_canonical i) as [Hi Zi].
  destruct (pretty_nat_canonical j) as [Hj Zj].
  apply (inj pretty). by apply zeros_app_inj in H.
Qed.

Lemma same_place_sym (a b : StationRow) :
  same_place a b = same_place b a.
Proof.
  unfold same_place. f_equal; apply eq_iff_eq_true;
    rewrite !Qeq_bool_iff; split; intros H; by symmetry.
Qed.

Lemma geb_true (x y : Q) : Py.geb x y = true <-> y <= x.
Proof.
  unfold Py.geb. rewrite negb_true_iff. apply ltb_false.
Qed.

(** Validity looks at the coordinates only. *)
Lemma valid_coordinates_same_place (a b : StationRow) :
  same_place a b = true -> valid_coordinates a = valid_coordinates b.
Proof.
  unfold same_place. intros H. apply andb_true_iff in H as [E1 E2].
  apply Qeq_bool_iff in E1, E2.
  unfold valid_coordinates, between. apply eq_iff_eq_true.
  rewrite !andb_true_iff, !geb_true. by rewrite E1, E2.
Qed.

Lemma drop_duplicates_kept (seen rows : list StationRow) (r : StationRow) :
  r ∈ drop_duplicates seen rows ->
  r ∈ rows ∧ existsb (same_place r) seen = false.
Proof.
  revert seen. induction rows as [|r0 rows IH]; intros seen; simpl.
  - by intros ?%elem_of_nil.
  - destruct (existsb (same_place r0) seen) eqn:E.
    + intros H. apply IH in H as [? ?]. split; [by right|done].
    + intros H. apply elem_of_cons in H as [->|H].
      * split; [by left|done].
      * apply IH in H as [? H]. split; [by right|].
        simpl in H. by apply orb_false_iff in H as [_ ?].
Qed.

Lemma drop_duplicates_sublist (seen rows : list StationRow) :
  sublist (drop_duplicates seen rows) rows.
Proof.
  revert seen. induction rows as [|r0 rows IH]; intros seen; simpl; [done|].
  destruct (existsb (same_place r0) seen).
  - by apply sublist_cons.
  - by apply sublist_skip.
Qed.

(** Every row has its coordinates among the rows seen before or among
    the rows kept. *)
Lemma drop_duplicates_complete (seen rows : list StationRow)
    (r : StationRow) :
  r ∈ rows ->
  existsb (same_place r) seen = true ∨
  exists r', r' ∈ drop_duplicates seen rows ∧ same_place r r' = true.
Proof.
  revert seen. induction rows as [|r0 rows IH]; intros seen Hin.
  - by apply elem_of_nil in Hin.
  - simpl. destruct (existsb (same_place r0) seen) eqn:E.
    + apply elem_of_cons in Hin as [->|Hin]; [by left|by apply IH].
    + apply elem_of_cons in Hin as [->|Hin].
      * right. exists r0. split; [by left|].
        unfold same_place. apply andb_true_iff.
        split; apply Qeq_bool_iff; reflexivity.
      * destruct (IH (r0 :: seen) Hin) as [H|(r' & Hr' & Hs)].
        -- simpl in H. apply orb_true_iff in H as [H|H]; [|by left].
           right. exists r0. split; [by left|done].
        -- right. exists r'. split; [by right|done].
Qed.

Lemma drop_duplicates_apart (seen rows : list StationRow) :
  ForallOrdPairs (fun a b => same_place a b = false)
    (drop_duplicates seen rows).
Proof.
  revert seen. induction rows as [|r0 rows IH]; intros seen; simpl.
  - constructor.
  - destruct (existsb (same_place r0) seen); [apply IH|].
    constructor; [|apply IH].
    apply Forall_forall. intros b Hb.
    apply drop_duplicates_kept in Hb as [_ Hb]. simpl in Hb.
    apply orb_false_iff in Hb as [Hb _]. by rewrite same_place_sym.
Qed.

Lemma List_filter_Forall {A} (P : A -> Prop) (f : A -> bool) (l : list A) :
  Forall P l -> Forall P (List.filter f l).
Proof.
  induction 1 as [|x l Hx _ IH]; simpl; [done|].
  destruct (f x); [by constructor|done].
Qed.

Lemma List_filter_sublist {A} (f : A -> bool) (l : list A) :
  sublist (List.filter f l) l.
Proof.
  induction l as [|x l IH]; simpl; [done|].
  destruct (f x); [by apply sublist_skip|by apply sublist_cons].
Qed.

Lemma List_filter_apart {A} (R : A -> A -> Prop) (f : A -> bool)
    (l : list A) :
  ForallOrdPairs R l -> ForallOrdPairs R (List.filter f l).
Proof.
  induction 1 as [|x l Hx _ IH]; simpl; [constructor|].
  destruct (f x); [|done]. constructor; [|done].
  by apply List_filter_Forall.
Qed.

Lemma apart_lookup {A} (R : A -> A -> Prop) (l : list A) (i j : nat)
    (a b : A) :
  ForallOrdPairs R l ->
  l !! i = Some a -> l !! j = Some b -> (i < j)%nat -> R a b.
Proof.
  intros H. revert i j. induction H as [|x l Hx _ IH]; intros i j Hi Hj Hlt.
  - done.
  - destruct j as [|j]; [lia|]. simpl in Hj. destruct i as [|i].
    + injection Hi as <-. rewrite Forall_forall in Hx.
      apply Hx. by apply list_elem_of_lookup_2 in Hj.
    + simpl in Hi. apply (IH i j); [done..|lia].
Qed.

Lemma record_imap (l : list StationRow) (f : nat -> StationRow -> Station) :
  (forall i r, record (f i r) = r) -> record <$> imap f l = l.
Proof.
  intros Hf. revert f Hf. induction l as [|x l IH]; intros f Hf; [done|].
  simpl. rewrite Hf. f_equal. apply IH. intros i r. apply Hf.
Qed.

(** X20.  What [clean_stations_data] keeps.  The cleaned stations are
    rows of the input, in their order; each has a latitude in [-90, 90]
    and a longitude in [-180, 180] and carries the fixed fields; no two
    of them have the same coordinates; and every input row with valid
    coordinates is represented by a kept station at its place. *)
Theorem clean_station_rows_kept (rows : list StationRow) :
  sublist (record <$> clean_station_rows rows) rows ∧
  Forall (fun c => valid_coordinates (record c) = true ∧
                   health_score c = 100%Z ∧ is_verified c = false ∧
                   source c = "dataset")
         (clean_station_rows rows) ∧
  (forall i j a b,
     clean_station_rows rows !! i = Some a ->
     clean_station_rows rows !! j = Some b ->
     same_place (record a) (record b) = true -> i = j) ∧
  (forall r, r ∈ rows -> valid_coordinates r = true ->
             exists c, c ∈ clean_station_rows rows ∧
                       same_place r (record c) = true).
Proof.
  unfold clean_station_rows.
  set (kept := List.filter valid_coordinates (drop_duplicates [] rows)).
  set (f := fun (i : nat) (r : StationRow) =>
              {| record := r; health_score := 100; is_verified := false;
                 source := "dataset"; Station_ID := station_id i |}).
  assert (Hrec : record <$> imap f kept = kept) by (by apply record_imap).
  assert (Hlook : forall i c, imap f kept !! i = Some c ->
                              kept !! i = Some (record c) ∧ c = f i (record c)).
  { intros i c. rewrite list_lookup_imap.
    destruct (kept !! i) as [r|]; [|done]. simpl. by intros [= <-]. }
  assert (Hvalid : Forall (fun r => valid_coordinates r = true) kept).
  { apply Forall_forall. intros r Hr. unfold kept in Hr.
    apply list_elem_of_In, filter_In in Hr. tauto. }
  assert (Hapart : ForallOrdPairs (fun a b => same_place a b = false) kept)
    by apply List_filter_apart, drop_duplicates_apart.
  split_and!.
  - rewrite Hrec. unfold kept.
    etrans; [apply List_filter_sublist|apply drop_duplicates_sublist].
  - apply Forall_forall. intros c Hc.
    apply list_elem_of_lookup_1 in Hc as [i Hc].
    apply Hlook in Hc as [Hk ->]. split_and!; try done.
    rewrite Forall_forall in Hvalid. apply Hvalid.
    by apply list_elem_of_lookup_2 in Hk.
  - intros i j a b Ha Hb Hs.
    apply Hlook in Ha as [Ha _]. apply Hlook in Hb as [Hb _].
    destruct (Nat.lt_trichotomy i j) as [Hlt|[->|Hlt]]; [|done|].
    + pose proof (apart_lookup _ _ _ _ _ _ Hapart Ha Hb Hlt) as H.
      simpl in H. by rewrite H in Hs.
    + pose proof (apart_lookup _ _ _ _ _ _ Hapart Hb Ha Hlt) as H.
      simpl in H. rewrite same_place_sym in H. by rewrite H in Hs.
  - intros r Hin Hv.
    destruct (drop_duplicates_complete [] rows r Hin) as [H|(r' & Hr' & Hs)];
      [done|].
    assert (Hk : r' ∈ kept).
    { unfold kept. apply list_elem_of_In, filter_In.
      split; [by apply list_elem_of_In|].
      by rewrite <- (valid_coordinates_same_place r r'). }
    apply list_elem_of_lookup_1 in Hk as [i Hk].
    exists (f i r'). split; [|done].
    apply (list_elem_of_lookup_2 _ i). rewrite list_lookup_imap.
    by rewrite Hk.
Qed.

(** X21.  Station ids.  The station at position [i] of the cleaned frame
    gets the id ["ST"] followed by [i] padded with zeros to six digits,
    and no two cleaned stations share an id, however many there are. *)
Theorem station_ids_distinct (rows : list StationRow) (i j : nat)
    (a b : Station) :
  clean_station_rows rows !! i = Some a ->
  clean_station_rows rows !! j = Some b ->
  Station_ID a = station_id i ∧ (Station_ID a = Station_ID b -> i = j).
Proof.
  unfold clean_station_rows. rewrite !list_lookup_imap.
  destruct (_ !! i) as [ra|]; [|done]. destruct (_ !! j) as [rb|]; [|done].
  simpl. intros [= <-] [= <-]. simpl. split; [done|]. apply station_id_inj.
Qed.

Lemma station_ids_distinct_witness :
  Station_ID
    (mkStation (mkStationRow "Alpha" 10 20 None None) 100 false "dataset"
       "ST000000") = station_id 0 ∧
  (Station_ID
     (mkStation (mkStationRow "Alpha" 10 20 None None) 100 false "dataset"
        "ST000000") =
   Station_ID
     (mkStation (mkStationRow "Gamma" 30 40 None None) 100 false "dataset"
        "ST000001") -> 0%nat = 1%nat).
Proof.
  apply (station_ids_distinct
           [mkStationRow "Alpha" 10 20 None None;
            mkStationRow "Beta" 10 20 None None;
            mkStationRow "Gamma" 30 40 None None]); reflexivity.
Defined.

End StationFacts.

(** ** The training script: target column *)

Section TargetFacts.

Import ApiModel TrainingPrep.

(** The nine candidate names reduce to four words. *)
Lemma names_target_words (col : string) :
  names_target col =
  contains "consumption" (Py.lower col) || contains "efficiency" (Py.lower col)
  || contains "energy" (Py.lower col) || contains "kwh" (Py.lower col).
Proof.
  unfold names_target. set (s := Py.lower col).
  apply eq_iff_eq_true. rewrite existsb_exists, !orb_true_iff. split.
  - intros (p & Hin & Hs). unfold possible_target_names in Hin.
    simpl in Hin.
    destruct Hin as [<-|[<-|[<-|[<-|[<-|[<-|[<-|[<-|[<-|[]]]]]]]]]];
      change (Py.lower _) with "consumption" in Hs
      || change (Py.lower _) with "energy_consumption" in Hs
      || change (Py.lower _) with "kwh_per_km" in Hs
      || change (Py.lower _) with "efficiency" in Hs
      || change (Py.lower _) with "kwh/km" in Hs
      || change (Py.lower _) with "energy" in Hs
      || change (Py.lower _) with "kwh" in Hs.
    + tauto.
    + left. left. left. by apply (contains_longer "energy_" "consumption").
    + right. by apply (contains_shorter "kwh" "_per_km").
    + tauto.
    + left. left. left. by apply (contains_longer "energy_" "consumption").
    + tauto.
    + right. by apply (contains_shorter "kwh" "/km").
    + tauto.
    + tauto.
  - intros [[[H|H]|H]|H].
    + exists "consumption". split; [simpl; tauto|done].
    + exists "efficiency". split; [simpl; tauto|done].
    + exists "energy". split; [simpl; tauto|done].
    + exists "kwh". split; [simpl; tauto|done].
Qed.

Lemma scan_target_find (columns : list string) :
  scan_target columns None = List.find names_target columns.
Proof.
  induction columns as [|col rest IH]; [done|]. simpl.
  destruct (names_target col) eqn:E; [|done].
  destruct (String.eqb_spec col "") as [->|Hne]; [|done].
  by vm_compute in E.
Qed.

(** X22.  Which column the training script predicts: the first column
    whose lower-cased name contains [consumption], [efficiency],
    [energy] or [kwh]; when there is none, the last numeric column; and
    the script fails only when there is neither. *)
Theorem target_column_detected (columns numeric_cols : list string) :
  target_column columns numeric_cols =
  match List.find (fun col => contains "consumption" (Py.lower col)
                              || contains "efficiency" (Py.lower col)
                              || contains "energy" (Py.lower col)
                              || contains "kwh" (Py.lower col)) columns with
  | Some col => Some col
  | None => last numeric_cols
  end.
Proof.
  unfold target_column. rewrite scan_target_find.
  by rewrite (find_pointwise _ _ columns names_target_words).
Qed.

End TargetFacts.
